(** * MITRE ATT&CK coverage tracker: the normalizer, the coverage engine and
    the detection store of [MITREAttackTracker], embedded and verified.

    The corpus document and the imported file are loosely typed JSON, so they
    are kept as JavaScript values; a property read, a method call on the wrong
    kind of value and a comparator can throw, which is explicit in [result].
    Detection records are the object literal that [saveDetection] builds. *)

From Stdlib Require Import List String Ascii Bool ZArith QArith Qpower Qround Lia Lqa.
From Stdlib Require Import Sorting.Sorted Sorting.Permutation.
From Stdlib Require Structures.OrderedTypeEx.
Import ListNotations.
Local Open Scope string_scope.
Local Open Scope Z_scope.

(* ===================================================================== *)
(** * JavaScript numbers, values and exceptions *)
(* ===================================================================== *)

Module Js.

(** A double: not-a-number, the two infinities, or a finite value, kept as
    the rational it is.  Products and quotients are rounded to the nearest
    double as the language does.  Sums and differences are left exact: the
    tracker adds the coverage units 0.0 and 1.0 over an array, so its sums
    are integers below 2^32, and of a difference it only reads the sign. *)
Inductive number : Type :=
| NaN
| PosInf
| NegInf
| Fin (q : Q).

Definition num_of_Z (z : Z) : number := Fin (inject_Z z).
Definition num_of_nat (n : nat) : number := num_of_Z (Z.of_nat n).

Definition Qis_zero (q : Q) : bool := Qeq_bool q 0.
Definition Qis_pos (q : Q) : bool := negb (Qle_bool q 0).
Definition Qis_neg (q : Q) : bool := negb (Qle_bool 0 q).

(** [a + b] and [a - b] of the language (signed zeros are not told
    apart). *)
Definition num_add (a b : number) : number :=
  match a, b with
  | NaN, _ | _, NaN => NaN
  | PosInf, NegInf | NegInf, PosInf => NaN
  | PosInf, _ | _, PosInf => PosInf
  | NegInf, _ | _, NegInf => NegInf
  | Fin x, Fin y => Fin (x + y)
  end.

Definition num_neg (a : number) : number :=
  match a with
  | NaN => NaN
  | PosInf => NegInf
  | NegInf => PosInf
  | Fin x => Fin (- x)
  end.

Definition num_sub (a b : number) : number := num_add a (num_neg b).

Definition num_sign (a : number) : option comparison :=
  match a with
  | NaN => None
  | PosInf => Some Gt
  | NegInf => Some Lt
  | Fin x => Some (x ?= 0)%Q
  end.

(** The integer nearest to [x], the even one of two that are equally
    near. *)
Definition nearest_even (x : Q) : Z :=
  let f := Qfloor x in
  match (x - inject_Z f ?= 1 # 2)%Q with
  | Lt => f
  | Gt => f + 1
  | Eq => if Z.even f then f else f + 1
  end.

(** The exponent of the last place of the doubles around a positive [q]:
    the [e] with [2^52 <= q / 2^e < 2^53], and -1074 for the subnormal
    ones.  The lengths of numerator and denominator give it up to one. *)
Definition exponent (q : Q) : Z :=
  let e0 := Z.log2 (Qnum q) - Z.log2 (Zpos (Qden q)) - 53 in
  let e1 := if Qle_bool (2 ^ 53) (q / 2 ^ e0) then e0 + 1 else e0 in
  Z.max e1 (-1074).

(** The double nearest to a rational, ties to the even significand, and
    infinite from 2^1024 on. *)
Definition round_pos (q : Q) : number :=
  let e := exponent q in
  let r := (inject_Z (nearest_even (q / 2 ^ e)) * 2 ^ e)%Q in
  if Qle_bool (2 ^ 1024) r then PosInf else Fin (Qred r).

Definition round (q : Q) : number :=
  let q := Qred q in
  match (q ?= 0)%Q with
  | Eq => Fin 0
  | Gt => round_pos q
  | Lt => num_neg (round_pos (- q))
  end.

(** [a * b] and [a / b] of the language. *)
Definition num_mul (a b : number) : number :=
  match a, b with
  | Fin x, Fin y => round (x * y)
  | _, _ =>
      match num_sign a, num_sign b with
      | Some Eq, _ | _, Some Eq => NaN
      | Some Gt, Some Gt | Some Lt, Some Lt => PosInf
      | Some Gt, Some Lt | Some Lt, Some Gt => NegInf
      | _, _ => NaN
      end
  end.

Definition num_div (a b : number) : number :=
  match a, b with
  | NaN, _ | _, NaN => NaN
  | Fin x, Fin y =>
      if Qis_zero y
      then (if Qis_zero x then NaN else if Qis_pos x then PosInf else NegInf)
      else round (x / y)
  | Fin _, _ => Fin 0
  | _, Fin y => if Qis_neg y then num_neg a else a
  | _, _ => NaN
  end.

(** [a === b] on numbers: NaN differs from everything, itself included. *)
Definition num_eqb (a b : number) : bool :=
  match a, b with
  | PosInf, PosInf | NegInf, NegInf => true
  | Fin x, Fin y => Qeq_bool x y
  | _, _ => false
  end.

(** [a > b] on numbers: false as soon as one side is NaN. *)
Definition num_gtb (a b : number) : bool :=
  match a, b with
  | NaN, _ | _, NaN => false
  | PosInf, PosInf | NegInf, _ | _, PosInf => false
  | PosInf, _ | _, NegInf => true
  | Fin x, Fin y => negb (Qle_bool x y)
  end.

(** Two numbers denote the same double. *)
Inductive num_same : number -> number -> Prop :=
| same_nan : num_same NaN NaN
| same_pinf : num_same PosInf PosInf
| same_ninf : num_same NegInf NegInf
| same_fin x y : (x == y)%Q -> num_same (Fin x) (Fin y).

(** The values that [JSON.parse] produces, together with [undefined], which
    is what reading an absent property gives.  An object is the list of its
    own properties, each name once. *)
#[warnings="-register-all"]
Inductive value : Type :=
| VUndef
| VNull
| VBool (b : bool)
| VNum (n : number)
| VStr (s : string)
| VArr (items : list value)
| VObj (props : list (string * value)).

(** The exceptions the modelled code can raise. *)
Inductive exn : Type :=
| TypeError
| SyntaxError.

Inductive result (A : Type) : Type :=
| Ok (a : A)
| Throw (e : exn).
Arguments Ok {A} a.
Arguments Throw {A} e.

Definition bind {A B : Type} (m : result A) (k : A -> result B) : result B :=
  match m with
  | Ok a => k a
  | Throw e => Throw e
  end.

Definition completes {A : Type} (m : result A) : bool :=
  match m with
  | Ok _ => true
  | Throw _ => false
  end.

(** ToBoolean. *)
Definition truthy (v : value) : bool :=
  match v with
  | VUndef | VNull => false
  | VBool b => b
  | VNum NaN => false
  | VNum (Fin q) => negb (Qis_zero q)
  | VNum _ => true
  | VStr s => negb (s =? "")%string
  | VArr _ | VObj _ => true
  end.

Fixpoint lookup (k : string) (props : list (string * value)) : value :=
  match props with
  | [] => VUndef
  | (k', v) :: rest => if (k =? k')%string then v else lookup k rest
  end.

(** Whether an object has a property of its own under [k]. *)
Definition has_key (k : string) (props : list (string * value)) : bool :=
  existsb (fun entry => (k =? fst entry)%string) props.

(** Whether a value converts to a primitive, as a template literal, the
    argument of [localeCompare] and the [Date] constructor ask of it.  An
    object of a parsed document converts, to ['[object Object]'], unless it
    has a property [toString] of its own: that is no function, and [valueOf]
    gives no primitive, which is a TypeError.  An array is joined, so its
    elements are converted. *)
Fixpoint converts (v : value) : bool :=
  match v with
  | VObj props => negb (has_key "toString" props)
  | VArr items => forallb converts items
  | _ => true
  end.

(** [v.k] for the property names the tracker reads ([type], [name],
    [objects], [detections], ...): a TypeError on [null] and [undefined], the
    property of an object, and [undefined] on numbers, booleans, strings and
    arrays, none of which has a property of one of those names. *)
Definition get (v : value) (k : string) : result value :=
  match v with
  | VUndef | VNull => Throw TypeError
  | VObj props => Ok (lookup k props)
  | _ => Ok VUndef
  end.

(** [v.k] where [v] was just tested truthy, or is the result of a [find]
    that matched on one of its properties: the read cannot throw. *)
Definition field (v : value) (k : string) : value :=
  match get v k with
  | Ok x => x
  | Throw _ => VUndef
  end.

(** [a === b] for two values that are not the same allocation (they sit at
    different places of a parsed document, or one is a literal): primitives
    compare by value, arrays and objects are never identical. *)
Definition strict_eq (a b : value) : bool :=
  match a, b with
  | VUndef, VUndef | VNull, VNull => true
  | VBool x, VBool y => Bool.eqb x y
  | VNum x, VNum y => num_eqb x y
  | VStr x, VStr y => (x =? y)%string
  | _, _ => false
  end.

(** [a || b]. *)
Definition or_else (a b : value) : value := if truthy a then a else b.

(** The receiver of [.find] and [.filter]: only an array has them, calling
    them on any other value is a TypeError. *)
Definition as_array (v : value) : result (list value) :=
  match v with
  | VArr items => Ok items
  | _ => Throw TypeError
  end.

Section ArrayMethods.
Context {A : Type}.

(** [arr.find(cb)]: the first element on which the callback is truthy,
    [undefined] when there is none; a throwing callback aborts the scan. *)
Fixpoint find (cb : value -> result bool) (items : list value) : result value :=
  match items with
  | [] => Ok VUndef
  | x :: rest =>
      bind (cb x) (fun hit => if hit then Ok x else find cb rest)
  end.

(** [arr.filter(cb)]. *)
Fixpoint filter (cb : A -> result bool) (items : list A) : result (list A) :=
  match items with
  | [] => Ok []
  | x :: rest =>
      bind (cb x) (fun keep =>
      bind (filter cb rest) (fun kept =>
      Ok (if keep then x :: kept else kept)))
  end.

(** [arr.map(cb)]. *)
Fixpoint map {B : Type} (cb : A -> result B) (items : list A) : result (list B) :=
  match items with
  | [] => Ok []
  | x :: rest =>
      bind (cb x) (fun y =>
      bind (map cb rest) (fun ys => Ok (y :: ys)))
  end.

(** [arr.sort(comparefn)].  The standard fixes the result only when the
    comparator is a consistent order, and then it is the stable sorted
    arrangement; which pairs are handed to the comparator is left to the
    engine.  The model inserts every element, last to first, into the
    sorted rest: an element moves right past those it compares greater
    than and stops at the first it does not, so equal elements keep their
    order.  A comparator result of NaN counts as 0. *)
Variable comparefn : A -> A -> result number.

Fixpoint sort_insert (x : A) (sorted : list A) : result (list A) :=
  match sorted with
  | [] => Ok [x]
  | y :: rest =>
      bind (comparefn x y) (fun v =>
      if num_gtb v (Fin 0)
      then bind (sort_insert x rest) (fun r => Ok (y :: r))
      else Ok (x :: y :: rest))
  end.

Fixpoint sort (items : list A) : result (list A) :=
  match items with
  | [] => Ok []
  | x :: rest => bind (sort rest) (sort_insert x)
  end.
End ArrayMethods.

(** The arrangement that [sort] produces when the comparator never throws
    and [gt x y] tells that it is positive on [x] and [y]. *)
Section StableSort.
Context {A : Type}.
Variable gt : A -> A -> bool.

Fixpoint stable_insert (x : A) (sorted : list A) : list A :=
  match sorted with
  | [] => [x]
  | y :: rest => if gt x y then y :: stable_insert x rest else x :: y :: rest
  end.

Fixpoint stable_sort (items : list A) : list A :=
  match items with
  | [] => []
  | x :: rest => stable_insert x (stable_sort rest)
  end.
End StableSort.

(* ===================================================================== *)
(** * Strings *)
(* ===================================================================== *)

(** A string is a sequence of code units below 256, that is, text of the
    Latin-1 range; text with other code units is outside the model.
    Searching, splitting, trimming and the lower case are those of the
    language on every such string.  The upper case of some of these code
    units lies outside the range, so [toUpperCase] is that of ASCII text
    ([is_ascii]), for which the properties that depend on it are stated. *)

Fixpoint is_ascii (s : string) : bool :=
  match s with
  | EmptyString => true
  | String c rest => (nat_of_ascii c <? 128)%nat && is_ascii rest
  end.

(** [s.includes(sub)]. *)
Fixpoint includes (sub s : string) : bool :=
  prefix sub s ||
  match s with
  | EmptyString => false
  | String _ rest => includes sub rest
  end.

(** [s.split(sep)] for a one-character separator, as the first piece and the
    pieces after it: the result of [split] always has a piece at index 0. *)
Fixpoint split (sep : ascii) (s : string) : string * list string :=
  match s with
  | EmptyString => (EmptyString, [])
  | String c rest =>
      let (piece, pieces) := split sep rest in
      if Ascii.eqb c sep then (EmptyString, piece :: pieces)
      else (String c piece, pieces)
  end.

(** [s.split(sep)[0]] and [s.split(sep)[1]]. *)
Definition split_0 (sep : ascii) (s : string) : string := fst (split sep s).
Definition split_1 (sep : ascii) (s : string) : option string :=
  match snd (split sep s) with
  | [] => None
  | piece :: _ => Some piece
  end.

(** [s.substring(1)]. *)
Definition substring_1 (s : string) : string :=
  match s with
  | EmptyString => EmptyString
  | String _ rest => rest
  end.

(** The white space and the line terminators of the language below 256:
    tab, line feed, vertical tab, form feed, carriage return, space and the
    no-break space. *)
Definition is_white_space (c : ascii) : bool :=
  let n := nat_of_ascii c in
  ((9 <=? n) && (n <=? 13) || (n =? 32) || (n =? 160))%nat.

Definition digit_value (c : ascii) : option Z :=
  let n := nat_of_ascii c in
  if ((48 <=? n) && (n <=? 57))%nat then Some (Z.of_nat n - 48) else None.

Fixpoint skip_white_space (s : string) : string :=
  match s with
  | String c rest => if is_white_space c then skip_white_space rest else s
  | EmptyString => s
  end.

(** The longest run of decimal digits at the front of [s], continuing the
    number [acc] read so far: the number, how many digits, what follows. *)
Fixpoint take_digits (acc : Z) (count : nat) (s : string) : Z * nat * string :=
  match s with
  | String c rest =>
      match digit_value c with
      | Some d => take_digits (10 * acc + d) (S count) rest
      | None => (acc, count, s)
      end
  | EmptyString => (acc, count, s)
  end.

(** An optional sign: whether it is a minus, and what follows it. *)
Definition take_sign (s : string) : bool * string :=
  match s with
  | String "-"%char rest => (true, rest)
  | String "+"%char rest => (false, rest)
  | _ => (false, s)
  end.

(** The power of ten of an exponent part [e], [E] with an optional sign
    and at least one digit; 0 when [s] does not start with one. *)
Definition exponent_part (s : string) : Z :=
  match s with
  | String c rest =>
      if (Ascii.eqb c "e" || Ascii.eqb c "E")%bool then
        let (minus, rest') := take_sign rest in
        match take_digits 0 0 rest' with
        | (_, O, _) => 0
        | (e, _, _) => if minus then - e else e
        end
      else 0
  | EmptyString => 0
  end.

(** An unsigned decimal literal at the front of [s]: [Infinity], or digits
    with an optional fraction and exponent, or a fraction starting with the
    point; [None] when [s] starts with none of them. *)
Definition unsigned_literal (s : string) : option number :=
  if prefix "Infinity" s then Some PosInf else
  let '(int_part, int_digits, after_int) := take_digits 0 0 s in
  let '(frac_part, frac_digits, after_frac) :=
    match after_int with
    | String "."%char rest => take_digits 0 0 rest
    | _ => (0, O, after_int)
    end in
  match int_digits, frac_digits with
  | O, O => None
  | _, _ =>
      let mantissa :=
        (inject_Z int_part + inject_Z frac_part / inject_Z (10 ^ Z.of_nat frac_digits))%Q in
      Some (round (mantissa * Qpower 10 (exponent_part after_frac)))
  end.

(** [parseFloat(s)]: leading white space is skipped, then the longest
    decimal literal is read and whatever follows it is ignored; NaN when
    there is no literal.  The value of the literal is rounded to the nearest
    double. *)
Definition parseFloat (s : string) : number :=
  let (minus, rest) := take_sign (skip_white_space s) in
  match unsigned_literal rest with
  | None => NaN
  | Some n => if minus then num_neg n else n
  end.

(** [s.trim()]. *)
Fixpoint trim_end (s : string) : string :=
  match s with
  | EmptyString => EmptyString
  | String c rest =>
      match trim_end rest with
      | EmptyString => if is_white_space c then EmptyString else String c EmptyString
      | kept => String c kept
      end
  end.

Definition trim (s : string) : string := trim_end (skip_white_space s).

(** [s.toUpperCase()] of ASCII text. *)
Definition upper_char (c : ascii) : ascii :=
  let n := nat_of_ascii c in
  if ((97 <=? n) && (n <=? 122))%nat then ascii_of_nat (n - 32) else c.

Fixpoint toUpperCase (s : string) : string :=
  match s with
  | EmptyString => EmptyString
  | String c rest => String (upper_char c) (toUpperCase rest)
  end.

End Js.


Declare Scope js_scope.
Delimit Scope js_scope with js.
Notation "x <- m ;; k" := (Js.bind m (fun x => k))
  (at level 61, m at next level, right associativity) : js_scope.
Local Open Scope js_scope.

Import Js.

(* ===================================================================== *)
(** * The data model *)
(* ===================================================================== *)

(** What the page's host supplies: locale-aware collation, the rendering of a
    number in a template literal, and
    [new Date(v).toLocaleDateString('en-US', ...)] with a long and with a
    short month, for a value that converts to a primitive. *)
Module Host.
Record t : Type := mk {
  localeCompare : string -> string -> Z;
  numberToString : number -> string;
  longDate : value -> string;
  shortDate : value -> string
}.
End Host.

(** The object literal of [this.tactics]; every field is copied from the
    corpus object as it is, so it may be [undefined] or of any kind. *)
Module Tactic.
Record t : Type := mk {
  id : value;
  name : value;
  shortName : value;
  description : value
}.
End Tactic.

(** The object literal of [this.techniques]. *)
Module Technique.
Record t : Type := mk {
  id : value;
  stixId : value;
  name : value;
  description : value;
  isSubTechnique : bool;
  parentId : value;
  tactics : list value;
  platforms : value;
  url : value
}.
End Technique.

(** The object literal of [saveDetection].  [createdAt] is a property that
    only the create branch adds. *)
Module Detection.
Record t : Type := mk {
  id : string;
  name : string;
  description : string;
  platform : string;
  severity : string;
  isActive : bool;
  technique1 : string;
  technique2 : string;
  technique3 : string;
  updatedAt : string;
  createdAt : option string
}.

(** The record as the JSON value that is stored and exported. *)
Definition to_value (d : t) : value :=
  VObj ([("id", VStr (id d)); ("name", VStr (name d));
         ("description", VStr (description d)); ("platform", VStr (platform d));
         ("severity", VStr (severity d)); ("isActive", VBool (isActive d));
         ("technique1", VStr (technique1 d)); ("technique2", VStr (technique2 d));
         ("technique3", VStr (technique3 d)); ("updatedAt", VStr (updatedAt d))]
        ++ match createdAt d with
           | Some c => [("createdAt", VStr c)]
           | None => []
           end).
End Detection.

(** The fields of [this] that the engine reads and writes.
    [mitreVersionNumber] and [mitreVersionDetails] do not exist until
    [processAttackData] assigns them; [editingDetectionId] is [null] or the
    id under edit. *)
Record Tracker : Type := mkTracker {
  attackData : value;
  mitreVersion : string;
  mitreVersionNumber : option string;
  mitreVersionDetails : option string;
  techniques : list Technique.t;
  tactics : list Tactic.t;
  detections : list Detection.t;
  editingDetectionId : option string
}.

(** The constructor's assignments. *)
Definition constructed : Tracker :=
  {| attackData := VNull; mitreVersion := "Loading..."; mitreVersionNumber := None;
     mitreVersionDetails := None; techniques := []; tactics := []; detections := [];
     editingDetectionId := None |}.

Definition set_attackData (v : value) (this : Tracker) : Tracker :=
  mkTracker v (mitreVersion this) (mitreVersionNumber this) (mitreVersionDetails this)
            (techniques this) (tactics this) (detections this) (editingDetectionId this).
Definition set_mitreVersion (v : string) (this : Tracker) : Tracker :=
  mkTracker (attackData this) v (mitreVersionNumber this) (mitreVersionDetails this)
            (techniques this) (tactics this) (detections this) (editingDetectionId this).
Definition set_mitreVersionNumber (v : string) (this : Tracker) : Tracker :=
  mkTracker (attackData this) (mitreVersion this) (Some v) (mitreVersionDetails this)
            (techniques this) (tactics this) (detections this) (editingDetectionId this).
Definition set_mitreVersionDetails (v : string) (this : Tracker) : Tracker :=
  mkTracker (attackData this) (mitreVersion this) (mitreVersionNumber this) (Some v)
            (techniques this) (tactics this) (detections this) (editingDetectionId this).
Definition set_techniques (v : list Technique.t) (this : Tracker) : Tracker :=
  mkTracker (attackData this) (mitreVersion this) (mitreVersionNumber this)
            (mitreVersionDetails this) v (tactics this) (detections this)
            (editingDetectionId this).
Definition set_tactics (v : list Tactic.t) (this : Tracker) : Tracker :=
  mkTracker (attackData this) (mitreVersion this) (mitreVersionNumber this)
            (mitreVersionDetails this) (techniques this) v (detections this)
            (editingDetectionId this).
Definition set_detections (v : list Detection.t) (this : Tracker) : Tracker :=
  mkTracker (attackData this) (mitreVersion this) (mitreVersionNumber this)
            (mitreVersionDetails this) (techniques this) (tactics this) v
            (editingDetectionId this).
Definition set_editingDetectionId (v : option string) (this : Tracker) : Tracker :=
  mkTracker (attackData this) (mitreVersion this) (mitreVersionNumber this)
            (mitreVersionDetails this) (techniques this) (tactics this) (detections this) v.

(** Two states with the same corpus, collections and edit mark: they differ
    in the version label at most. *)
Definition same_model (a b : Tracker) : Prop :=
  attackData a = attackData b /\ techniques a = techniques b /\ tactics a = tactics b
  /\ detections a = detections b /\ editingDetectionId a = editingDetectionId b.

(** How a method call ends. *)
Inductive completion : Type :=
| Normal
| Abrupt (e : exn).

(* ===================================================================== *)
(** * The corpus normalizer: [processAttackData] *)
(* ===================================================================== *)

Module Normalizer.
Section WithHost.
Variable host : Host.t.

(** The text of a value that converts to a string. *)
Fixpoint toString (v : value) : string :=
  match v with
  | VUndef => "undefined"
  | VNull => "null"
  | VBool true => "true"
  | VBool false => "false"
  | VNum n => Host.numberToString host n
  | VStr s => s
  | VArr items =>
      String.concat ","
        (List.map (fun item => match item with
                               | VUndef | VNull => ""
                               | _ => toString item
                               end) items)
  | VObj _ => "[object Object]"
  end.

(** A value inside a template literal, or as the argument of
    [localeCompare]: a TypeError when it does not convert. *)
Definition ToString (v : value) : result string :=
  if converts v then Ok (toString v) else Throw TypeError.

(** [new Date(v).toLocaleDateString('en-US', ...)] with the long and with
    the short month: the constructor converts its argument first. *)
Definition longDate (v : value) : result string :=
  if converts v then Ok (Host.longDate host v) else Throw TypeError.

Definition shortDate (v : value) : result string :=
  if converts v then Ok (Host.shortDate host v) else Throw TypeError.

(** [obj => obj.type === kind]. *)
Definition has_type (kind : string) (obj : value) : result bool :=
  ty <- get obj "type" ;; Ok (strict_eq ty (VStr kind)).

(** [obj => obj.type === 'identity' && obj.name === 'The MITRE Corporation']. *)
Definition is_mitre_identity (obj : value) : result bool :=
  ty <- get obj "type" ;;
  if strict_eq ty (VStr "identity")
  then nm <- get obj "name" ;; Ok (strict_eq nm (VStr "The MITRE Corporation"))
  else Ok false.

(** The [.map] callback of the tactics. *)
Definition toTactic (tactic : value) : result Tactic.t :=
  id <- get tactic "id" ;;
  name <- get tactic "name" ;;
  shortName <- get tactic "x_mitre_shortname" ;;
  description <- get tactic "description" ;;
  Ok (Tactic.mk id name shortName description).

(** [(a, b) => a.name.localeCompare(b.name)]: only a string has the method,
    and its argument is converted to a string. *)
Definition compareTactics (a b : Tactic.t) : result number :=
  match Tactic.name a with
  | VStr an =>
      that <- ToString (Tactic.name b) ;;
      Ok (num_of_Z (Host.localeCompare host an that))
  | _ => Throw TypeError
  end.

(** The chain that is assigned to [this.tactics]. *)
Definition extractTactics (objects : value) : result (list Tactic.t) :=
  items <- as_array objects ;;
  selected <- Js.filter (has_type "x-mitre-tactic") items ;;
  mapped <- Js.map toTactic selected ;;
  Js.sort compareTactics mapped.

(** [obj => obj.type === 'attack-pattern' && !obj.revoked && !obj.deprecated]. *)
Definition is_live_technique (obj : value) : result bool :=
  ty <- get obj "type" ;;
  if strict_eq ty (VStr "attack-pattern") then
    revoked <- get obj "revoked" ;;
    if negb (truthy revoked) then
      deprecated <- get obj "deprecated" ;;
      Ok (negb (truthy deprecated))
    else Ok false
  else Ok false.

(** [ref => ref.source_name === 'mitre-attack'] and
    [phase => phase.kill_chain_name === 'mitre-attack']. *)
Definition named_mitre_attack (key : string) (entry : value) : result bool :=
  nm <- get entry key ;; Ok (strict_eq nm (VStr "mitre-attack")).

(** [techniqueId.includes('.')]: strings and arrays have the method. *)
Definition id_includes_dot (techniqueId : value) : result bool :=
  match techniqueId with
  | VStr s => Ok (includes "." s)
  | VArr items => Ok (existsb (strict_eq (VStr ".")) items)
  | _ => Throw TypeError
  end.

(** [techniqueId.split('.')[0]]: only strings have the method. *)
Definition id_split_0 (techniqueId : value) : result value :=
  match techniqueId with
  | VStr s => Ok (VStr (split_0 "." s))
  | _ => Throw TypeError
  end.

(** The [.map] callback of the techniques. *)
Definition toTechnique (tech : value) : result Technique.t :=
  external_references <- get tech "external_references" ;;
  externalRefs <- as_array (or_else external_references (VArr [])) ;;
  mitreRef <- Js.find (named_mitre_attack "source_name") externalRefs ;;
  techniqueId <- (if truthy mitreRef then get mitreRef "external_id" else Ok (VStr "")) ;;
  isSubTechnique <- id_includes_dot techniqueId ;;
  parentId <- (if isSubTechnique then id_split_0 techniqueId else Ok VNull) ;;
  kill_chain_phases <- get tech "kill_chain_phases" ;;
  killChainPhases <- as_array (or_else kill_chain_phases (VArr [])) ;;
  phases <- Js.filter (named_mitre_attack "kill_chain_name") killChainPhases ;;
  techniqueTactics <- Js.map (fun phase => get phase "phase_name") phases ;;
  stixId <- get tech "id" ;;
  name <- get tech "name" ;;
  description <- get tech "description" ;;
  x_mitre_platforms <- get tech "x_mitre_platforms" ;;
  url <- (if truthy mitreRef then get mitreRef "url" else Ok (VStr "")) ;;
  Ok (Technique.mk techniqueId stixId name description isSubTechnique parentId
        techniqueTactics (or_else x_mitre_platforms (VArr [])) url).

(** [parseFloat(id.substring(1).split('.')[0])]: the identifier's leading
    number.  Only a string has [substring]. *)
Definition mainNumber (id : value) : result number :=
  match id with
  | VStr s => Ok (parseFloat (split_0 "." (substring_1 s)))
  | _ => Throw TypeError
  end.

(** [id.includes('.') ? parseFloat(id.split('.')[1]) : 0]: the number of the
    sub-technique suffix.  [parseFloat(undefined)] is NaN. *)
Definition subNumber (id : value) : result number :=
  isSub <- id_includes_dot id ;;
  if isSub then
    match id with
    | VStr s =>
        Ok (match split_1 "." s with
            | Some piece => parseFloat piece
            | None => NaN
            end)
    | _ => Throw TypeError
    end
  else Ok (num_of_Z 0).

(** The comparator of the techniques. *)
Definition compareTechniques (a b : Technique.t) : result number :=
  aNum <- mainNumber (Technique.id a) ;;
  bNum <- mainNumber (Technique.id b) ;;
  if negb (num_eqb aNum bNum) then Ok (num_sub aNum bNum)
  else
    aSubNum <- subNumber (Technique.id a) ;;
    bSubNum <- subNumber (Technique.id b) ;;
    Ok (num_sub aSubNum bSubNum).

(** The chain that is assigned to [this.techniques]: up to the filter on
    the ids, and then sorted. *)
Definition identifiedTechniques (objects : value) : result (list Technique.t) :=
  items <- as_array objects ;;
  live <- Js.filter is_live_technique items ;;
  mapped <- Js.map toTechnique live ;;
  Js.filter (fun tech => Ok (truthy (Technique.id tech))) mapped.

Definition extractTechniques (objects : value) : result (list Technique.t) :=
  identified <- identifiedTechniques objects ;;
  Js.sort compareTechniques identified.

(** The rest of the method after a computation that may end it abruptly. *)
Definition run {A : Type} (this : Tracker) (m : result A)
    (k : A -> Tracker * completion) : Tracker * completion :=
  match m with
  | Ok a => k a
  | Throw e => (this, Abrupt e)
  end.

(** The guard that both copies start with,
    [!this.attackData || !this.attackData.objects]: the collection when the
    method goes on, [None] when it returns at once. *)
Definition objects_of (this : Tracker) : option value :=
  if truthy (attackData this) && truthy (field (attackData this) "objects")
  then Some (field (attackData this) "objects")
  else None.

(** A string field of [this] that has been assigned. *)
Definition text (field : option string) : string :=
  match field with
  | Some s => s
  | None => "undefined"
  end.

Definition nonempty (s : string) : bool := negb (s =? "")%string.

(** The two assignments that both copies end with. *)
Definition assignCollections (objects : value) (this : Tracker) : Tracker * completion :=
  run this (extractTactics objects) (fun tactics =>
  let this := set_tactics tactics this in
  run this (extractTechniques objects) (fun techniques =>
  (set_techniques techniques this, Normal))).

(** What a guarded statement computes: [Some] of the text when the guard
    holds, nothing otherwise. *)
Definition guarded (guard : bool) (computed : result string) : result (option string) :=
  if guard then s <- computed ;; Ok (Some s) else Ok None.

(** An assignment that only takes place with a text. *)
Definition assigned (set : string -> Tracker -> Tracker) (computed : option string)
    (this : Tracker) : Tracker :=
  match computed with
  | Some s => set s this
  | None => this
  end.

(** How either copy ends once it is past its guard: it composes the label
    and goes on to the two assignments, or it stops at an exception while
    composing the label. *)
Definition stops_or_assigns (this : Tracker) (objects : value)
    (out : Tracker * completion) : Prop :=
  exists labelled : Tracker,
    same_model labelled this
    /\ (out = assignCollections objects labelled
        \/ exists e, out = (labelled, Abrupt e)).

(** [processAttackData] of the copy with the version number and the
    collection object. *)
Definition processAttackData (this : Tracker) : Tracker * completion :=
  match objects_of this with
  | None => (this, Normal)
  | Some objects =>
      let this := set_mitreVersionNumber "v?" this in
      let this := set_mitreVersionDetails "" this in
      run this (items <- as_array objects ;; Js.find (has_type "x-mitre-collection") items)
        (fun collectionObj =>
      run this
        (guarded (truthy collectionObj && truthy (field collectionObj "x_mitre_version"))
                 (ToString (field collectionObj "x_mitre_version")))
        (fun version =>
      let this := assigned (fun v => set_mitreVersionNumber ("v" ++ v)) version this in
      run this
        (guarded (truthy collectionObj && truthy (field collectionObj "modified"))
                 (longDate (field collectionObj "modified")))
        (fun modified =>
      let this := assigned (fun d => set_mitreVersionDetails ("Updated: " ++ d)) modified this in
      run this
        (if nonempty (text (mitreVersionDetails this)) then Ok VUndef
         else items <- as_array objects ;; Js.find is_mitre_identity items)
        (fun identityObj =>
      run this
        (guarded (truthy identityObj && truthy (field identityObj "created"))
                 (longDate (field identityObj "created")))
        (fun created =>
      let this := assigned (fun d => set_mitreVersionDetails ("Created: " ++ d)) created this in
      run this
        (guarded (truthy (field (attackData this) "spec_version"))
                 (ToString (field (attackData this) "spec_version")))
        (fun specVersion =>
      let this :=
        assigned (fun v this =>
                    set_mitreVersionDetails
                      (text (mitreVersionDetails this) ++ " | STIX " ++ v) this)
                 specVersion this in
      let this :=
        set_mitreVersion
          ("MITRE ATT&CK " ++ text (mitreVersionNumber this)
           ++ (if nonempty (text (mitreVersionDetails this))
               then " - " ++ text (mitreVersionDetails this) else ""))
          this in
      assignCollections objects this))))))
  end.

(** [processAttackData] of the copy that only reads the identity object. *)
Definition processAttackData_identityOnly (this : Tracker) : Tracker * completion :=
  match objects_of this with
  | None => (this, Normal)
  | Some objects =>
      run this (items <- as_array objects ;; Js.find is_mitre_identity items)
        (fun identityObj =>
      run this
        (guarded (truthy identityObj && truthy (field identityObj "created"))
                 (shortDate (field identityObj "created")))
        (fun created =>
      let this :=
        assigned (fun d => set_mitreVersion ("MITRE ATT&CK (Updated: " ++ d ++ ")"))
                 created this in
      run this
        (guarded (truthy (field (attackData this) "spec_version"))
                 (ToString (field (attackData this) "spec_version")))
        (fun specVersion =>
      let this :=
        assigned (fun v this => set_mitreVersion (mitreVersion this ++ " | STIX " ++ v) this)
                 specVersion this in
      assignCollections objects this)))
  end.

End WithHost.
End Normalizer.

(* ===================================================================== *)
(** * The coverage engine *)
(* ===================================================================== *)

Module Coverage.

(** ['detected'] and ['not detected']. *)
Inductive status : Type :=
| detected
| not_detected.

(** The three reference slots of a detection, in order. *)
Definition techniqueRefs (det : Detection.t) : list string :=
  [Detection.technique1 det; Detection.technique2 det; Detection.technique3 det].

(** The callback of [getDetectionRulesForTechnique]. *)
Definition matches (techniqueId : value) (det : Detection.t) : bool :=
  Detection.isActive det &&
  (strict_eq (VStr (Detection.technique1 det)) techniqueId ||
   strict_eq (VStr (Detection.technique2 det)) techniqueId ||
   strict_eq (VStr (Detection.technique3 det)) techniqueId).

Definition getDetectionRulesForTechnique (this : Tracker) (techniqueId : value) : nat :=
  List.length (List.filter (matches techniqueId) (detections this)).

Definition getTechniqueStatus (this : Tracker) (technique : Technique.t) : status :=
  let detectionRules := getDetectionRulesForTechnique this (Technique.id technique) in
  if (0 <? detectionRules)%nat then detected else not_detected.

Definition calculateCoverage (this : Tracker) (technique : Technique.t) : number :=
  match getTechniqueStatus this technique with
  | detected => Fin 1
  | not_detected => Fin 0
  end.

(** [let totalCoverage = 0; counted.forEach(tech => { totalCoverage +=
    this.calculateCoverage(tech); })]. *)
Definition totalCoverage (this : Tracker) (counted : list Technique.t) : number :=
  fold_left (fun total tech => num_add total (calculateCoverage this tech)) counted (Fin 0).

(** The number that [renderDashboard] formats with [toFixed(1)] and shows as
    the overall coverage. *)
Definition overallCoveragePercent (this : Tracker) : number :=
  num_mul
    (num_div (totalCoverage this (techniques this))
             (num_of_nat (List.length (techniques this))))
    (num_of_Z 100).

(** [tech => tech.tactics.includes(shortName)]. *)
Definition inTactic (shortName : value) (tech : Technique.t) : bool :=
  existsb (strict_eq shortName) (Technique.tactics tech).

(** One entry of [tacticCoverageData] in [renderTacticCoverage]. *)
Record TacticCoverage : Type := mkTacticCoverage {
  name : value;
  coverage : number;
  count : nat
}.

Definition tacticCoverage (this : Tracker) (tactic : Tactic.t) : TacticCoverage :=
  let tacticTechniques :=
    List.filter (inTactic (Tactic.shortName tactic)) (techniques this) in
  let coveragePercent :=
    if (0 <? List.length tacticTechniques)%nat
    then num_mul
           (num_div (totalCoverage this tacticTechniques)
                    (num_of_nat (List.length tacticTechniques)))
           (num_of_Z 100)
    else num_of_Z 0 in
  mkTacticCoverage (Tactic.name tactic) coveragePercent (List.length tacticTechniques).

Definition tacticCoverageData (this : Tracker) : list TacticCoverage :=
  List.map (tacticCoverage this) (tactics this).

(** What the specification speaks of.  A detection refers to a technique id
    when the id is one of its slots (as a proposition and decided); the unit
    of all averages is [coverageValue]; and the arithmetic mean is the sum of
    the units over their number, 0 for no unit at all. *)
Definition refersTo (techniqueId : value) (det : Detection.t) : Prop :=
  exists ref, In ref (techniqueRefs det) /\ techniqueId = VStr ref.

Definition references (techniqueId : value) (det : Detection.t) : bool :=
  existsb (fun ref => strict_eq (VStr ref) techniqueId) (techniqueRefs det).

Definition coverageValue (this : Tracker) (technique : Technique.t) : Q :=
  match getTechniqueStatus this technique with
  | detected => 1%Q
  | not_detected => 0%Q
  end.

Definition mean (values : list Q) : Q :=
  match values with
  | [] => 0%Q
  | _ => (fold_right Qplus 0 values / inject_Z (Z.of_nat (List.length values)))%Q
  end.

End Coverage.

(* ===================================================================== *)
(** * The detection store *)
(* ===================================================================== *)

Module Store.

(** What [saveDetection] reads from the form's elements. *)
Record Form : Type := mkForm {
  detectionName : string;
  detectionDescription : string;
  detectionPlatform : string;
  detectionSeverity : string;
  detectionActive : bool;
  technique1 : string;
  technique2 : string;
  technique3 : string
}.

(** What the clock and the random source return during one call: the decimal
    digits of [Date.now()], the base-36 digits that [generateId] cuts out of
    [Math.random()], and [new Date().toISOString()]. *)
Record Clock : Type := mkClock {
  now : string;
  random : string;
  isoString : string
}.

Definition generateId (clock : Clock) : string :=
  "det_" ++ now clock ++ "_" ++ random clock.

(** [this.detections.findIndex(d => d.id === id)], [None] for -1. *)
Fixpoint findIndex (id : string) (records : list Detection.t) : option nat :=
  match records with
  | [] => None
  | d :: rest =>
      if (Detection.id d =? id)%string then Some O
      else option_map S (findIndex id rest)
  end.

(** [list[index] = detection] for an index inside the array. *)
Fixpoint assignAt (index : nat) (detection : Detection.t) (records : list Detection.t)
  : list Detection.t :=
  match records, index with
  | [], _ => []
  | _ :: rest, O => detection :: rest
  | d :: rest, S i => d :: assignAt i detection rest
  end.

(** Whether [this.editingDetectionId] is truthy: neither [null] nor empty. *)
Definition editing (this : Tracker) : option string :=
  match editingDetectionId this with
  | Some id => if (id =? "")%string then None else Some id
  | None => None
  end.

Definition withCreatedAt (d : Detection.t) (createdAt : string) : Detection.t :=
  Detection.mk (Detection.id d) (Detection.name d) (Detection.description d)
    (Detection.platform d) (Detection.severity d) (Detection.isActive d)
    (Detection.technique1 d) (Detection.technique2 d) (Detection.technique3 d)
    (Detection.updatedAt d) (Some createdAt).

(** [saveDetection]: the state after the call and the text of the alert it
    raised, if any.  Writing to local storage and re-rendering are left to
    the page. *)
Definition saveDetection (form : Form) (clock : Clock) (this : Tracker)
  : Tracker * option string :=
  let name := trim (detectionName form) in
  let description := trim (detectionDescription form) in
  let platform := detectionPlatform form in
  let severity := detectionSeverity form in
  let isActive := detectionActive form in
  let technique1 := toUpperCase (trim (technique1 form)) in
  let technique2 := toUpperCase (trim (technique2 form)) in
  let technique3 := toUpperCase (trim (technique3 form)) in
  if (name =? "")%string then (this, Some "Please enter a detection name")
  else
    let detection :=
      Detection.mk
        (match editing this with Some id => id | None => generateId clock end)
        name description platform severity isActive technique1 technique2 technique3
        (isoString clock) None in
    let this :=
      match editing this with
      | Some id =>
          match findIndex id (detections this) with
          | Some index => set_detections (assignAt index detection (detections this)) this
          | None => this
          end
      | None =>
          set_detections
            (detections this ++ [withCreatedAt detection (Detection.updatedAt detection)])
            this
      end in
    (set_editingDetectionId None this, None).

End Store.

(* ===================================================================== *)
(** * Import *)
(* ===================================================================== *)

Module Importer.

(** After an import [this.detections] is whatever value the document held
    under [detections], so the handler is modelled on the collection as a
    value; [collection] is a well-formed one. *)
Definition collection (records : list Detection.t) : value :=
  VArr (List.map Detection.to_value records).

Inductive alert : Type :=
| imported         (* 'Data imported successfully!' *)
| importError.     (* 'Error importing data. Please check the file format.' *)

Section Onload.
(** [this.renderCurrentView()] as far as it can end the handler: whether it
    completes on a given collection. *)
Variable renderCurrentView : value -> result unit.

(** The [reader.onload] handler of [importData], from the outcome of
    [JSON.parse(e.target.result)]: the collection afterwards and the alert. *)
Definition onload (parsed : result value) (detections : value) : value * alert :=
  match parsed with
  | Throw _ => (detections, importError)
  | Ok data =>
      match get data "detections" with
      | Throw _ => (detections, importError)
      | Ok found =>
          let detections := if truthy found then found else detections in
          match renderCurrentView detections with
          | Ok _ => (detections, imported)
          | Throw _ => (detections, importError)
          end
      end
  end.
End Onload.

(** The first thing the dashboard reads off the collection,
    [this.detections.filter(d => d.isActive).length]: a TypeError unless the
    collection is an array without a [null] in it. *)
Definition renderDashboard (detections : value) : result unit :=
  items <- as_array detections ;;
  _ <- Js.filter (fun d => isActive <- get d "isActive" ;; Ok (truthy isActive)) items ;;
  Ok tt.

End Importer.


(* ===================================================================== *)
(** * Sort keys and well-typed partial documents *)
(* ===================================================================== *)

Module Order.

(** The integer that a number is, when it is one that a double holds
    exactly. *)
Definition exact_int (n : number) : option Z :=
  match n with
  | Fin q =>
      let r := Qred q in
      if (Qden r =? 1)%positive && (Z.abs (Qnum r) <=? 2 ^ 53)
      then Some (Qnum r) else None
  | _ => None
  end.

(** The two numbers the comparator reads off a technique, when both are
    such integers: the leading number and the number of the suffix. *)
Definition sortKey (t : Technique.t) : option (Z * Z) :=
  match Normalizer.mainNumber (Technique.id t), Normalizer.subNumber (Technique.id t) with
  | Ok m, Ok s =>
      match exact_int m, exact_int s with
      | Some a, Some b => Some (a, b)
      | _, _ => None
      end
  | _, _ => None
  end.

Definition keyed (t : Technique.t) : bool :=
  match sortKey t with
  | Some _ => true
  | None => false
  end.

Definition mainKey (t : Technique.t) : Z :=
  match sortKey t with
  | Some (m, _) => m
  | None => 0
  end.

Definition subKey (t : Technique.t) : Z :=
  match sortKey t with
  | Some (_, s) => s
  | None => 0
  end.

(** Leading number first, suffix number second. *)
Definition keyLe (a b : Technique.t) : Prop :=
  mainKey a < mainKey b \/ (mainKey a = mainKey b /\ subKey a <= subKey b).

Definition keyGtb (a b : Technique.t) : bool :=
  if mainKey a =? mainKey b then subKey b <? subKey a else mainKey b <? mainKey a.

Definition sameKeyb (k : Z * Z) (t : Technique.t) : bool :=
  (mainKey t =? fst k) && (subKey t =? snd k).

End Order.

(** Documents whose parts, where present, have the kind the corpus format
    gives them. *)
Module WellTyped.

Definition is_object (v : value) : bool :=
  match v with
  | VObj _ => true
  | _ => false
  end.

Definition is_string (v : value) : bool :=
  match v with
  | VStr _ => true
  | _ => false
  end.

(** Absent (or otherwise falsy), or an array of objects. *)
Definition optional_objects (v : value) : bool :=
  negb (truthy v) ||
  match v with
  | VArr items => forallb is_object items
  | _ => false
  end.

Definition elements (v : value) : list value :=
  match v with
  | VArr items => items
  | _ => []
  end.

Definition is_mitre_ref (ref : value) : bool :=
  strict_eq (field ref "source_name") (VStr "mitre-attack").

(** The ATT&CK reference, when there is one, carries its identifier. *)
Definition identified_ref (refs : value) : bool :=
  match List.find is_mitre_ref (elements refs) with
  | Some ref => is_string (field ref "external_id")
  | None => true
  end.

Definition is_kind (kind : string) (obj : value) : bool :=
  strict_eq (field obj "type") (VStr kind).

Definition is_live (obj : value) : bool :=
  is_kind "attack-pattern" obj && negb (truthy (field obj "revoked"))
  && negb (truthy (field obj "deprecated")).

(** A tactic has a name; a technique that is kept has optional reference and
    phase lists; what goes into the label converts to a string: the version
    and the date of a collection object and the date of an identity object.
    Nothing is asked of the short name, the description, the platforms, or of
    any other kind of object. *)
Definition object_ok (obj : value) : bool :=
  is_object obj
  && (if is_kind "x-mitre-tactic" obj then is_string (field obj "name") else true)
  && (if is_live obj
      then optional_objects (field obj "external_references")
           && identified_ref (field obj "external_references")
           && optional_objects (field obj "kill_chain_phases")
      else true)
  && (if is_kind "x-mitre-collection" obj
      then converts (field obj "x_mitre_version") && converts (field obj "modified")
      else true)
  && (if is_kind "identity" obj then converts (field obj "created") else true).

Definition document_ok (doc : value) : bool :=
  converts (field doc "spec_version")
  && match field doc "objects" with
     | VArr items => forallb object_ok items
     | _ => false
     end.

(** An object flagged revoked or deprecated. *)
Definition flagged (obj : value) : bool :=
  truthy (field obj "revoked") || truthy (field obj "deprecated").

End WellTyped.

(* ===================================================================== *)
(** * Sample data *)
(* ===================================================================== *)

Module Sample.

(** A stored detection with the given id, activity and reference slots. *)
Definition detection (id : string) (isActive : bool) (t1 t2 t3 : string) : Detection.t :=
  Detection.mk id "rule" "" "" "" isActive t1 t2 t3 "2024-01-01T00:00:00.000Z"
               (Some "2024-01-01T00:00:00.000Z").

(** A host for the examples: collation by code units, and a date shown as
    the text it was given. *)
Definition host : Host.t :=
  Host.mk (fun a b => match String.compare a b with Lt => -1 | Eq => 0 | Gt => 1 end)
          (fun _ => "0")
          (fun v => match v with VStr s => s | _ => "Invalid Date" end)
          (fun v => match v with VStr s => s | _ => "Invalid Date" end).

(** An attack-pattern object with an ATT&CK reference, one phase of the
    ATT&CK kill chain, and further properties. *)
Definition attackPattern (externalId phase : string) (more : list (string * value)) : value :=
  VObj ([("type", VStr "attack-pattern");
         ("id", VStr ("attack-pattern--" ++ externalId));
         ("name", VStr ("Technique " ++ externalId));
         ("external_references",
          VArr [VObj [("source_name", VStr "mitre-attack");
                      ("external_id", VStr externalId);
                      ("url", VStr ("https://attack.mitre.org/techniques/" ++ externalId))]]);
         ("kill_chain_phases",
          VArr [VObj [("kill_chain_name", VStr "mitre-attack"); ("phase_name", VStr phase)]])]
        ++ more)%list.

Definition tactic (name shortName : string) : value :=
  VObj [("type", VStr "x-mitre-tactic"); ("id", VStr ("x-mitre-tactic--" ++ shortName));
        ("name", VStr name); ("x_mitre_shortname", VStr shortName)].

(** What [toTechnique] makes of [attackPattern externalId phase more] when
    [more] has no platforms. *)
Definition technique (externalId phase : string) (isSub : bool) (parentId : value)
  : Technique.t :=
  Technique.mk (VStr externalId) (VStr ("attack-pattern--" ++ externalId))
    (VStr ("Technique " ++ externalId)) VUndef isSub parentId [VStr phase] (VArr [])
    (VStr ("https://attack.mitre.org/techniques/" ++ externalId)).

(** A corpus with two tactics, a technique with a sub-technique listed
    before it, a later family, and a revoked and a deprecated entry. *)
Definition corpus : value :=
  VObj [("type", VStr "bundle");
        ("spec_version", VStr "2.0");
        ("objects",
         VArr [VObj [("type", VStr "identity"); ("name", VStr "The MITRE Corporation");
                     ("created", VStr "2017-06-01")];
               tactic "Persistence" "persistence";
               tactic "Execution" "execution";
               attackPattern "T1060" "persistence" [];
               attackPattern "T1059.001" "execution" [];
               attackPattern "T1061" "execution" [("revoked", VBool true)];
               attackPattern "T1059" "execution" [];
               attackPattern "T1062" "execution" [("deprecated", VBool true)]])].

(** Two objects of a corpus in which the sub-technique comes first and its
    suffix is numerically zero. *)
Definition zeroSuffixObjects : value :=
  VArr [attackPattern "T1059.000" "execution" []; attackPattern "T1059" "execution" []].

(** Two tactics without a name, and a technique whose ATT&CK reference has
    no identifier. *)
Definition namelessTactics : value :=
  VObj [("objects",
         VArr [VObj [("type", VStr "x-mitre-tactic"); ("x_mitre_shortname", VStr "execution")];
               VObj [("type", VStr "x-mitre-tactic"); ("x_mitre_shortname", VStr "impact")]])].

Definition malformedCollection : value :=
  VObj [("objects", VStr "oops")].

(** A document whose schema version is an object with a property
    [toString]. *)
Definition unprintableVersion : value :=
  VObj [("spec_version", VObj [("toString", VNum (Fin 1))]); ("objects", VArr [])].

Definition unidentifiedReference : value :=
  VObj [("objects",
         VArr [VObj [("type", VStr "attack-pattern");
                     ("external_references",
                      VArr [VObj [("source_name", VStr "mitre-attack")]])]])].

(** One tactic with two techniques and one detection that names the first
    of them, active or not. *)
Definition scenario (isActive : bool) : Tracker :=
  set_detections [detection "det_1" isActive "T1" "" ""]
    (set_tactics [Tactic.mk (VStr "x-mitre-tactic--execution") (VStr "Execution")
                            (VStr "execution") VUndef]
       (set_techniques [technique "T1" "execution" false VNull;
                        technique "T2" "execution" false VNull] constructed)).

(** A form with a name and a first reference typed in lower case, a form
    with a blank name, and the readings of the clock. *)
Definition form : Store.Form :=
  Store.mkForm "  PowerShell launch " "Detects script hosts" "Windows" "High" true
               " t1059.001" "" "".

Definition blankForm : Store.Form :=
  Store.mkForm "   " "" "" "" true "T1059" "" "".

Definition clock : Store.Clock :=
  Store.mkClock "1718000000000" "k3j9x0q2a" "2024-06-10T06:13:20.000Z".

(** The collection with one stored detection, and the same while that
    detection is being edited. *)
Definition stored : Tracker :=
  set_detections [detection "det_1" true "T1059" "" "";
                  detection "det_2" false "T1060" "" ""] constructed.

Definition editing : Tracker := set_editingDetectionId (Some "det_1") stored.

End Sample.

(* ===================================================================== *)
(** * The other operations on the detections *)
(* ===================================================================== *)

Module Actions.

Definition withIsActive (d : Detection.t) (isActive : bool) : Detection.t :=
  Detection.mk (Detection.id d) (Detection.name d) (Detection.description d)
    (Detection.platform d) (Detection.severity d) isActive
    (Detection.technique1 d) (Detection.technique2 d) (Detection.technique3 d)
    (Detection.updatedAt d) (Detection.createdAt d).

(** [toggleDetectionActive]: [find] gives the first record with the id, and
    the assignment to its [isActive] changes that record where it stands. *)
Definition toggleDetectionActive (detectionId : string) (this : Tracker) : Tracker :=
  match Store.findIndex detectionId (detections this) with
  | Some index =>
      match nth_error (detections this) index with
      | Some detection =>
          set_detections
            (Store.assignAt index
               (withIsActive detection (negb (Detection.isActive detection)))
               (detections this))
            this
      | None => this
      end
  | None => this
  end.

(** [deleteDetection], from the answer to the [confirm] dialog. *)
Definition deleteDetection (detectionId : string) (confirmed : bool) (this : Tracker)
  : Tracker :=
  if confirmed
  then set_detections
         (List.filter (fun d => negb (Detection.id d =? detectionId)%string)
                      (detections this))
         this
  else this.

(** [editDetection], as far as [this] goes: the id is noted before the
    record is looked for; the second component tells whether the record was
    found, which is when the form is filled in and the modal opened. *)
Definition editDetection (detectionId : string) (this : Tracker) : Tracker * bool :=
  (set_editingDetectionId (Some detectionId) this,
   match Store.findIndex detectionId (detections this) with
   | Some _ => true
   | None => false
   end).

(** The click listener of the add button, and [closeDetectionModal]. *)
Definition addDetection (this : Tracker) : Tracker := set_editingDetectionId None this.
Definition closeDetectionModal (this : Tracker) : Tracker := set_editingDetectionId None this.

(** [getTechniqueUrl]: [s.replace('.', '/')] replaces the first point
    only. *)
Fixpoint replace_first (old new : ascii) (s : string) : string :=
  match s with
  | EmptyString => EmptyString
  | String c rest =>
      if Ascii.eqb c old then String new rest else String c (replace_first old new rest)
  end.

Definition getTechniqueUrl (techniqueId : string) (this : Tracker) : value :=
  match List.find (fun t => strict_eq (Technique.id t) (VStr techniqueId)) (techniques this) with
  | Some tech => Technique.url tech
  | None =>
      VStr ("https://attack.mitre.org/techniques/" ++ replace_first "." "/" techniqueId)
  end.

(** What a stored record looks like when [saveDetection] has built it: the
    name and the description are trimmed, the references trimmed and in
    upper case. *)
Definition normalised (d : Detection.t) : Prop :=
  trim (Detection.name d) = Detection.name d
  /\ trim (Detection.description d) = Detection.description d
  /\ Forall (fun ref => toUpperCase (trim ref) = ref) (Coverage.techniqueRefs d).

(** The object literal of [saveDetection] for a given id and time stamps. *)
Definition built (id : string) (form : Store.Form) (updatedAt : string)
    (createdAt : option string) : Detection.t :=
  Detection.mk id (trim (Store.detectionName form)) (trim (Store.detectionDescription form))
    (Store.detectionPlatform form) (Store.detectionSeverity form) (Store.detectionActive form)
    (toUpperCase (trim (Store.technique1 form))) (toUpperCase (trim (Store.technique2 form)))
    (toUpperCase (trim (Store.technique3 form))) updatedAt createdAt.


End Actions.

(* ===================================================================== *)
(** * What the views compute *)
(* ===================================================================== *)

Module Views.

(** [a >= b] on numbers. *)
Definition num_geb (a b : number) : bool :=
  match a, b with
  | NaN, _ | _, NaN => false
  | PosInf, _ | _, NegInf => true
  | NegInf, _ | _, PosInf => false
  | Fin x, Fin y => Qle_bool y x
  end.

(** The counters of [renderDashboard]: the active detections, and the
    techniques by status. *)
Definition totalDetections (this : Tracker) : nat :=
  List.length (List.filter Detection.isActive (detections this)).

Record StatusCounts : Type := mkStatusCounts {
  detected : nat;
  notDetected : nat
}.

Definition statusCounts (this : Tracker) : StatusCounts :=
  fold_left
    (fun counts tech =>
       match Coverage.getTechniqueStatus this tech with
       | Coverage.detected => mkStatusCounts (S (detected counts)) (notDetected counts)
       | Coverage.not_detected => mkStatusCounts (detected counts) (S (notDetected counts))
       end)
    (techniques this) (mkStatusCounts 0 0).

(** The colour of a tactic card in [renderTacticCoverage]. *)
Definition tacticColor (coverage : number) : string :=
  if num_geb coverage (num_of_Z 75) then "#28a745"
  else if num_geb coverage (num_of_Z 50) then "#ffc107"
  else if num_geb coverage (num_of_Z 25) then "#fd7e14"
  else "#dc3545".

(** The class of a matrix cell.  The copy with the tab bar derives it from
    [calculateCoverage(tech) * 100], the copy with the sidebar from the
    status. *)
Definition coverageClass (this : Tracker) (tech : Technique.t) : string :=
  let coverage := num_mul (Coverage.calculateCoverage this tech) (num_of_Z 100) in
  if num_geb coverage (num_of_Z 75) then "coverage-high"
  else if num_geb coverage (num_of_Z 25) then "coverage-medium"
  else if num_gtb coverage (num_of_Z 0) then "coverage-low"
  else "coverage-none".

Definition coverageClass_byStatus (this : Tracker) (tech : Technique.t) : string :=
  match Coverage.getTechniqueStatus this tech with
  | Coverage.detected => "coverage-high"
  | Coverage.not_detected => "coverage-none"
  end.

(** The order of the kill chain in [renderSpiderChart] and
    [renderCoverageView]. *)
Definition killChainOrder : list string :=
  ["reconnaissance"; "resource-development"; "initial-access"; "execution";
   "persistence"; "privilege-escalation"; "defense-evasion"; "credential-access";
   "discovery"; "lateral-movement"; "collection"; "command-and-control";
   "exfiltration"; "impact"].

(** [this.tactics.find(t => t.shortName === shortName)]. *)
Definition findTactic (shortName : string) (this : Tracker) : option Tactic.t :=
  List.find (fun t => strict_eq (Tactic.shortName t) (VStr shortName)) (tactics this).

(** [tacticData] of [renderSpiderChart]: per name of the kill chain the
    tactic's name and coverage, or [null], and then the entries that are not
    [null]. *)
Definition spiderEntry (this : Tracker) (shortName : string) : option (value * number) :=
  match findTactic shortName this with
  | None => None
  | Some tactic =>
      let tacticTechniques :=
        List.filter (Coverage.inTactic (VStr shortName)) (techniques this) in
      let coveragePercent :=
        if (0 <? List.length tacticTechniques)%nat
        then num_mul
               (num_div (Coverage.totalCoverage this tacticTechniques)
                        (num_of_nat (List.length tacticTechniques)))
               (num_of_Z 100)
        else num_of_Z 0 in
      Some (Tactic.name tactic, coveragePercent)
  end.

Fixpoint notNull {A : Type} (entries : list (option A)) : list A :=
  match entries with
  | [] => []
  | Some x :: rest => x :: notNull rest
  | None :: rest => notNull rest
  end.

Definition tacticData (this : Tracker) : list (value * number) :=
  notNull (List.map (spiderEntry this) killChainOrder).

(** [tacticGroups] of [renderCoverageView] in the copy with the sidebar:
    per tactic of the kill chain its techniques that are not
    sub-techniques. *)
Definition matrixGroup (this : Tracker) (shortName : string)
  : option (Tactic.t * list Technique.t) :=
  match findTactic shortName this with
  | None => None
  | Some tactic =>
      Some (tactic,
            List.filter (fun tech => Coverage.inTactic (VStr shortName) tech
                                     && negb (Technique.isSubTechnique tech))
                        (techniques this))
  end.

Definition tacticGroups (this : Tracker) : list (Tactic.t * list Technique.t) :=
  notNull (List.map (matrixGroup this) killChainOrder).

(** [Math.max(...tacticGroups.map(g => g.techniques.length), 1)]. *)
Definition maxTechniques (this : Tracker) : nat :=
  fold_right Nat.max 1%nat (List.map (fun g => List.length (snd g)) (tacticGroups this)).

(** The body of the table: row [i] has, per group, the technique at
    position [i] or the dash. *)
Definition matrixRows (this : Tracker) : list (list (option Technique.t)) :=
  List.map (fun i => List.map (fun g => nth_error (snd g) i) (tacticGroups this))
           (seq 0 (maxTechniques this)).

(** The filter of [renderTechniquesView].  Of the code units below 256,
    [toLowerCase] changes the capital letters: A to Z, and the accented ones
    from 192 to 222 without the multiplication sign. *)
Definition lower_char (c : ascii) : ascii :=
  let n := nat_of_ascii c in
  if ((65 <=? n) && (n <=? 90) || (192 <=? n) && (n <=? 222) && negb (n =? 215))%nat
  then ascii_of_nat (n + 32) else c.

Fixpoint toLowerCase (s : string) : string :=
  match s with
  | EmptyString => EmptyString
  | String c rest => String (lower_char c) (toLowerCase rest)
  end.

(** [v.toLowerCase().includes(searchTerm)]: only a string has
    [toLowerCase]. *)
Definition lower_includes (searchTerm : string) (v : value) : result bool :=
  match v with
  | VStr s => Ok (includes searchTerm (toLowerCase s))
  | _ => Throw TypeError
  end.

Definition statusText (s : Coverage.status) : string :=
  match s with
  | Coverage.detected => "detected"
  | Coverage.not_detected => "not detected"
  end.

(** The callback of the filter, from the values of the search box and of
    the two selects; the name is only lowered when the id does not match. *)
Definition shown (searchValue tacticFilterValue statusFilterValue : string)
    (this : Tracker) (tech : Technique.t) : result bool :=
  let searchTerm := toLowerCase searchValue in
  matchesSearch <-
    (if (searchTerm =? "")%string then Ok true
     else
       inId <- lower_includes searchTerm (Technique.id tech) ;;
       if inId then Ok true else lower_includes searchTerm (Technique.name tech)) ;;
  let matchesTactic :=
    (tacticFilterValue =? "")%string
    || Coverage.inTactic (VStr tacticFilterValue) tech in
  let status := Coverage.getTechniqueStatus this tech in
  let matchesStatus :=
    (statusFilterValue =? "")%string || (statusText status =? statusFilterValue)%string in
  Ok (matchesSearch && matchesTactic && matchesStatus).

Definition filteredTechniques (searchValue tacticFilterValue statusFilterValue : string)
    (this : Tracker) : result (list Technique.t) :=
  Js.filter (shown searchValue tacticFilterValue statusFilterValue this) (techniques this).

End Views.

(** [renderCoverageView] in the copy with the tab bar: the techniques are
    grouped in an object keyed by the tactic's name, and at most ten of a
    group are laid out. *)
Module Matrix.
Section WithHost.
Variable host : Host.t.

(** [obj[key] = v] on the own properties of an object, and [obj[key]]. *)
Fixpoint assign {A : Type} (key : string) (v : A) (obj : list (string * A))
  : list (string * A) :=
  match obj with
  | [] => [(key, v)]
  | (k, x) :: rest =>
      if (k =? key)%string then (k, v) :: rest else (k, x) :: assign key v rest
  end.

Fixpoint read {A : Type} (key : string) (obj : list (string * A)) : option A :=
  match obj with
  | [] => None
  | (k, v) :: rest => if (k =? key)%string then Some v else read key rest
  end.

(** The techniques of a tactic that are not sub-techniques. *)
Definition topLevel (this : Tracker) (tactic : Tactic.t) : list Technique.t :=
  List.filter (fun tech => Coverage.inTactic (Tactic.shortName tactic) tech
                           && negb (Technique.isSubTechnique tech))
              (techniques this).

(** [tacticTechniques] after the first loop; a property key is the name as
    a string. *)
Definition tacticTechniques (this : Tracker) : list (string * list Technique.t) :=
  fold_left
    (fun obj tactic =>
       assign (Normalizer.toString host (Tactic.name tactic)) (topLevel this tactic) obj)
    (tactics this) [].

(** [Object.values(obj)]: a property named [__proto__] is not one of the
    object's own. *)
Definition values {A : Type} (obj : list (string * A)) : list A :=
  List.map snd (List.filter (fun entry => negb (fst entry =? "__proto__")%string) obj).

Definition maxTechniques (this : Tracker) : nat :=
  fold_right Nat.max 10%nat
    (List.map (fun t => List.length t) (values (tacticTechniques this))).

Definition columns (this : Tracker) : nat := Nat.min (maxTechniques this) 10.

(** The cells of a tactic's row: [tacticTechniques[tactic.name] || []] at
    the positions below the number of columns. *)
Definition row (this : Tracker) (tactic : Tactic.t) : list (option Technique.t) :=
  let techniques :=
    match read (Normalizer.toString host (Tactic.name tactic)) (tacticTechniques this) with
    | Some group => group
    | None => []
    end in
  List.map (fun i => nth_error techniques i) (seq 0 (columns this)).

End WithHost.
End Matrix.

Module Examples.

(** A tactic with twelve techniques, in the state after normalization. *)
Definition crowded : Tracker :=
  set_tactics [Tactic.mk (VStr "x-mitre-tactic--execution") (VStr "Execution")
                         (VStr "execution") VUndef]
    (set_techniques
       (List.map (fun id => Sample.technique id "execution" false VNull)
          ["T1001"; "T1002"; "T1003"; "T1004"; "T1005"; "T1006";
           "T1007"; "T1008"; "T1009"; "T1010"; "T1011"; "T1012"])
       constructed).

(** A corpus with a tactic and a technique whose ATT&CK reference has no
    identifier, and a normalized technique without a name. *)
Definition halfLoaded : value :=
  VObj [("objects",
         VArr [Sample.tactic "Execution" "execution";
               VObj [("type", VStr "attack-pattern");
                     ("external_references",
                      VArr [VObj [("source_name", VStr "mitre-attack")]])]])].

Definition unnamed : Tracker :=
  set_techniques
    [Technique.mk (VStr "T1059") (VStr "attack-pattern--T1059") VUndef VUndef false VNull
                  [VStr "execution"] (VArr []) (VStr "")]
    constructed.

(** The tactic of the scenario, and a corpus in which one of its three
    techniques is named by an active detection. *)
Definition execution : Tactic.t :=
  Tactic.mk (VStr "x-mitre-tactic--execution") (VStr "Execution") (VStr "execution") VUndef.

Definition oneOfThree : Tracker :=
  set_detections [Sample.detection "det_1" true "T1" "" ""]
    (set_tactics [execution]
       (set_techniques [Sample.technique "T1" "execution" false VNull;
                        Sample.technique "T2" "execution" false VNull;
                        Sample.technique "T3" "execution" false VNull] constructed)).

(** The state after the sample corpus has been loaded and normalized. *)
Definition loaded : Tracker :=
  fst (Normalizer.processAttackData Sample.host (set_attackData Sample.corpus constructed)).

(** A form whose references are blank. *)
Definition blankReferences : Store.Form :=
  Store.mkForm "Unmapped rule" "" "" "" true "  " "" " ".

End Examples.
(* ===================================================================== *)
(** * Rounding to a double *)
(* ===================================================================== *)

Section NumberFacts.
Local Open Scope Q_scope.

Lemma pow2_pos (e : Z) : 0 < 2 ^ e.
Proof. apply Qpower_0_lt. reflexivity. Qed.

Lemma pow2_add (a b : Z) : 2 ^ (a + b) == 2 ^ a * 2 ^ b.
Proof. apply Qpower_plus. discriminate. Qed.

Lemma pow2_le (a b : Z) : (a <= b)%Z -> 2 ^ a <= 2 ^ b.
Proof. intros H. apply Qpower_le_compat_l; [exact H | discriminate]. Qed.

Lemma pow2_inject (a : Z) : (0 <= a)%Z -> inject_Z (2 ^ a) == 2 ^ a.
Proof. intros H. now rewrite Zpower_Qpower. Qed.

Lemma div_pow2_lt (q : Q) (e k : Z) : q < 2 ^ (k + e) -> q / 2 ^ e < 2 ^ k.
Proof.
  intros H. apply Qlt_shift_div_r; [apply pow2_pos|]. now rewrite <- pow2_add.
Qed.

Lemma div_pow2_le (q : Q) (e k : Z) : 2 ^ (k + e) <= q -> 2 ^ k <= q / 2 ^ e.
Proof.
  intros H. apply Qle_shift_div_l; [apply pow2_pos|]. now rewrite <- pow2_add.
Qed.

Lemma lt_div_pow2 (q : Q) (e k : Z) : q / 2 ^ e < 2 ^ k -> q < 2 ^ (k + e).
Proof.
  intros H. rewrite pow2_add.
  setoid_replace q with (q / 2 ^ e * 2 ^ e) at 1
    by (field; apply Qnot_eq_sym, Qlt_not_eq, pow2_pos).
  apply Qmult_lt_compat_r; [apply pow2_pos | exact H].
Qed.

Lemma le_div_pow2 (q : Q) (e k : Z) : 2 ^ k <= q / 2 ^ e -> 2 ^ (k + e) <= q.
Proof.
  intros H. rewrite pow2_add.
  setoid_replace q with (q / 2 ^ e * 2 ^ e) at 1
    by (field; apply Qnot_eq_sym, Qlt_not_eq, pow2_pos).
  apply Qmult_le_compat_r; [exact H | apply Qlt_le_weak, pow2_pos].
Qed.

(** A positive rational lies between the powers of two that the lengths of
    its numerator and denominator give. *)
Lemma log2_bounds (q : Q) :
  0 < q ->
  let k := (Z.log2 (Qnum q) - Z.log2 (Zpos (Qden q)))%Z in
  2 ^ (k - 1) <= q /\ q < 2 ^ (k + 1).
Proof.
  intros Hq k. destruct q as [n d]. cbn [Qnum Qden] in k.
  assert (Hn : (0 < n)%Z) by (unfold Qlt in Hq; simpl in Hq; lia).
  destruct (Z.log2_spec n Hn) as [Hn1 Hn2].
  destruct (Z.log2_spec (Zpos d) (Pos2Z.is_pos d)) as [Hd1 Hd2].
  pose proof (Z.log2_nonneg n) as Ha. pose proof (Z.log2_nonneg (Zpos d)) as Hb.
  set (a := Z.log2 n) in *. set (b := Z.log2 (Zpos d)) in *.
  assert (Qn1 : 2 ^ a <= inject_Z n)
    by (rewrite <- pow2_inject by lia; now rewrite <- Zle_Qle).
  assert (Qn2 : inject_Z n < 2 ^ (a + 1))
    by (rewrite <- pow2_inject by lia; now rewrite <- Zlt_Qlt).
  assert (Qd1 : 2 ^ b <= inject_Z (Zpos d))
    by (rewrite <- pow2_inject by lia; now rewrite <- Zle_Qle).
  assert (Qd2 : inject_Z (Zpos d) < 2 ^ (b + 1))
    by (rewrite <- pow2_inject by lia; now rewrite <- Zlt_Qlt).
  assert (Hd : 0 < inject_Z (Zpos d)) by reflexivity.
  rewrite (Qmake_Qdiv n d). split.
  - apply Qle_shift_div_l; [exact Hd|].
    apply Qle_trans with (2 ^ (k - 1) * 2 ^ (b + 1)).
    + apply Qmult_le_l; [apply pow2_pos | now apply Qlt_le_weak].
    + rewrite <- pow2_add. replace (k - 1 + (b + 1))%Z with a by (subst k; lia). exact Qn1.
  - apply Qlt_shift_div_r; [exact Hd|].
    apply Qlt_le_trans with (2 ^ (a + 1)); [exact Qn2|].
    replace (a + 1)%Z with (k + 1 + b)%Z by (subst k; lia). rewrite pow2_add.
    apply Qmult_le_l; [apply pow2_pos | exact Qd1].
Qed.

Lemma exponent_min (q : Q) : (-1074 <= exponent q)%Z.
Proof. unfold exponent. apply Z.le_max_r. Qed.

Lemma exponent_upper (q : Q) : 0 < q -> q / 2 ^ exponent q < 2 ^ 53.
Proof.
  intros Hq. destruct (log2_bounds q Hq) as [_ Hup]. cbv zeta in Hup.
  apply div_pow2_lt. unfold exponent.
  set (e0 := (Z.log2 (Qnum q) - Z.log2 (Zpos (Qden q)) - 53)%Z) in *.
  destruct (Qle_bool (2 ^ 53) (q / 2 ^ e0)) eqn:E.
  - eapply Qlt_le_trans; [exact Hup|]. apply pow2_le. subst e0. lia.
  - assert (H : q / 2 ^ e0 < 2 ^ 53).
    { apply Qnot_le_lt. intros Hle. apply Qle_bool_iff in Hle. congruence. }
    apply lt_div_pow2 in H. eapply Qlt_le_trans; [exact H|]. apply pow2_le. lia.
Qed.

Lemma exponent_lower (q : Q) :
  0 < q -> (-1074 < exponent q)%Z -> 2 ^ 52 <= q / 2 ^ exponent q.
Proof.
  intros Hq. destruct (log2_bounds q Hq) as [Hlow _]. cbv zeta in Hlow.
  unfold exponent.
  set (e0 := (Z.log2 (Qnum q) - Z.log2 (Zpos (Qden q)) - 53)%Z) in *.
  destruct (Qle_bool (2 ^ 53) (q / 2 ^ e0)) eqn:E; intros He.
  - rewrite Z.max_l by lia. apply Qle_bool_iff in E. apply le_div_pow2 in E.
    apply div_pow2_le. replace (52 + (e0 + 1))%Z with (53 + e0)%Z by lia. exact E.
  - rewrite Z.max_l by lia. apply div_pow2_le.
    eapply Qle_trans; [|exact Hlow]. apply pow2_le. subst e0. lia.
Qed.

Lemma nearest_even_floor (x : Q) :
  nearest_even x = Qfloor x
  \/ (nearest_even x = (Qfloor x + 1)%Z /\ inject_Z (Qfloor x) < x).
Proof.
  unfold nearest_even.
  destruct (x - inject_Z (Qfloor x) ?= 1 # 2) eqn:E; auto.
  - destruct (Z.even (Qfloor x)); auto. right. split; auto.
    apply Qeq_alt in E. lra.
  - right. split; auto. apply Qgt_alt in E. lra.
Qed.

Lemma nearest_even_le (x : Q) (K : Z) : x <= inject_Z K -> (nearest_even x <= K)%Z.
Proof.
  intros H. pose proof (Qfloor_le x) as Hf.
  destruct (nearest_even_floor x) as [-> | [-> Hlt]].
  - rewrite Zle_Qle. lra.
  - assert (Hk : inject_Z (Qfloor x) < inject_Z K) by lra.
    rewrite <- Zlt_Qlt in Hk. lia.
Qed.

Lemma nearest_even_ge (x : Q) (K : Z) : inject_Z K <= x -> (K <= nearest_even x)%Z.
Proof.
  intros H. assert (Hf : (K <= Qfloor x)%Z).
  { rewrite <- (Qfloor_Z K). now apply Qfloor_resp_le. }
  destruct (nearest_even_floor x) as [-> | [-> _]]; lia.
Qed.

(** Rounding does not pass a double: what is at most the double
    [M * 2 ^ E] rounds to at most that double. *)
Lemma round_pos_upper (q B : Q) (M E : Z) :
  0 < q -> q <= B -> B == inject_Z M * 2 ^ E ->
  (2 ^ 52 <= M < 2 ^ 53)%Z -> (-1074 <= E)%Z -> B < 2 ^ 1024 ->
  exists r, round_pos q = Fin r /\ 0 <= r <= B.
Proof.
  intros Hq HqB HB [HM1 HM2] HE Hfin.
  pose proof (exponent_upper q Hq) as Hup.
  pose proof (exponent_lower q Hq) as Hlow.
  pose proof (pow2_pos (exponent q)) as Hpe.
  unfold round_pos. set (e := exponent q) in *.
  set (m := nearest_even (q / 2 ^ e)).
  assert (Hm0 : (0 <= m)%Z).
  { apply nearest_even_ge. apply Qle_shift_div_l; [exact Hpe|].
    change (inject_Z 0) with 0. rewrite Qmult_0_l. now apply Qlt_le_weak. }
  assert (QM1 : 2 ^ 52 <= inject_Z M)
    by (rewrite <- pow2_inject by lia; now rewrite <- Zle_Qle).
  assert (QM2 : inject_Z M < 2 ^ 53)
    by (rewrite <- pow2_inject by lia; now rewrite <- Zlt_Qlt).
  assert (Hr : inject_Z m * 2 ^ e <= B).
  { rewrite HB. destruct (Z.lt_trichotomy e E) as [Hlt | [Heq | Hgt]].
    - assert (Hm : (m <= 2 ^ 53)%Z).
      { apply nearest_even_le. rewrite pow2_inject by lia. now apply Qlt_le_weak. }
      rewrite Zle_Qle, pow2_inject in Hm by lia.
      apply Qle_trans with (2 ^ 53 * 2 ^ e).
      + apply Qmult_le_compat_r; [exact Hm | now apply Qlt_le_weak].
      + apply Qle_trans with (2 ^ 52 * 2 ^ E).
        * rewrite <- !pow2_add. apply pow2_le. lia.
        * apply Qmult_le_compat_r; [exact QM1 | apply Qlt_le_weak, pow2_pos].
    - subst E. apply Qmult_le_compat_r; [|now apply Qlt_le_weak].
      rewrite <- Zle_Qle. apply nearest_even_le.
      apply Qle_shift_div_r; [exact Hpe|]. now rewrite <- HB.
    - exfalso. assert (He : (-1074 < e)%Z) by lia. specialize (Hlow He).
      apply le_div_pow2 in Hlow.
      assert (Hc : inject_Z M * 2 ^ E < 2 ^ (52 + e)).
      { apply Qlt_le_trans with (2 ^ 53 * 2 ^ E).
        - apply Qmult_lt_compat_r; [apply pow2_pos | exact QM2].
        - rewrite <- pow2_add. apply pow2_le. lia. }
      rewrite <- HB in Hc. lra. }
  assert (Hr0 : 0 <= inject_Z m * 2 ^ e).
  { apply Qmult_le_0_compat; [|now apply Qlt_le_weak].
    now rewrite Zle_Qle in Hm0. }
  destruct (Qle_bool (2 ^ 1024) (inject_Z m * 2 ^ e)) eqn:Eo.
  - exfalso. apply Qle_bool_iff in Eo. lra.
  - eexists. split; [reflexivity|]. rewrite Qred_correct. split; assumption.
Qed.

Lemma round_comp (q q' : Q) : q == q' -> round q = round q'.
Proof. intros H. unfold round. now rewrite (Qred_complete q q' H). Qed.

Lemma round_zero (q : Q) : q == 0 -> round q = Fin 0.
Proof. intros H. now rewrite (round_comp q 0 H). Qed.

Lemma round_upper (q B : Q) (M E : Z) :
  0 <= q -> q <= B -> B == inject_Z M * 2 ^ E ->
  (2 ^ 52 <= M < 2 ^ 53)%Z -> (-1074 <= E)%Z -> B < 2 ^ 1024 ->
  exists r, round q = Fin r /\ 0 <= r <= B.
Proof.
  intros Hq HqB HB HM HE Hfin. unfold round.
  pose proof (Qred_correct q) as Hred.
  destruct (Qred q ?= 0) eqn:E0.
  - exists 0. split; [reflexivity|]. lra.
  - apply Qlt_alt in E0. lra.
  - apply Qgt_alt in E0.
    apply (round_pos_upper (Qred q) B M E); auto; lra.
Qed.

(** The two doubles that bound the coverage numbers. *)
Lemma round_unit (q : Q) :
  0 <= q -> q <= 1 -> exists r, round q = Fin r /\ 0 <= r <= 1.
Proof.
  intros H0 H1. apply (round_upper q 1 (2 ^ 52) (-52)); auto.
  - vm_compute. reflexivity.
  - split; [lia | vm_compute; reflexivity].
  - lia.
  - vm_compute. reflexivity.
Qed.

Lemma round_hundred (q : Q) :
  0 <= q -> q <= 100 -> exists r, round q = Fin r /\ 0 <= r <= 100.
Proof.
  intros H0 H1. apply (round_upper q 100 (100 * 2 ^ 46) (-46)); auto.
  - vm_compute. reflexivity.
  - split; vm_compute; [discriminate | reflexivity].
  - lia.
  - vm_compute. reflexivity.
Qed.

End NumberFacts.

(* ===================================================================== *)
(** * Array methods that complete *)
(* ===================================================================== *)

Section ArrayFacts.
Context {A : Type}.

Lemma bind_Ok {B C : Type} (m : result B) (k : B -> result C) (c : C) :
  Js.bind m k = Ok c -> exists b, m = Ok b /\ k b = Ok c.
Proof. destruct m; simpl; intro H; [eauto | discriminate]. Qed.

Lemma bind_ret {B : Type} (m : result B) : Js.bind m (fun b => Ok b) = m.
Proof. now destruct m. Qed.

(** A callback that completes on every element makes [filter], [map] and
    [find] the list functions. *)
Lemma filter_pure (cb : A -> result bool) (p : A -> bool) (items : list A) :
  (forall x, In x items -> cb x = Ok (p x)) ->
  Js.filter cb items = Ok (List.filter p items).
Proof.
  induction items as [|x rest IH]; intros H; simpl; auto.
  rewrite (H x (or_introl eq_refl)). simpl.
  rewrite IH by (intros; apply H; now right). simpl. now destruct (p x).
Qed.

Lemma map_pure {B : Type} (cb : A -> result B) (f : A -> B) (items : list A) :
  (forall x, In x items -> cb x = Ok (f x)) ->
  Js.map cb items = Ok (List.map f items).
Proof.
  induction items as [|x rest IH]; intros H; simpl; auto.
  rewrite (H x (or_introl eq_refl)). simpl.
  now rewrite IH by (intros; apply H; now right).
Qed.

Lemma map_total {B : Type} (cb : A -> result B) (P : B -> Prop) (items : list A) :
  (forall x, In x items -> exists y, cb x = Ok y /\ P y) ->
  exists ys, Js.map cb items = Ok ys /\ Forall P ys.
Proof.
  induction items as [|x rest IH]; intros H; simpl.
  - exists []. auto.
  - destruct (H x (or_introl eq_refl)) as [y [Hy HP]]. rewrite Hy. simpl.
    destruct IH as [ys [Hys HF]]; [intros; apply H; now right|].
    rewrite Hys. simpl. exists (y :: ys). auto.
Qed.

(** What [map] returns comes, element by element, from the callback. *)
Lemma map_Ok_In {B : Type} (cb : A -> result B) (items : list A) (ys : list B) (y : B) :
  Js.map cb items = Ok ys -> In y ys -> exists x, In x items /\ cb x = Ok y.
Proof.
  revert ys. induction items as [|x rest IH]; simpl; intros ys H Hin.
  - injection H as <-. contradiction.
  - apply bind_Ok in H as [y0 [Hy0 H]]. apply bind_Ok in H as [ys0 [Hys0 H]].
    injection H as <-. destruct Hin as [<- | Hin]; [eauto|].
    destruct (IH ys0 Hys0 Hin) as [x0 [Hx0 Hcb]]. eauto.
Qed.

(** What [filter] returns was in the array and passed the callback. *)
Lemma filter_Ok_In (cb : A -> result bool) (items kept : list A) (x : A) :
  Js.filter cb items = Ok kept -> In x kept -> In x items /\ cb x = Ok true.
Proof.
  revert kept. induction items as [|x0 rest IH]; simpl; intros kept H Hin.
  - injection H as <-. contradiction.
  - apply bind_Ok in H as [keep [Hkeep H]]. apply bind_Ok in H as [kept0 [Hkept0 H]].
    injection H as <-. destruct keep.
    + destruct Hin as [<- | Hin]; [auto|]. destruct (IH kept0 Hkept0 Hin). auto.
    + destruct (IH kept0 Hkept0 Hin). auto.
Qed.

(** An element on which the callback is false can be left out of the
    array. *)
Lemma filter_skip (cb : A -> result bool) (p : A -> bool) (items : list A) :
  (forall x, In x items -> p x = false -> cb x = Ok false) ->
  Js.filter cb (List.filter p items) = Js.filter cb items.
Proof.
  induction items as [|x rest IH]; intros H; simpl; auto.
  assert (IH' : Js.filter cb (List.filter p rest) = Js.filter cb rest)
    by (apply IH; intros; apply H; auto; now right).
  destruct (p x) eqn:E; simpl.
  - now rewrite IH'.
  - rewrite (H x (or_introl eq_refl) E). simpl. rewrite IH'. symmetry. apply bind_ret.
Qed.

End ArrayFacts.

(** The stable insertion sort: membership, rearrangement, sortedness and
    stability with respect to an order that [gt] decides. *)
Section StableSortFacts.
Context {A : Type}.
Variable gt : A -> A -> bool.

Lemma stable_insert_In (x y : A) (sorted : list A) :
  In y (stable_insert gt x sorted) <-> y = x \/ In y sorted.
Proof.
  induction sorted as [|z rest IH]; simpl.
  - intuition.
  - destruct (gt x z); simpl; rewrite ?IH; intuition.
Qed.

Lemma stable_sort_In (y : A) (items : list A) :
  In y (stable_sort gt items) <-> In y items.
Proof.
  induction items as [|x rest IH]; simpl; [tauto|].
  rewrite stable_insert_In, IH. intuition.
Qed.

Lemma stable_insert_perm (x : A) (sorted : list A) :
  Permutation (x :: sorted) (stable_insert gt x sorted).
Proof.
  induction sorted as [|y rest IH]; simpl; auto.
  destruct (gt x y); auto.
  eapply perm_trans; [apply perm_swap | now apply perm_skip].
Qed.

Lemma stable_sort_perm (items : list A) :
  Permutation items (stable_sort gt items).
Proof.
  induction items as [|x rest IH]; simpl; auto.
  eapply perm_trans; [apply perm_skip, IH | apply stable_insert_perm].
Qed.

Variable le : A -> A -> Prop.
Hypothesis le_trans : forall x y z, le x y -> le y z -> le x z.
Hypothesis gt_false : forall x y, gt x y = false -> le x y.
Hypothesis gt_true : forall x y, gt x y = true -> le y x.

Lemma stable_insert_sorted (x : A) (sorted : list A) :
  StronglySorted le sorted -> StronglySorted le (stable_insert gt x sorted).
Proof.
  induction 1 as [|y rest Hs IH Hall]; simpl.
  - constructor; constructor.
  - destruct (gt x y) eqn:E.
    + constructor; auto. apply Forall_forall. intros z Hz.
      rewrite stable_insert_In in Hz. destruct Hz as [-> | Hz]; [now apply gt_true|].
      rewrite Forall_forall in Hall. auto.
    + constructor; [now constructor|]. apply gt_false in E.
      constructor; auto. eapply Forall_impl; [|exact Hall]. intros z. now apply le_trans.
Qed.

Lemma stable_sort_sorted (items : list A) : StronglySorted le (stable_sort gt items).
Proof.
  induction items as [|x rest IH]; simpl; [constructor | now apply stable_insert_sorted].
Qed.

Lemma stable_sort_stable (p : A -> bool) (items : list A) :
  (forall x y, p x = true -> gt x y = true -> p y = false) ->
  List.filter p (stable_sort gt items) = List.filter p items.
Proof.
  intros Hclass.
  assert (Hins : forall x sorted,
             List.filter p (stable_insert gt x sorted) = List.filter p (x :: sorted)).
  { intros x sorted. induction sorted as [|y rest IH]; simpl; auto.
    destruct (gt x y) eqn:E; simpl; auto.
    simpl in IH. rewrite IH. destruct (p x) eqn:Ex; auto.
    now rewrite (Hclass x y Ex E). }
  induction items as [|x rest IH]; simpl; auto.
  rewrite Hins. simpl. now rewrite IH.
Qed.

(** In a sorted list an element that is not below another one stands after
    it. *)
Lemma sorted_positions (l : list A) (i j : nat) (a b : A) :
  (forall x, le x x) ->
  StronglySorted le l ->
  nth_error l i = Some a -> nth_error l j = Some b -> ~ le b a -> (i < j)%nat.
Proof.
  intros Hrefl Hs. revert i j. induction Hs as [|x rest Hs IH Hall]; intros i j Hi Hj Hnot.
  - destruct i; discriminate.
  - rewrite Forall_forall in Hall.
    destruct i as [|i], j as [|j]; simpl in *.
    + injection Hi as <-. injection Hj as <-. exfalso. auto.
    + lia.
    + injection Hj as <-. exfalso. apply Hnot, Hall. eapply nth_error_In; eauto.
    + apply -> Nat.succ_lt_mono. eapply IH; eauto.
Qed.

End StableSortFacts.

Section SortFacts.
Context {A : Type}.
Variable comparefn : A -> A -> result number.
Variable gt : A -> A -> bool.

Lemma sort_insert_pure (x : A) (sorted : list A) :
  (forall y, In y sorted ->
     exists v, comparefn x y = Ok v /\ num_gtb v (Fin 0) = gt x y) ->
  Js.sort_insert comparefn x sorted = Ok (stable_insert gt x sorted).
Proof.
  induction sorted as [|y rest IH]; intros H; simpl; auto.
  destruct (H y (or_introl eq_refl)) as [v [Hv Hgt]]. rewrite Hv. simpl.
  rewrite Hgt. destruct (gt x y); auto.
  now rewrite IH by (intros; apply H; now right).
Qed.

(** A comparator that completes on the elements of the array makes [sort]
    the stable insertion sort by its sign. *)
Lemma sort_pure (items : list A) :
  (forall x y, In x items -> In y items ->
     exists v, comparefn x y = Ok v /\ num_gtb v (Fin 0) = gt x y) ->
  Js.sort comparefn items = Ok (stable_sort gt items).
Proof.
  induction items as [|x rest IH]; intros H; simpl; auto.
  rewrite IH by (intros x0 y0 Hx0 Hy0; apply H; right; assumption). simpl.
  apply sort_insert_pure. intros y Hy. rewrite stable_sort_In in Hy.
  apply H; [left; reflexivity | right; exact Hy].
Qed.

(** Whatever the comparator does, a [sort] that completes rearranges. *)
Lemma sort_insert_Ok_perm (x : A) (sorted r : list A) :
  Js.sort_insert comparefn x sorted = Ok r -> Permutation (x :: sorted) r.
Proof.
  revert r. induction sorted as [|y rest IH]; simpl; intros r H.
  - injection H as <-. auto.
  - apply bind_Ok in H as [v [_ H]]. destruct (num_gtb v (Fin 0)).
    + apply bind_Ok in H as [r0 [Hr0 H]]. injection H as <-.
      eapply perm_trans; [apply perm_swap | apply perm_skip, IH, Hr0].
    + injection H as <-. auto.
Qed.

Lemma sort_Ok_perm (items r : list A) :
  Js.sort comparefn items = Ok r -> Permutation items r.
Proof.
  revert r. induction items as [|x rest IH]; simpl; intros r H.
  - injection H as <-. auto.
  - apply bind_Ok in H as [r0 [Hr0 H]]. apply sort_insert_Ok_perm in H.
    eapply perm_trans; [apply perm_skip, IH, Hr0 | exact H].
Qed.

End SortFacts.

Lemma find_pure (cb : value -> result bool) (p : value -> bool) (items : list value) :
  (forall x, In x items -> cb x = Ok (p x)) ->
  Js.find cb items =
  Ok (match List.find p items with Some x => x | None => VUndef end).
Proof.
  induction items as [|x rest IH]; intros H; simpl; auto.
  rewrite (H x (or_introl eq_refl)). simpl. destruct (p x); auto.
  apply IH. intros. apply H. now right.
Qed.

(* ===================================================================== *)
(** * Properties of the coverage engine *)
(* ===================================================================== *)

Section CoverageFacts.
Import Coverage.

Lemma strict_eq_string (s : string) (v : value) :
  strict_eq (VStr s) v = true <-> v = VStr s.
Proof.
  destruct v; simpl; split; intro H; try discriminate.
  - apply String.eqb_eq in H. now subst.
  - injection H as ->. apply String.eqb_refl.
Qed.

Lemma references_refersTo (techniqueId : value) (det : Detection.t) :
  references techniqueId det = true <-> refersTo techniqueId det.
Proof.
  unfold references, refersTo. rewrite existsb_exists.
  split; intros [ref [Hin H]]; exists ref; split; auto; now apply strict_eq_string.
Qed.

Lemma matches_references (techniqueId : value) (det : Detection.t) :
  matches techniqueId det = Detection.isActive det && references techniqueId det.
Proof.
  unfold matches, references, techniqueRefs. simpl. now rewrite orb_false_r, orb_assoc.
Qed.

Lemma filter_length_pos {A : Type} (p : A -> bool) (l : list A) :
  (0 < List.length (List.filter p l))%nat <-> exists x, In x l /\ p x = true.
Proof.
  split.
  - destruct (List.filter p l) as [|x rest] eqn:E; simpl; [lia|]. intros _.
    exists x. apply filter_In. rewrite E. now left.
  - intros [x Hx]. apply filter_In in Hx.
    destruct (List.filter p l); [contradiction | simpl; lia].
Qed.

Lemma filter_filter_sub {A : Type} (p q : A -> bool) (l : list A) :
  (forall x, p x = true -> q x = true) ->
  List.filter p (List.filter q l) = List.filter p l.
Proof.
  intros Hpq. induction l as [|x l IH]; simpl; auto.
  destruct (q x) eqn:Eq; simpl.
  - now rewrite IH.
  - destruct (p x) eqn:Ep; auto. apply Hpq in Ep. congruence.
Qed.

End CoverageFacts.

(** C1: a technique is 'detected' exactly when some active detection has its
    id in one of the reference slots; the count of detection rules is the
    number of active detections that refer to the id; and the inactive
    detections can be dropped without changing the count or the status. *)
Theorem status_detected_iff_active_reference :
  forall (this : Tracker) (t : Technique.t),
    (Coverage.getTechniqueStatus this t = Coverage.detected <->
       exists det, In det (detections this) /\ Detection.isActive det = true /\
                   Coverage.refersTo (Technique.id t) det)
    /\ (forall techniqueId,
          Coverage.getDetectionRulesForTechnique this techniqueId =
          List.length (List.filter (fun det => Detection.isActive det && Coverage.references techniqueId det)
                                   (detections this)))
    /\ (forall techniqueId,
          Coverage.getDetectionRulesForTechnique
            (set_detections (List.filter Detection.isActive (detections this)) this) techniqueId =
          Coverage.getDetectionRulesForTechnique this techniqueId)
    /\ Coverage.getTechniqueStatus
         (set_detections (List.filter Detection.isActive (detections this)) this) t =
       Coverage.getTechniqueStatus this t.
Proof.
  intros this t.
  assert (Hcount : forall techniqueId,
            Coverage.getDetectionRulesForTechnique
              (set_detections (List.filter Detection.isActive (detections this)) this) techniqueId =
            Coverage.getDetectionRulesForTechnique this techniqueId).
  { intros tid. unfold Coverage.getDetectionRulesForTechnique. simpl.
    rewrite filter_filter_sub; auto.
    intros det H. rewrite matches_references in H. now apply andb_prop in H. }
  repeat split.
  - unfold Coverage.getTechniqueStatus, Coverage.getDetectionRulesForTechnique.
    destruct (0 <? _)%nat eqn:E; [|discriminate]. intros _.
    apply Nat.ltb_lt, filter_length_pos in E. destruct E as [det [Hin Hm]].
    rewrite matches_references in Hm. apply andb_prop in Hm as [Ha Hr].
    exists det. repeat split; auto. now apply references_refersTo.
  - intros [det [Hin [Ha Hr]]].
    unfold Coverage.getTechniqueStatus, Coverage.getDetectionRulesForTechnique.
    assert (E : (0 < List.length (List.filter (Coverage.matches (Technique.id t)) (detections this)))%nat).
    { apply filter_length_pos. exists det. split; auto.
      rewrite matches_references, Ha. now apply references_refersTo. }
    apply Nat.ltb_lt in E. now rewrite E.
  - intros tid. unfold Coverage.getDetectionRulesForTechnique. f_equal.
    apply filter_ext. intros det. apply matches_references.
  - exact Hcount.
  - unfold Coverage.getTechniqueStatus. now rewrite Hcount.
Qed.

(** C10: every detection adds one to the count of a technique when it is
    active and names the technique in a slot, however many of its slots name
    it, and nothing otherwise; so the count is the number of active detections
    that name the technique, never the number of slots, and it does not
    exceed the number of detections. *)
Theorem repeated_reference_counts_once :
  forall (this : Tracker) (before after : list Detection.t) (det : Detection.t)
         (techniqueId : string),
    detections this = (before ++ det :: after)%list ->
    Coverage.getDetectionRulesForTechnique this (VStr techniqueId) =
      (Coverage.getDetectionRulesForTechnique (set_detections before this) (VStr techniqueId)
       + (if Detection.isActive det
             && existsb (String.eqb techniqueId) (Coverage.techniqueRefs det)
          then 1 else 0)
       + Coverage.getDetectionRulesForTechnique (set_detections after this) (VStr techniqueId))%nat
    /\ Coverage.getDetectionRulesForTechnique this (VStr techniqueId)
       = List.length
           (List.filter (fun d => Detection.isActive d
                                  && existsb (String.eqb techniqueId) (Coverage.techniqueRefs d))
                        (detections this))
    /\ (Coverage.getDetectionRulesForTechnique this (VStr techniqueId)
        <= List.length (detections this))%nat.
Proof.
  intros this before after det tid Hds.
  assert (Hm : forall d, Coverage.matches (VStr tid) d
                         = Detection.isActive d
                           && existsb (String.eqb tid) (Coverage.techniqueRefs d)).
  { intros d. unfold Coverage.matches, Coverage.techniqueRefs. cbn [existsb strict_eq].
    rewrite orb_false_r, orb_assoc.
    now rewrite !(String.eqb_sym tid). }
  unfold Coverage.getDetectionRulesForTechnique. cbn [detections set_detections].
  split; [|split].
  - rewrite Hds, filter_app, length_app. cbn [List.filter]. rewrite Hm.
    destruct (_ && _); cbn [List.length]; lia.
  - f_equal. apply filter_ext. exact Hm.
  - apply filter_length_le.
Qed.

Lemma repeated_reference_counts_once_witness :
  Coverage.getDetectionRulesForTechnique
    (set_detections [Sample.detection "det_1" true "T1059" "" "";
                     Sample.detection "det_2" true "T1059" "T1059" "";
                     Sample.detection "det_3" false "T1059" "T1059" "T1059";
                     Sample.detection "det_4" true "T1060" "" ""] constructed)
    (VStr "T1059") = 2%nat.
Proof.
  pose proof (repeated_reference_counts_once
                (set_detections [Sample.detection "det_1" true "T1059" "" "";
                                 Sample.detection "det_2" true "T1059" "T1059" "";
                                 Sample.detection "det_3" false "T1059" "T1059" "T1059";
                                 Sample.detection "det_4" true "T1060" "" ""] constructed)
                [Sample.detection "det_1" true "T1059" "" ""]
                [Sample.detection "det_3" false "T1059" "T1059" "T1059";
                 Sample.detection "det_4" true "T1060" "" ""]
                (Sample.detection "det_2" true "T1059" "T1059" "")
                "T1059" eq_refl) as [H _].
  rewrite H. reflexivity.
Defined.

Section MeanFacts.
Import Coverage.

Lemma calculateCoverage_value (this : Tracker) (t : Technique.t) :
  calculateCoverage this t = Fin (coverageValue this t).
Proof.
  unfold calculateCoverage, coverageValue. now destruct (getTechniqueStatus this t).
Qed.

(** The running total of the [forEach] loop is the sum of the units. *)
Lemma totalCoverage_from (this : Tracker) (counted : list Technique.t) (start : Q) :
  exists total,
    fold_left (fun total tech => num_add total (calculateCoverage this tech))
              counted (Fin start) = Fin total
    /\ (total == start + fold_right Qplus 0 (List.map (coverageValue this) counted))%Q.
Proof.
  revert start. induction counted as [|t rest IH]; intros start; simpl.
  - exists start. split; auto. ring.
  - rewrite calculateCoverage_value. simpl.
    destruct (IH (start + coverageValue this t)%Q) as [total [Hfold Hsum]].
    exists total. split; auto. rewrite Hsum. ring.
Qed.

Lemma totalCoverage_sum (this : Tracker) (counted : list Technique.t) :
  exists total,
    totalCoverage this counted = Fin total
    /\ (total == fold_right Qplus 0 (List.map (coverageValue this) counted))%Q.
Proof.
  destruct (totalCoverage_from this counted 0) as [total [Hfold Hsum]].
  exists total. split; auto. rewrite Hsum. ring.
Qed.

Lemma length_not_zero {A : Type} (x : A) (l : list A) :
  Qis_zero (inject_Z (Z.of_nat (List.length (x :: l)))) = false.
Proof.
  unfold Qis_zero, Qeq_bool. cbn [List.length inject_Z Qnum Qden].
  apply Z.eqb_neq. lia.
Qed.

(** The percentage of a non-empty list of techniques is their mean, rounded
    to a double, times one hundred, rounded again. *)
Lemma percent_of_nonempty (this : Tracker) (t : Technique.t) (rest : list Technique.t) :
  num_mul (num_div (totalCoverage this (t :: rest))
                   (num_of_nat (List.length (t :: rest))))
          (num_of_Z 100)
  = num_mul (round (mean (List.map (coverageValue this) (t :: rest)))) (num_of_Z 100).
Proof.
  destruct (totalCoverage_sum this (t :: rest)) as [total [Htotal Hsum]].
  rewrite Htotal. unfold num_of_nat, num_of_Z, num_div.
  rewrite length_not_zero. f_equal. apply round_comp.
  unfold mean. cbn [List.map]. cbn [List.length]. rewrite length_map.
  cbn [List.map] in Hsum. rewrite Hsum. reflexivity.
Qed.

Lemma coverageValue_unit (this : Tracker) (t : Technique.t) :
  (0 <= coverageValue this t <= 1)%Q.
Proof. unfold coverageValue. destruct (getTechniqueStatus this t); split; discriminate. Qed.

Lemma sum_of_units (values : list Q) :
  Forall (fun v => 0 <= v <= 1)%Q values ->
  (0 <= fold_right Qplus 0 values <= inject_Z (Z.of_nat (List.length values)))%Q.
Proof.
  induction 1 as [|v rest [Hv0 Hv1] _ [IH0 IH1]].
  - simpl. split; discriminate.
  - cbn [fold_right List.length]. rewrite Nat2Z.inj_succ, <- Z.add_1_l, inject_Z_plus.
    change (inject_Z 1) with 1%Q. split; lra.
Qed.

Lemma mean_of_units (values : list Q) :
  Forall (fun v => 0 <= v <= 1)%Q values -> (0 <= mean values <= 1)%Q.
Proof.
  intros H. destruct values as [|v rest]; [split; discriminate|].
  destruct (sum_of_units (v :: rest) H) as [H0 H1]. unfold mean.
  assert (Hn : (0 < inject_Z (Z.of_nat (List.length (v :: rest))))%Q).
  { rewrite <- (Zlt_Qlt 0). cbn [List.length]. lia. }
  split.
  - apply Qle_shift_div_l; [exact Hn|]. now rewrite Qmult_0_l.
  - apply Qle_shift_div_r; [exact Hn|]. now rewrite Qmult_1_l.
Qed.

Lemma mean_of_coverage (this : Tracker) (counted : list Technique.t) :
  (0 <= mean (List.map (coverageValue this) counted) <= 1)%Q.
Proof.
  apply mean_of_units. apply Forall_forall. intros v Hv.
  apply in_map_iff in Hv as [t [<- _]]. apply coverageValue_unit.
Qed.

(** A share between 0 and 1 gives a percentage between 0 and 100, and the
    two ends are exact. *)
Lemma percent_bounds (share : Q) :
  (0 <= share <= 1)%Q ->
  exists p, num_mul (round share) (num_of_Z 100) = Fin p /\ (0 <= p <= 100)%Q.
Proof.
  intros [H0 H1]. destruct (round_unit share H0 H1) as [r [-> [Hr0 Hr1]]].
  unfold num_mul, num_of_Z. apply round_hundred.
  - apply Qmult_le_0_compat; [exact Hr0 | discriminate].
  - change (inject_Z 100) with 100%Q. lra.
Qed.

Lemma percent_zero (share : Q) :
  (share == 0)%Q -> num_mul (round share) (num_of_Z 100) = Fin 0.
Proof. intros H. rewrite (round_comp share 0 H). vm_compute. reflexivity. Qed.

Lemma percent_one (share : Q) :
  (share == 1)%Q -> num_mul (round share) (num_of_Z 100) = Fin 100.
Proof. intros H. rewrite (round_comp share 1 H). vm_compute. reflexivity. Qed.

(** On a corpus with at least one technique the dashboard's number is the
    mean of the coverage units, as a percentage. *)
Lemma overallCoverage_nonempty (this : Tracker) :
  techniques this <> [] ->
  overallCoveragePercent this
  = num_mul (round (mean (List.map (coverageValue this) (techniques this)))) (num_of_Z 100).
Proof.
  unfold overallCoveragePercent. destruct (techniques this) as [|t rest]; [congruence|].
  intros _. apply percent_of_nonempty.
Qed.

(** The coverage of a tactic, from the mean over its members. *)
Lemma tacticCoverage_percent (this : Tracker) (tactic : Tactic.t) :
  coverage (tacticCoverage this tactic)
  = num_mul (round (mean (List.map (coverageValue this)
                            (List.filter (inTactic (Tactic.shortName tactic))
                                         (techniques this)))))
            (num_of_Z 100).
Proof.
  unfold tacticCoverage. cbn [coverage].
  destruct (List.filter _ (techniques this)) as [|t rest].
  - symmetry. apply percent_zero. reflexivity.
  - replace (0 <? List.length (t :: rest))%nat with true by reflexivity.
    apply percent_of_nonempty.
Qed.

End MeanFacts.

(** C2: with no technique loaded the dashboard's overall coverage is 0/0,
    that is NaN, whatever the detections are. *)
Theorem overallCoverage_of_empty_corpus :
  forall dets : list Detection.t,
    Coverage.overallCoveragePercent (set_detections dets constructed) = NaN.
Proof. intros dets. reflexivity. Qed.

(** C3, as the code has it: the coverage of a tactic is a percentage, one
    hundred times the mean of the coverage units over all techniques, parents
    and sub-techniques alike, whose tactics list holds the tactic's short
    name, in the arithmetic of doubles (the mean is rounded, and so is the
    product).  It is a number between 0 and 100, never NaN; it is 0 when the
    tactic has no technique or none of them is detected, and 100 when all of
    them are. *)
Theorem tacticCoverage_is_mean_percentage :
  forall (this : Tracker) (tactic : Tactic.t),
    let members :=
      List.filter (fun tech => existsb (strict_eq (Tactic.shortName tactic)) (Technique.tactics tech))
                  (techniques this) in
    let share := Coverage.mean (List.map (Coverage.coverageValue this) members) in
    Coverage.coverage (Coverage.tacticCoverage this tactic)
    = num_mul (round share) (num_of_Z 100)
    /\ (0 <= share <= 1)%Q
    /\ (exists p, Coverage.coverage (Coverage.tacticCoverage this tactic) = Fin p
                   /\ (0 <= p <= 100)%Q)
    /\ ((share == 0)%Q -> Coverage.coverage (Coverage.tacticCoverage this tactic) = Fin 0)
    /\ ((share == 1)%Q -> Coverage.coverage (Coverage.tacticCoverage this tactic) = Fin 100)
    /\ Coverage.count (Coverage.tacticCoverage this tactic) = List.length members
    /\ (List.length members = 0%nat ->
        Coverage.coverage (Coverage.tacticCoverage this tactic) = Fin 0)
    /\ (List.length members = 0%nat <->
        forall tech, In tech (techniques this) ->
                     ~ exists v, In v (Technique.tactics tech)
                                 /\ strict_eq (Tactic.shortName tactic) v = true).
Proof.
  intros this tactic members share.
  pose proof (tacticCoverage_percent this tactic) as Hcov.
  fold (Coverage.inTactic (Tactic.shortName tactic)) in members.
  fold members in Hcov. fold share in Hcov.
  pose proof (mean_of_coverage this members) as Hshare. fold share in Hshare.
  split; [exact Hcov|]. split; [exact Hshare|].
  split; [rewrite Hcov; now apply percent_bounds|].
  split; [intros H; rewrite Hcov; now apply percent_zero|].
  split; [intros H; rewrite Hcov; now apply percent_one|].
  split; [reflexivity|].
  split.
  - intros Hlen. rewrite Hcov. apply percent_zero. subst share.
    destruct members; [reflexivity | discriminate].
  - split.
    + intros Hlen tech Hin [v [Hv Hs]].
      assert (Hm : In tech members).
      { apply filter_In. split; auto. apply existsb_exists. now exists v. }
      destruct members; [contradiction | discriminate].
    + intros Hnone. destruct members as [|t rest] eqn:E; auto. exfalso.
      assert (Hm : In t members) by (rewrite E; now left).
      apply filter_In in Hm as [Hin Hex]. apply existsb_exists in Hex.
      exact (Hnone t Hin Hex).
Qed.

Lemma tacticCoverage_is_mean_percentage_witness :
  Coverage.coverage (Coverage.tacticCoverage Examples.oneOfThree Examples.execution)
  = Fin (2345624805922133 # 70368744177664)
  /\ Coverage.coverage (Coverage.tacticCoverage (Sample.scenario false) Examples.execution)
     = Fin 0.
Proof.
  split.
  - rewrite (proj1 (tacticCoverage_is_mean_percentage Examples.oneOfThree
                      Examples.execution)).
    vm_compute. reflexivity.
  - refine (proj1 (proj2 (proj2 (proj2
              (tacticCoverage_is_mean_percentage (Sample.scenario false)
                 Examples.execution)))) _).
    vm_compute. reflexivity.
Defined.

(** C3 as stated fails: for the tactic of the scenario, with one of two
    techniques detected, the mean is one half and the coverage of the tactic
    is 50. *)
Lemma half_covered_tactic_reads_fifty :
  (Coverage.mean (List.map (Coverage.coverageValue (Sample.scenario true))
                           (techniques (Sample.scenario true))) == 1 # 2)%Q
  /\ List.map Coverage.coverage (Coverage.tacticCoverageData (Sample.scenario true))
     = [Fin 50]
  /\ ~ num_same (Fin 50) (Fin (1 # 2)).
Proof.
  split; [vm_compute; reflexivity|]. split; [vm_compute; reflexivity|].
  intros H. inversion H as [| | |x y Hxy]. discriminate Hxy.
Qed.

(** The scenario of one tactic with two techniques, of which one is named
    by the only detection: half of the tactic and of the corpus is covered
    while the detection is active, nothing once it is switched off. *)
Example scenario_two_techniques :
  Coverage.getDetectionRulesForTechnique (Sample.scenario true) (VStr "T1") = 1%nat
  /\ List.map (Coverage.getTechniqueStatus (Sample.scenario true))
              (techniques (Sample.scenario true))
     = [Coverage.detected; Coverage.not_detected]
  /\ List.map Coverage.coverage (Coverage.tacticCoverageData (Sample.scenario true))
     = [Fin 50]
  /\ Coverage.overallCoveragePercent (Sample.scenario true) = Fin 50
  /\ List.map Coverage.coverage (Coverage.tacticCoverageData (Sample.scenario false))
     = [Fin 0]
  /\ Coverage.overallCoveragePercent (Sample.scenario false) = Fin 0.
Proof. vm_compute. repeat split. Qed.

(* ===================================================================== *)
(** * Properties of the normalizer *)
(* ===================================================================== *)

(** The statements before the two assignments only write the label. *)
Lemma run_cases {A : Type} (this : Tracker) (m : result A)
      (k : A -> Tracker * completion) (P : Tracker * completion -> Prop) :
  (forall e, m = Throw e -> P (this, Abrupt e)) ->
  (forall a, m = Ok a -> P (k a)) ->
  P (Normalizer.run this m k).
Proof. intros Hthrow Hok. destruct m; simpl; auto. Qed.

Lemma same_model_refl (this : Tracker) : same_model this this.
Proof. repeat split. Qed.

Lemma same_model_assigned (set : string -> Tracker -> Tracker) (computed : option string)
      (a b : Tracker) :
  (forall s t, same_model t b -> same_model (set s t) b) ->
  same_model a b -> same_model (Normalizer.assigned set computed a) b.
Proof. intros Hset H. destruct computed; simpl; auto. Qed.

Lemma same_model_version (v : string) (a b : Tracker) :
  same_model a b -> same_model (set_mitreVersion v a) b.
Proof. intros H. repeat split; apply H. Qed.

Lemma same_model_number (v : string) (a b : Tracker) :
  same_model a b -> same_model (set_mitreVersionNumber v a) b.
Proof. intros H. repeat split; apply H. Qed.

Lemma same_model_details (v : string) (a b : Tracker) :
  same_model a b -> same_model (set_mitreVersionDetails v a) b.
Proof. intros H. repeat split; apply H. Qed.

Ltac labelled :=
  repeat first
    [ assumption
    | apply same_model_refl
    | apply same_model_assigned; [intros ? ? ?; cbv beta|]
    | apply same_model_version
    | apply same_model_number
    | apply same_model_details ].

Section NormalizerFacts.
Import Normalizer WellTyped.

Lemma field_truthy_object (v : value) (k : string) :
  truthy (field v k) = true -> exists props, v = VObj props.
Proof. destruct v; simpl; try discriminate. eauto. Qed.

Lemma flagged_not_live (obj : value) :
  flagged obj = true -> is_live_technique obj = Ok false.
Proof.
  unfold flagged. intros H.
  assert (Hobj : exists props, obj = VObj props).
  { apply orb_prop in H as [H | H]; eapply field_truthy_object; eauto. }
  destruct Hobj as [props ->]. unfold is_live_technique, field in *. simpl in *.
  destruct (strict_eq _ _); auto.
  destruct (truthy (lookup "revoked" props)); simpl in *; auto.
  now rewrite H.
Qed.

Lemma live_not_flagged (obj : value) :
  is_live_technique obj = Ok true ->
  flagged obj = false /\ is_kind "attack-pattern" obj = true.
Proof.
  unfold is_live_technique, flagged, is_kind, field.
  destruct (get obj "type") as [ty|] eqn:Ety; simpl; [|discriminate].
  destruct (strict_eq ty _); [|discriminate].
  destruct (get obj "revoked") as [r|]; simpl; [|discriminate].
  destruct (truthy r); simpl; [discriminate|].
  destruct (get obj "deprecated") as [d|]; simpl; [|discriminate].
  destruct (truthy d); simpl; [discriminate|]. auto.
Qed.

(** Where the techniques of [extractTechniques] come from. *)
Lemma extractTechniques_source (objects : value) (ts : list Technique.t) (t : Technique.t) :
  extractTechniques objects = Ok ts -> In t ts ->
  exists items obj,
    objects = VArr items /\ In obj items /\ is_live_technique obj = Ok true
    /\ toTechnique obj = Ok t /\ truthy (Technique.id t) = true.
Proof.
  unfold extractTechniques, identifiedTechniques. intros H Hin.
  apply bind_Ok in H as [identified [H Hsort]].
  apply bind_Ok in H as [items [Harr H]].
  apply bind_Ok in H as [live [Hlive H]].
  apply bind_Ok in H as [mapped [Hmapped Hid]].
  destruct objects; try discriminate. injection Harr as ->.
  apply sort_Ok_perm in Hsort.
  apply (Permutation_in _ (Permutation_sym Hsort)) in Hin.
  destruct (filter_Ok_In _ _ _ _ Hid Hin) as [Hin' Htruthy].
  destruct (map_Ok_In _ _ _ _ Hmapped Hin') as [obj [Hobj Hto]].
  destruct (filter_Ok_In _ _ _ _ Hlive Hobj) as [Hobj' Hl].
  exists items, obj. repeat split; auto. now injection Htruthy.
Qed.

(** Dropping the flagged objects from the collection changes nothing. *)
Lemma extractTechniques_ignores_flagged (items : list value) :
  extractTechniques (VArr (List.filter (fun obj => negb (flagged obj)) items)) =
  extractTechniques (VArr items).
Proof.
  unfold extractTechniques, identifiedTechniques. simpl.
  rewrite filter_skip; auto.
  intros obj _ H. apply flagged_not_live. now destruct (flagged obj).
Qed.

Lemma objects_of_field (this : Tracker) (objects : value) :
  objects_of this = Some objects -> objects = field (attackData this) "objects".
Proof.
  unfold objects_of. destruct (_ && _); [|discriminate]. now intros [= <-].
Qed.

(** The last two assignments either complete, or leave the techniques as
    they were. *)
Lemma assignCollections_techniques (host : Host.t) (objects : value) (this : Tracker) :
  (techniques (fst (assignCollections host objects this)) = techniques this
   /\ snd (assignCollections host objects this) <> Normal)
  \/ (exists tacs ts,
        extractTactics host objects = Ok tacs /\ extractTechniques objects = Ok ts
        /\ assignCollections host objects this
           = (set_techniques ts (set_tactics tacs this), Normal)).
Proof.
  unfold assignCollections, run.
  destruct (extractTactics host objects) as [tacs|]; [|left; split; [auto | discriminate]].
  destruct (extractTechniques objects) as [ts|]; [|left; split; [auto | discriminate]].
  right. eauto.
Qed.

(** Either copy returns at once, or composes the label and goes on to the
    two assignments, or stops at an exception while composing the label. *)
Lemma processAttackData_shape (host : Host.t) (this : Tracker) :
  match objects_of this with
  | None => processAttackData host this = (this, Normal)
  | Some objects => stops_or_assigns host this objects (processAttackData host this)
  end.
Proof.
  unfold processAttackData. destruct (objects_of this) as [objects|]; [|reflexivity].
  unfold stops_or_assigns.
  repeat (apply run_cases;
          [intros e _; eexists; split; [|right; eexists; reflexivity]; labelled
          | intros ? _]).
  eexists. split; [|left; reflexivity]. labelled.
Qed.

Lemma processAttackData_identityOnly_shape (host : Host.t) (this : Tracker) :
  match objects_of this with
  | None => processAttackData_identityOnly host this = (this, Normal)
  | Some objects =>
      stops_or_assigns host this objects (processAttackData_identityOnly host this)
  end.
Proof.
  unfold processAttackData_identityOnly.
  destruct (objects_of this) as [objects|]; [|reflexivity].
  unfold stops_or_assigns.
  repeat (apply run_cases;
          [intros e _; eexists; split; [|right; eexists; reflexivity]; labelled
          | intros ? _]).
  eexists. split; [|left; reflexivity]. labelled.
Qed.

Lemma stops_or_assigns_techniques (host : Host.t) (this : Tracker) (objects : value)
      (out : Tracker * completion) :
  stops_or_assigns host this objects out ->
  techniques (fst out) = techniques this
  \/ exists ts, extractTechniques objects = Ok ts /\ techniques (fst out) = ts.
Proof.
  intros [labelled [Hsame [-> | [e ->]]]].
  - destruct (assignCollections_techniques host objects labelled)
      as [[H _] | [tacs [ts [_ [Hts H]]]]]; rewrite H.
    + left. apply Hsame.
    + right. exists ts. split; auto.
  - left. apply Hsame.
Qed.

(** The techniques after [processAttackData], of either copy, are those of
    before or the extracted ones. *)
Lemma processAttackData_techniques (host : Host.t) (this : Tracker) :
  techniques (fst (processAttackData host this)) = techniques this
  \/ exists ts, extractTechniques (field (attackData this) "objects") = Ok ts
                /\ techniques (fst (processAttackData host this)) = ts.
Proof.
  pose proof (processAttackData_shape host this) as H.
  destruct (objects_of this) as [objects|] eqn:E; [|rewrite H; now left].
  apply objects_of_field in E. subst objects.
  now apply (stops_or_assigns_techniques host).
Qed.

Lemma processAttackData_identityOnly_techniques (host : Host.t) (this : Tracker) :
  techniques (fst (processAttackData_identityOnly host this)) = techniques this
  \/ exists ts, extractTechniques (field (attackData this) "objects") = Ok ts
                /\ techniques (fst (processAttackData_identityOnly host this)) = ts.
Proof.
  pose proof (processAttackData_identityOnly_shape host this) as H.
  destruct (objects_of this) as [objects|] eqn:E; [|rewrite H; now left].
  apply objects_of_field in E. subst objects.
  now apply (stops_or_assigns_techniques host).
Qed.

End NormalizerFacts.

(** C4: a technique that is in the model after [processAttackData], in
    either copy, was there before the call or is the image of an object of
    the collection that is flagged neither revoked nor deprecated; and the
    extracted techniques are the same as for the collection with the flagged
    objects taken out. *)
Theorem flagged_objects_never_normalized :
  forall (host : Host.t) (this : Tracker) (t : Technique.t),
    In t (techniques (fst (Normalizer.processAttackData host this)))
    \/ In t (techniques (fst (Normalizer.processAttackData_identityOnly host this))) ->
    (In t (techniques this)
     \/ exists items obj,
          field (attackData this) "objects" = VArr items /\ In obj items
          /\ WellTyped.flagged obj = false
          /\ Normalizer.toTechnique obj = Ok t)
    /\ forall items : list value,
         Normalizer.extractTechniques
           (VArr (List.filter (fun obj => negb (WellTyped.flagged obj)) items))
         = Normalizer.extractTechniques (VArr items).
Proof.
  intros host this t Hin. split; [|apply extractTechniques_ignores_flagged].
  assert (Hcase :
    (techniques (fst (Normalizer.processAttackData host this)) = techniques this
     \/ exists ts, Normalizer.extractTechniques (field (attackData this) "objects") = Ok ts
                   /\ techniques (fst (Normalizer.processAttackData host this)) = ts)
    /\ (techniques (fst (Normalizer.processAttackData_identityOnly host this)) = techniques this
     \/ exists ts, Normalizer.extractTechniques (field (attackData this) "objects") = Ok ts
                   /\ techniques (fst (Normalizer.processAttackData_identityOnly host this)) = ts)).
  { split; [apply processAttackData_techniques | apply processAttackData_identityOnly_techniques]. }
  destruct Hcase as [H1 H2].
  assert (Hfrom : forall ts, Normalizer.extractTechniques (field (attackData this) "objects") = Ok ts ->
                             In t ts ->
                             exists items obj,
                               field (attackData this) "objects" = VArr items /\ In obj items
                               /\ WellTyped.flagged obj = false
                               /\ Normalizer.toTechnique obj = Ok t).
  { intros ts Hts Ht.
    destruct (extractTechniques_source _ _ _ Hts Ht) as [items [obj [Ho [Hi [Hl [Hto _]]]]]].
    exists items, obj. repeat split; auto. now apply live_not_flagged. }
  destruct Hin as [Hin | Hin].
  - destruct H1 as [H1 | [ts [Hts H1]]]; rewrite H1 in Hin; [now left | right; eauto].
  - destruct H2 as [H2 | [ts [Hts H2]]]; rewrite H2 in Hin; [now left | right; eauto].
Qed.

Lemma flagged_objects_never_normalized_witness :
  exists items obj,
    field Sample.corpus "objects" = VArr items /\ In obj items
    /\ WellTyped.flagged obj = false
    /\ Normalizer.toTechnique obj = Ok (Sample.technique "T1059" "execution" false VNull).
Proof.
  destruct (flagged_objects_never_normalized Sample.host
              (set_attackData Sample.corpus constructed)
              (Sample.technique "T1059" "execution" false VNull)) as [[H | H] _].
  - left. vm_compute. tauto.
  - contradiction.
  - exact H.
Defined.

(* ===================================================================== *)
(** * The order of the techniques *)
(* ===================================================================== *)

Section OrderFacts.
Import Normalizer Order.

Lemma exact_int_Fin (n : number) (z : Z) :
  exact_int n = Some z -> exists q, n = Fin q /\ (q == inject_Z z)%Q.
Proof.
  destruct n as [| | |q]; try discriminate. unfold exact_int.
  destruct (Qred q) as [num den] eqn:E. cbn [Qnum Qden].
  destruct (Pos.eqb_spec den 1) as [-> |]; cbn [andb]; [|intros H; discriminate H].
  destruct (_ <=? _); [|intros H; discriminate H]. intros [= <-].
  exists q. split; auto. rewrite <- (Qred_correct q), E. reflexivity.
Qed.

Lemma Qeq_bool_inject (qa qb : Q) (a b : Z) :
  (qa == inject_Z a)%Q -> (qb == inject_Z b)%Q -> Qeq_bool qa qb = (a =? b).
Proof.
  intros Ha Hb. destruct (Z.eqb_spec a b) as [-> | Hne].
  - apply Qeq_bool_iff. now rewrite Ha, Hb.
  - destruct (Qeq_bool qa qb) eqn:E; auto. apply Qeq_bool_iff in E.
    rewrite Ha, Hb in E. unfold Qeq in E. simpl in E. lia.
Qed.

Lemma positive_difference (qa qb : Q) (a b : Z) :
  (qa == inject_Z a)%Q -> (qb == inject_Z b)%Q ->
  num_gtb (num_sub (Fin qa) (Fin qb)) (Fin 0) = (b <? a).
Proof.
  intros Ha Hb. simpl.
  destruct (Qle_bool (qa + - qb) 0) eqn:E; simpl.
  - apply Qle_bool_iff in E. rewrite Ha, Hb in E. unfold Qle in E. simpl in E.
    symmetry. apply Z.ltb_ge. lia.
  - symmetry. apply Z.ltb_lt.
    destruct (Z.ltb_spec b a) as [|Hle]; auto. exfalso.
    assert (H : Qle_bool (qa + - qb) 0 = true).
    { apply Qle_bool_iff. rewrite Ha, Hb. unfold Qle. simpl. lia. }
    congruence.
Qed.

Lemma keyed_numbers (t : Technique.t) :
  keyed t = true ->
  exists qm qs,
    mainNumber (Technique.id t) = Ok (Fin qm) /\ subNumber (Technique.id t) = Ok (Fin qs)
    /\ (qm == inject_Z (mainKey t))%Q /\ (qs == inject_Z (subKey t))%Q.
Proof.
  unfold keyed, mainKey, subKey, sortKey.
  destruct (mainNumber _) as [m|]; [|discriminate].
  destruct (subNumber _) as [s|]; [|discriminate].
  destruct (exact_int m) as [a|] eqn:Ea; [|discriminate].
  destruct (exact_int s) as [b|] eqn:Eb; [|discriminate]. intros _.
  apply exact_int_Fin in Ea as [qm [-> Hm]]. apply exact_int_Fin in Eb as [qs [-> Hs]].
  exists qm, qs. auto.
Qed.

(** On techniques with integer keys the comparator completes, and it is
    positive exactly when the first key is the greater one. *)
Lemma compareTechniques_keyed (a b : Technique.t) :
  keyed a = true -> keyed b = true ->
  exists v, compareTechniques a b = Ok v /\ num_gtb v (Fin 0) = keyGtb a b.
Proof.
  intros Ha Hb.
  destruct (keyed_numbers a Ha) as [qma [qsa [Hma [Hsa [Ema Esa]]]]].
  destruct (keyed_numbers b Hb) as [qmb [qsb [Hmb [Hsb [Emb Esb]]]]].
  unfold compareTechniques, keyGtb. rewrite Hma, Hmb. simpl.
  rewrite (Qeq_bool_inject _ _ _ _ Ema Emb).
  destruct (mainKey a =? mainKey b); simpl.
  - rewrite Hsa, Hsb. simpl. eexists. split; [reflexivity|].
    apply (positive_difference _ _ _ _ Esa Esb).
  - eexists. split; [reflexivity|]. apply (positive_difference _ _ _ _ Ema Emb).
Qed.

Lemma keyLe_refl (x : Technique.t) : keyLe x x.
Proof. unfold keyLe. lia. Qed.

Lemma keyLe_trans (x y z : Technique.t) : keyLe x y -> keyLe y z -> keyLe x z.
Proof. unfold keyLe. lia. Qed.

Lemma keyGtb_false (x y : Technique.t) : keyGtb x y = false -> keyLe x y.
Proof.
  unfold keyGtb, keyLe. destruct (Z.eqb_spec (mainKey x) (mainKey y)); intros H.
  - apply Z.ltb_ge in H. lia.
  - apply Z.ltb_ge in H. lia.
Qed.

Lemma keyGtb_true (x y : Technique.t) : keyGtb x y = true -> keyLe y x /\ ~ keyLe x y.
Proof.
  unfold keyGtb, keyLe. destruct (Z.eqb_spec (mainKey x) (mainKey y)); intros H.
  - apply Z.ltb_lt in H. lia.
  - apply Z.ltb_lt in H. lia.
Qed.

Lemma sameKeyb_class (k : Z * Z) (x y : Technique.t) :
  sameKeyb k x = true -> keyGtb x y = true -> sameKeyb k y = false.
Proof.
  unfold sameKeyb. intros Hx Hgt. apply keyGtb_true in Hgt as [_ Hnle].
  apply andb_prop in Hx as [Hm Hs]. apply Z.eqb_eq in Hm, Hs.
  destruct (mainKey y =? fst k) eqn:Em; simpl; auto.
  apply Z.eqb_eq in Em. apply Z.eqb_neq. unfold keyLe in Hnle. lia.
Qed.

Lemma includes_dot_cons (c : ascii) (s : string) :
  includes "." (String c s) = Ascii.eqb c "." || includes "." s.
Proof.
  change (includes "." (String c s))
    with ((if ascii_dec "." c then prefix "" s else false) || includes "." s).
  f_equal. destruct (ascii_dec "." c) as [<- | Hne].
  - rewrite Ascii.eqb_refl. now destruct s.
  - symmetry. apply Ascii.eqb_neq. congruence.
Qed.

(** The piece before the first point has no point in it, and splitting it
    again gives it back. *)
Lemma split_0_no_dot (s : string) : includes "." (split_0 "." s) = false.
Proof.
  unfold split_0. induction s as [|c rest IH]; [reflexivity|].
  cbn [split]. destruct (split "." rest) as [piece pieces]. cbn [fst] in *.
  destruct (Ascii.eqb_spec c "."%char) as [-> | Hne]; cbn [fst]; [reflexivity|].
  rewrite includes_dot_cons, IH, orb_false_r. now apply Ascii.eqb_neq.
Qed.

Lemma split_0_of_piece (s : string) : includes "." s = false -> split_0 "." s = s.
Proof.
  unfold split_0. induction s as [|c rest IH]; [reflexivity|].
  rewrite includes_dot_cons. intros H. apply orb_false_elim in H as [Hc Hrest].
  cbn [split]. destruct (split "." rest) as [piece pieces]. cbn [fst] in *.
  rewrite Hc. cbn [fst]. f_equal. now apply IH.
Qed.

Lemma leading_piece_of_parent (s : string) :
  split_0 "." s <> "" ->
  split_0 "." (substring_1 (split_0 "." s)) = split_0 "." (substring_1 s).
Proof.
  destruct s as [|c rest]; [reflexivity|].
  unfold split_0. cbn [split substring_1].
  destruct (split "." rest) as [piece pieces] eqn:E.
  destruct (Ascii.eqb_spec c "."%char) as [-> | Hne]; cbn [fst substring_1]; [congruence|].
  intros _. change piece with (fst (piece, pieces)). rewrite <- E.
  apply split_0_of_piece, split_0_no_dot.
Qed.

Lemma keyed_id (t : Technique.t) :
  keyed t = true -> exists sid, Technique.id t = VStr sid.
Proof.
  unfold keyed, sortKey, mainNumber. destruct (Technique.id t); try discriminate. eauto.
Qed.

(** The keys of a parent, read off the id of its sub-technique. *)
Lemma parent_keys (p s : Technique.t) (sid : string) :
  keyed p = true -> keyed s = true ->
  Technique.id s = VStr sid -> Technique.id p = VStr (split_0 "." sid) ->
  mainKey p = mainKey s /\ subKey p = 0.
Proof.
  intros Hp Hs Hsid Hpid.
  assert (Hne : split_0 "." sid <> "").
  { intros E. unfold keyed, sortKey in Hp. rewrite Hpid, E in Hp. discriminate Hp. }
  assert (Hmain : mainNumber (Technique.id p) = mainNumber (Technique.id s)).
  { rewrite Hpid, Hsid. unfold mainNumber. now rewrite leading_piece_of_parent. }
  assert (Hsub : subNumber (Technique.id p) = Ok (num_of_Z 0)).
  { rewrite Hpid. unfold subNumber, id_includes_dot. now rewrite split_0_no_dot. }
  unfold keyed, mainKey, subKey, sortKey in *. rewrite Hmain, Hsub in *.
  destruct (mainNumber (Technique.id s)) as [m|]; [|discriminate].
  destruct (subNumber (Technique.id s)) as [n|]; [|discriminate].
  destruct (exact_int m); [|discriminate].
  destruct (exact_int n); [|discriminate].
  split; reflexivity.
Qed.

(** [isSubTechnique] and [parentId] as [toTechnique] sets them for a string
    id. *)
Lemma toTechnique_hierarchy (obj : value) (t : Technique.t) (sid : string) :
  toTechnique obj = Ok t -> Technique.id t = VStr sid ->
  Technique.isSubTechnique t = includes "." sid
  /\ Technique.parentId t = if includes "." sid then VStr (split_0 "." sid) else VNull.
Proof.
  unfold toTechnique. intros H Hid.
  repeat match type of H with
         | Js.bind _ _ = Ok _ => apply bind_Ok in H as [? [? H]]
         end.
  injection H as <-. simpl in Hid. subst.
  match goal with Hi : id_includes_dot (VStr sid) = Ok _ |- _ =>
    simpl in Hi; injection Hi as <- end.
  simpl. split; auto.
  match goal with Hp : (if includes "." sid then _ else _) = Ok _ |- _ =>
    destruct (includes "." sid); simpl in Hp; now injection Hp as <- end.
Qed.

Lemma identified_source (objects : value) (identified : list Technique.t) (t : Technique.t) :
  identifiedTechniques objects = Ok identified -> In t identified ->
  exists obj, toTechnique obj = Ok t.
Proof.
  unfold identifiedTechniques. intros H Hin.
  apply bind_Ok in H as [items [_ H]].
  apply bind_Ok in H as [live [_ H]].
  apply bind_Ok in H as [mapped [Hmapped Hid]].
  destruct (filter_Ok_In _ _ _ _ Hid Hin) as [Hin' _].
  destruct (map_Ok_In _ _ _ _ Hmapped Hin') as [obj [_ Hto]]. eauto.
Qed.

End OrderFacts.

(** C5, as the code has it: when the leading number and the suffix number
    of every identifier are integers that a double holds exactly, the sort
    completes and the techniques are arranged by leading number, then by
    suffix number (0 without a suffix); techniques with the same two numbers
    keep their order; a family stands before every family with a greater
    leading number; and a sub-technique whose suffix number is positive stands
    after its parent. *)
Theorem techniques_sorted_by_numbers :
  forall (objects : value) (identified : list Technique.t),
    Normalizer.identifiedTechniques objects = Ok identified ->
    Forall (fun t => Order.keyed t = true) identified ->
    exists sorted,
      Normalizer.extractTechniques objects = Ok sorted
      /\ Permutation identified sorted
      /\ StronglySorted Order.keyLe sorted
      /\ (forall k, List.filter (Order.sameKeyb k) sorted
                    = List.filter (Order.sameKeyb k) identified)
      /\ (forall i j a b,
            nth_error sorted i = Some a -> nth_error sorted j = Some b ->
            Order.mainKey a < Order.mainKey b -> (i < j)%nat)
      /\ (forall i j p s,
            nth_error sorted i = Some p -> nth_error sorted j = Some s ->
            Technique.isSubTechnique s = true ->
            Technique.parentId s = Technique.id p ->
            0 < Order.subKey s -> (i < j)%nat).
Proof.
  intros objects identified Hid Hkeyed.
  exists (stable_sort Order.keyGtb identified).
  assert (Hsorted : StronglySorted Order.keyLe (stable_sort Order.keyGtb identified)).
  { apply stable_sort_sorted.
    - apply keyLe_trans.
    - apply keyGtb_false.
    - intros x y H. now apply keyGtb_true in H. }
  assert (Hperm := stable_sort_perm Order.keyGtb identified).
  assert (Hmember : forall n t, nth_error (stable_sort Order.keyGtb identified) n = Some t ->
                                In t identified /\ Order.keyed t = true).
  { intros n t Hn. apply nth_error_In in Hn.
    apply (Permutation_in _ (Permutation_sym Hperm)) in Hn.
    split; auto. rewrite Forall_forall in Hkeyed. auto. }
  repeat split; auto.
  - unfold Normalizer.extractTechniques. rewrite Hid. simpl.
    apply sort_pure. intros x y Hx Hy. rewrite Forall_forall in Hkeyed.
    apply compareTechniques_keyed; auto.
  - intros k. apply stable_sort_stable. apply sameKeyb_class.
  - intros i j a b Hi Hj Hlt.
    apply (sorted_positions Order.keyLe _ i j a b keyLe_refl Hsorted Hi Hj).
    unfold Order.keyLe. lia.
  - intros i j p s Hi Hj Hsub Hparent Hpos.
    destruct (Hmember _ _ Hi) as [_ Hkp]. destruct (Hmember _ _ Hj) as [Hins Hks].
    destruct (keyed_id s Hks) as [sid Hsid].
    destruct (identified_source _ _ _ Hid Hins) as [obj Hobj].
    destruct (toTechnique_hierarchy _ _ _ Hobj Hsid) as [Hflag Hpar].
    rewrite Hsub in Hflag. rewrite <- Hflag in Hpar. rewrite Hpar in Hparent.
    destruct (parent_keys p s sid Hkp Hks Hsid (eq_sym Hparent)) as [Hm Hz].
    apply (sorted_positions Order.keyLe _ i j p s keyLe_refl Hsorted Hi Hj).
    unfold Order.keyLe. lia.
Qed.

Lemma techniques_sorted_by_numbers_witness :
  exists sorted,
    Normalizer.extractTechniques (field Sample.corpus "objects") = Ok sorted
    /\ StronglySorted Order.keyLe sorted
    /\ List.map Technique.id sorted = [VStr "T1059"; VStr "T1059.001"; VStr "T1060"].
Proof.
  destruct (techniques_sorted_by_numbers
              (field Sample.corpus "objects")
              [Sample.technique "T1060" "persistence" false VNull;
               Sample.technique "T1059.001" "execution" true (VStr "T1059");
               Sample.technique "T1059" "execution" false VNull]
              eq_refl)
    as [sorted [Hsorted [_ [Hs _]]]].
  - repeat constructor.
  - exists sorted. repeat split; auto.
    assert (E : Ok sorted = Normalizer.extractTechniques (field Sample.corpus "objects"))
      by (symmetry; exact Hsorted).
    vm_compute in E. now injection E as ->.
Defined.

(** C5 as stated fails: a sub-technique whose suffix is numerically zero ties
    with its parent and stays before it when the corpus lists it first. *)
Lemma zero_suffix_precedes_parent :
  exists sub parent,
    Normalizer.extractTechniques Sample.zeroSuffixObjects = Ok [sub; parent]
    /\ Technique.id sub = VStr "T1059.000" /\ Technique.id parent = VStr "T1059"
    /\ Technique.isSubTechnique sub = true
    /\ Technique.parentId sub = Technique.id parent
    /\ Order.keyed sub = true /\ Order.keyed parent = true.
Proof.
  exists (Sample.technique "T1059.000" "execution" true (VStr "T1059")),
         (Sample.technique "T1059" "execution" false VNull).
  vm_compute. repeat split.
Qed.

(* ===================================================================== *)
(** * The normalizer on well-typed partial documents *)
(* ===================================================================== *)

Lemma sort_total {A : Type} (comparefn : A -> A -> result number) (items : list A) :
  (forall x y, In x items -> In y items -> exists v, comparefn x y = Ok v) ->
  exists sorted, Js.sort comparefn items = Ok sorted /\ Permutation items sorted.
Proof.
  intros H.
  exists (stable_sort (fun x y => match comparefn x y with
                                  | Ok v => num_gtb v (Fin 0)
                                  | Throw _ => false
                                  end) items).
  split; [|apply stable_sort_perm].
  apply sort_pure. intros x y Hx Hy. destruct (H x y Hx Hy) as [v Hv].
  exists v. now rewrite Hv.
Qed.

Section TotalFacts.
Import Normalizer WellTyped.
Variable host : Host.t.

Lemma is_object_inv (v : value) : is_object v = true -> exists props, v = VObj props.
Proof. destruct v; try discriminate. eauto. Qed.

Lemma get_object (v : value) (k : string) :
  is_object v = true -> get v k = Ok (field v k).
Proof. intros H. apply is_object_inv in H as [props ->]. reflexivity. Qed.

Lemma has_type_object (kind : string) (obj : value) :
  is_object obj = true -> has_type kind obj = Ok (is_kind kind obj).
Proof. intros H. apply is_object_inv in H as [props ->]. reflexivity. Qed.

Lemma is_mitre_identity_object (obj : value) :
  is_object obj = true -> exists b, is_mitre_identity obj = Ok b.
Proof.
  intros H. apply is_object_inv in H as [props ->]. unfold is_mitre_identity. simpl.
  destruct (strict_eq _ _); eauto.
Qed.

Lemma is_live_technique_object (obj : value) :
  is_object obj = true -> is_live_technique obj = Ok (is_live obj).
Proof.
  intros H. apply is_object_inv in H as [props ->].
  unfold is_live_technique, is_live, is_kind, field. simpl.
  destruct (strict_eq _ _); simpl; auto.
  destruct (truthy (lookup "revoked" props)); simpl; auto.
Qed.

Lemma named_mitre_attack_object (key : string) (entry : value) :
  is_object entry = true ->
  named_mitre_attack key entry = Ok (strict_eq (field entry key) (VStr "mitre-attack")).
Proof. intros H. apply is_object_inv in H as [props ->]. reflexivity. Qed.

(** An optional list of objects, once defaulted, is the array of its
    elements. *)
Lemma optional_objects_array (v : value) :
  optional_objects v = true ->
  as_array (or_else v (VArr [])) = Ok (elements v)
  /\ forallb is_object (elements v) = true.
Proof.
  unfold optional_objects, or_else. destruct (truthy v) eqn:E; simpl.
  - destruct v; try discriminate. auto.
  - intros _. destruct v; try discriminate; auto.
Qed.

(** [toTechnique] completes on an object whose reference and phase lists
    are optional lists of objects and whose ATT&CK reference, if any, has a
    string identifier; the id it yields is a string. *)
Lemma toTechnique_total (obj : value) :
  is_object obj = true ->
  optional_objects (field obj "external_references") = true ->
  identified_ref (field obj "external_references") = true ->
  optional_objects (field obj "kill_chain_phases") = true ->
  exists t, toTechnique obj = Ok t /\ is_string (Technique.id t) = true.
Proof.
  intros Hobj Hrefs Hident Hphases.
  apply optional_objects_array in Hrefs as [Hrefs Hrefobjs].
  apply optional_objects_array in Hphases as [Hphases Hphaseobjs].
  rewrite forallb_forall in Hrefobjs, Hphaseobjs.
  unfold toTechnique.
  rewrite !(get_object obj) by assumption. cbn [Js.bind].
  rewrite Hrefs. cbn [Js.bind].
  rewrite (find_pure _ is_mitre_ref)
    by (intros x Hx; now apply named_mitre_attack_object, Hrefobjs).
  cbn [Js.bind]. unfold identified_ref in Hident.
  assert (Hid : exists sid,
             (if truthy (match List.find is_mitre_ref (elements (field obj "external_references")) with
                         | Some x => x | None => VUndef end)
              then get (match List.find is_mitre_ref (elements (field obj "external_references")) with
                        | Some x => x | None => VUndef end) "external_id"
              else Ok (VStr "")) = Ok (VStr sid)).
  { destruct (List.find is_mitre_ref _) as [ref|] eqn:E.
    - apply find_some in E as [Hin _]. apply Hrefobjs, is_object_inv in Hin as [props ->].
      unfold field in Hident. simpl in *.
      destruct (lookup "external_id" props); try discriminate. eauto.
    - simpl. eauto. }
  destruct Hid as [sid ->]. cbn [Js.bind id_includes_dot].
  assert (Hparent : exists parent,
             (if includes "." sid then id_split_0 (VStr sid) else Ok VNull) = Ok parent).
  { destruct (includes "." sid); simpl; eauto. }
  destruct Hparent as [parent ->]. cbn [Js.bind].
  rewrite Hphases. cbn [Js.bind].
  rewrite (filter_pure _ (fun phase => strict_eq (field phase "kill_chain_name") (VStr "mitre-attack")))
    by (intros x Hx; now apply named_mitre_attack_object, Hphaseobjs).
  cbn [Js.bind].
  rewrite (map_pure _ (fun phase => field phase "phase_name"))
    by (intros x Hx; apply filter_In in Hx as [Hx _]; now apply get_object, Hphaseobjs).
  cbn [Js.bind].
  assert (Hurl : exists url,
             (if truthy (match List.find is_mitre_ref (elements (field obj "external_references")) with
                         | Some x => x | None => VUndef end)
              then get (match List.find is_mitre_ref (elements (field obj "external_references")) with
                        | Some x => x | None => VUndef end) "url"
              else Ok (VStr "")) = Ok url).
  { destruct (List.find is_mitre_ref _) as [ref|] eqn:E.
    - apply find_some in E as [Hin _]. apply Hrefobjs, is_object_inv in Hin as [props ->].
      simpl. eauto.
    - simpl. eauto. }
  destruct Hurl as [url ->]. cbn [Js.bind].
  eexists. split; [reflexivity|]. reflexivity.
Qed.

Lemma compareTechniques_strings (a b : Technique.t) :
  is_string (Technique.id a) = true -> is_string (Technique.id b) = true ->
  exists v, compareTechniques a b = Ok v.
Proof.
  unfold compareTechniques.
  destruct (Technique.id a) as [| | | |sa| |]; try discriminate.
  destruct (Technique.id b) as [| | | |sb| |]; try discriminate.
  intros _ _. simpl. destruct (negb _); [eauto|].
  unfold subNumber. simpl.
  destruct (includes "." sa), (includes "." sb); simpl; eauto.
Qed.

Lemma object_ok_parts (obj : value) :
  object_ok obj = true ->
  is_object obj = true
  /\ (is_kind "x-mitre-tactic" obj = true -> is_string (field obj "name") = true)
  /\ (is_live obj = true ->
      optional_objects (field obj "external_references") = true
      /\ identified_ref (field obj "external_references") = true
      /\ optional_objects (field obj "kill_chain_phases") = true)
  /\ (is_kind "x-mitre-collection" obj = true ->
      converts (field obj "x_mitre_version") = true
      /\ converts (field obj "modified") = true)
  /\ (is_kind "identity" obj = true -> converts (field obj "created") = true).
Proof.
  unfold object_ok. intros H.
  apply andb_prop in H as [H Hidentity]. apply andb_prop in H as [H Hcollection].
  apply andb_prop in H as [H Hlive]. apply andb_prop in H as [Hobj Htactic].
  split; [exact Hobj|]. split; [|split; [|split]].
  - intros E. now rewrite E in Htactic.
  - intros E. rewrite E in Hlive.
    apply andb_prop in Hlive as [Hlive Hphases]. apply andb_prop in Hlive as [Hrefs Hident].
    auto.
  - intros E. rewrite E in Hcollection. now apply andb_prop in Hcollection.
  - intros E. now rewrite E in Hidentity.
Qed.

Lemma compareTactics_strings (a b : Tactic.t) :
  is_string (Tactic.name a) = true -> is_string (Tactic.name b) = true ->
  compareTactics host a b
  = Ok (num_of_Z (Host.localeCompare host (toString host (Tactic.name a))
                                     (toString host (Tactic.name b)))).
Proof.
  unfold compareTactics, ToString.
  destruct (Tactic.name a); try discriminate.
  destruct (Tactic.name b); try discriminate. reflexivity.
Qed.

Lemma extractTactics_total (items : list value) :
  forallb object_ok items = true ->
  exists sorted, extractTactics host (VArr items) = Ok sorted.
Proof.
  intros Hok. rewrite forallb_forall in Hok.
  assert (Hobj : forall x, In x items -> is_object x = true).
  { intros x Hx. now apply Hok, object_ok_parts in Hx. }
  unfold extractTactics. cbn [as_array Js.bind].
  rewrite (filter_pure _ (is_kind "x-mitre-tactic"))
    by (intros x Hx; now apply has_type_object, Hobj).
  cbn [Js.bind].
  destruct (map_total toTactic (fun tac => is_string (Tactic.name tac) = true)
              (List.filter (is_kind "x-mitre-tactic") items)) as [mapped [Hmapped Hnames]].
  { intros x Hx. apply filter_In in Hx as [Hx Hkind].
    destruct (object_ok_parts x (Hok x Hx)) as [Hisobj [Hname _]].
    apply is_object_inv in Hisobj as [props ->]. eexists. split; [reflexivity|].
    now apply Hname. }
  rewrite Hmapped. cbn [Js.bind]. rewrite Forall_forall in Hnames.
  destruct (sort_total (compareTactics host) mapped) as [sorted [Hsorted _]]; [|eauto].
  intros x y Hx Hy. eexists. apply compareTactics_strings; auto.
Qed.

Lemma extractTechniques_total (items : list value) :
  forallb object_ok items = true ->
  exists sorted, extractTechniques (VArr items) = Ok sorted.
Proof.
  intros Hok. rewrite forallb_forall in Hok.
  assert (Hobj : forall x, In x items -> is_object x = true).
  { intros x Hx. now apply Hok, object_ok_parts in Hx. }
  unfold extractTechniques, identifiedTechniques. cbn [as_array Js.bind].
  rewrite (filter_pure _ is_live)
    by (intros x Hx; now apply is_live_technique_object, Hobj).
  cbn [Js.bind].
  destruct (map_total toTechnique (fun t => is_string (Technique.id t) = true)
              (List.filter is_live items)) as [mapped [Hmapped Hids]].
  { intros x Hx. apply filter_In in Hx as [Hx Hlive].
    destruct (object_ok_parts x (Hok x Hx)) as [Hisobj [_ [Htech _]]].
    destruct (Htech Hlive) as [Hrefs [Hident Hphases]].
    now apply toTechnique_total. }
  rewrite Hmapped. cbn [Js.bind].
  rewrite (filter_pure _ (fun tech => truthy (Technique.id tech))) by reflexivity.
  cbn [Js.bind]. rewrite Forall_forall in Hids.
  destruct (sort_total compareTechniques
              (List.filter (fun tech => truthy (Technique.id tech)) mapped))
    as [sorted [Hsorted _]]; [|eauto].
  intros x y Hx Hy. apply filter_In in Hx as [Hx _]. apply filter_In in Hy as [Hy _].
  apply compareTechniques_strings; auto.
Qed.

Lemma document_ok_objects (this : Tracker) :
  document_ok (attackData this) = true ->
  converts (field (attackData this) "spec_version") = true
  /\ exists items, objects_of this = Some (VArr items) /\ forallb object_ok items = true
                   /\ (forall x, In x items -> is_object x = true).
Proof.
  unfold document_ok, objects_of. intros H. apply andb_prop in H as [Hspec H].
  split; [exact Hspec|].
  destruct (field (attackData this) "objects") as [| | | | |items|] eqn:E; try discriminate.
  exists items. assert (Ht : truthy (attackData this) = true).
  { destruct (attackData this); try discriminate; reflexivity. }
  rewrite Ht. simpl. repeat split; auto.
  intros x Hx. rewrite forallb_forall in H. now apply H, object_ok_parts in Hx.
Qed.

Lemma assignCollections_normal (objects : value) (this : Tracker) :
  (exists tacs, extractTactics host objects = Ok tacs) ->
  (exists ts, extractTechniques objects = Ok ts) ->
  snd (assignCollections host objects this) = Normal.
Proof.
  intros [tacs Htacs] [ts Hts]. unfold assignCollections, run. now rewrite Htacs, Hts.
Qed.

Lemma run_guarded (this : Tracker) (guard : bool) (computed : result string)
      (k : option string -> Tracker * completion) (P : Tracker * completion -> Prop) :
  (exists s, computed = Ok s) ->
  (forall written, P (k written)) ->
  P (run this (guarded guard computed) k).
Proof. intros [s ->] H. unfold guarded. destruct guard; simpl; apply H. Qed.

Lemma converts_text (v : value) :
  converts v = true -> exists s, ToString host v = Ok s.
Proof. intros H. unfold ToString. rewrite H. eauto. Qed.

Lemma converts_date (v : value) :
  converts v = true ->
  (exists s, longDate host v = Ok s) /\ (exists s, shortDate host v = Ok s).
Proof. intros H. unfold longDate, shortDate. rewrite H. eauto. Qed.

Lemma same_model_attackData (a b : Tracker) :
  same_model a b -> attackData a = attackData b.
Proof. intros H. apply H. Qed.

Lemma is_mitre_identity_pure (obj : value) :
  is_object obj = true ->
  is_mitre_identity obj
  = Ok (is_kind "identity" obj
        && strict_eq (field obj "name") (VStr "The MITRE Corporation")).
Proof.
  intros H. apply is_object_inv in H as [props ->].
  unfold is_mitre_identity, is_kind, field. simpl.
  destruct (strict_eq (lookup "type" props) (VStr "identity")); reflexivity.
Qed.

(** What [find] returns on a document of objects: [undefined], for which
    nothing is read, or an object of the kind looked for. *)
Lemma found_converts (p : value -> bool) (k kind : string) (items : list value) :
  (forall x, In x items -> p x = true -> is_kind kind x = true) ->
  (forall x, In x items -> is_kind kind x = true -> converts (field x k) = true) ->
  converts (field (match List.find p items with Some x => x | None => VUndef end) k) = true.
Proof.
  intros Hkind Hconv. destruct (List.find p items) as [x|] eqn:E; [|reflexivity].
  apply find_some in E as [Hin Hp]. auto.
Qed.

(** On a well-typed partial document both copies run to their end. *)
Lemma processAttackData_total (this : Tracker) :
  document_ok (attackData this) = true ->
  snd (processAttackData host this) = Normal
  /\ snd (processAttackData_identityOnly host this) = Normal.
Proof.
  intros Hdoc. destruct (document_ok_objects this Hdoc) as [Hspec [items [Hobjs [Hok Hobj]]]].
  pose proof (extractTactics_total items Hok) as Htacs.
  pose proof (extractTechniques_total items Hok) as Hts.
  rewrite forallb_forall in Hok.
  assert (Hcollection :
            Js.find (has_type "x-mitre-collection") items
            = Ok (match List.find (is_kind "x-mitre-collection") items with
                  | Some x => x | None => VUndef end))
    by (apply find_pure; intros; now apply has_type_object, Hobj).
  assert (Hidentity :
            Js.find is_mitre_identity items
            = Ok (match List.find
                          (fun obj => is_kind "identity" obj
                                      && strict_eq (field obj "name")
                                                   (VStr "The MITRE Corporation")) items with
                  | Some x => x | None => VUndef end))
    by (apply find_pure; intros; now apply is_mitre_identity_pure, Hobj).
  assert (Hversion :
            converts (field (match List.find (is_kind "x-mitre-collection") items with
                             | Some x => x | None => VUndef end) "x_mitre_version") = true).
  { apply (found_converts _ _ "x-mitre-collection"); auto.
    intros x Hx Hk. now apply (object_ok_parts x (Hok x Hx)). }
  assert (Hmodified :
            converts (field (match List.find (is_kind "x-mitre-collection") items with
                             | Some x => x | None => VUndef end) "modified") = true).
  { apply (found_converts _ _ "x-mitre-collection"); auto.
    intros x Hx Hk. now apply (object_ok_parts x (Hok x Hx)). }
  assert (Hcreated :
            converts (field (match List.find
                                     (fun obj => is_kind "identity" obj
                                                 && strict_eq (field obj "name")
                                                              (VStr "The MITRE Corporation"))
                                     items with
                             | Some x => x | None => VUndef end) "created") = true).
  { apply (found_converts _ _ "identity").
    - intros x _ Hp. now apply andb_prop in Hp.
    - intros x Hx Hk. now apply (object_ok_parts x (Hok x Hx)). }
  unfold processAttackData, processAttackData_identityOnly. rewrite Hobjs.
  cbn [as_array Js.bind]. rewrite Hcollection, Hidentity. cbn [run].
  split.
  - apply (run_guarded _ _ _ _ (fun out => snd out = Normal));
      [now apply converts_text | intros version].
    apply (run_guarded _ _ _ _ (fun out => snd out = Normal));
      [now apply converts_date | intros modified].
    match goal with |- context [if ?c then Ok VUndef else _] => destruct c end; cbn [run].
    + apply (run_guarded _ _ _ _ (fun out => snd out = Normal));
        [now apply converts_date | intros created].
      match goal with |- context [field (attackData ?st) "spec_version"] =>
        rewrite (same_model_attackData st this) by labelled end.
      apply (run_guarded _ _ _ _ (fun out => snd out = Normal));
        [now apply converts_text | intros spec].
      now apply assignCollections_normal.
    + apply (run_guarded _ _ _ _ (fun out => snd out = Normal));
        [now apply converts_date | intros created].
      match goal with |- context [field (attackData ?st) "spec_version"] =>
        rewrite (same_model_attackData st this) by labelled end.
      apply (run_guarded _ _ _ _ (fun out => snd out = Normal));
        [now apply converts_text | intros spec].
      now apply assignCollections_normal.
  - apply (run_guarded _ _ _ _ (fun out => snd out = Normal));
      [now apply converts_date | intros created].
    match goal with |- context [field (attackData ?st) "spec_version"] =>
      rewrite (same_model_attackData st this) by labelled end.
    apply (run_guarded _ _ _ _ (fun out => snd out = Normal));
      [now apply converts_text | intros spec].
    now apply assignCollections_normal.
Qed.

End TotalFacts.

(** C9, as the code has it: without a document, or without an object
    collection in it, both copies return at once and leave the model as it
    was, so after the constructor the tactics and techniques are empty and
    the label is the placeholder.  Both copies run to their end on a
    document whose collection is an array of objects in which every tactic
    has a string for a name, every kept technique has reference and phase
    lists that are absent (or falsy) or arrays of objects, with a string
    [external_id] in the first ATT&CK reference if there is one, and in which
    what goes into the label converts to a string: the document's
    [spec_version], the [x_mitre_version] and [modified] of a collection
    object, the [created] of an identity object.  Absent reference, phase
    and platform lists default to empty ones, and a tactic's absent short
    name or description is kept as undefined. *)
Theorem normalizer_defaults :
  forall (host : Host.t) (this : Tracker),
    (truthy (attackData this) = false
     \/ truthy (field (attackData this) "objects") = false ->
     Normalizer.processAttackData host this = (this, Normal)
     /\ Normalizer.processAttackData_identityOnly host this = (this, Normal))
    /\ (forall doc,
          truthy doc = false \/ truthy (field doc "objects") = false ->
          let after := fst (Normalizer.processAttackData host (set_attackData doc constructed)) in
          tactics after = [] /\ techniques after = [] /\ mitreVersion after = "Loading...")
    /\ (WellTyped.document_ok (attackData this) = true ->
        snd (Normalizer.processAttackData host this) = Normal
        /\ snd (Normalizer.processAttackData_identityOnly host this) = Normal)
    /\ (forall props,
          lookup "external_references" props = VUndef ->
          lookup "kill_chain_phases" props = VUndef ->
          lookup "x_mitre_platforms" props = VUndef ->
          Normalizer.toTechnique (VObj props)
          = Ok (Technique.mk (VStr "") (lookup "id" props) (lookup "name" props)
                  (lookup "description" props) false VNull [] (VArr []) (VStr "")))
    /\ (forall props,
          Normalizer.toTactic (VObj props)
          = Ok (Tactic.mk (lookup "id" props) (lookup "name" props)
                  (lookup "x_mitre_shortname" props) (lookup "description" props)))
    /\ (forall objects ts t,
          Normalizer.extractTechniques objects = Ok ts -> In t ts ->
          Technique.id t <> VStr "").
Proof.
  intros host this.
  assert (Hearly : forall this',
             truthy (attackData this') = false
             \/ truthy (field (attackData this') "objects") = false ->
             Normalizer.processAttackData host this' = (this', Normal)
             /\ Normalizer.processAttackData_identityOnly host this' = (this', Normal)).
  { intros this' Hnone.
    assert (E : Normalizer.objects_of this' = None).
    { unfold Normalizer.objects_of. destruct Hnone as [-> | ->]; [reflexivity|].
      now rewrite andb_false_r. }
    unfold Normalizer.processAttackData, Normalizer.processAttackData_identityOnly.
    now rewrite E. }
  split; [|split; [|split; [|split; [|split]]]].
  - apply Hearly.
  - intros doc Hnone after. subst after.
    destruct (Hearly (set_attackData doc constructed) Hnone) as [-> _]. repeat split.
  - apply processAttackData_total.
  - intros props Hrefs Hphases Hplatforms. unfold Normalizer.toTechnique.
    cbn [get Js.bind]. now rewrite Hrefs, Hphases, Hplatforms.
  - reflexivity.
  - intros objects ts t Hts Hin Hid.
    destruct (extractTechniques_source objects ts t Hts Hin)
      as [items [obj [_ [_ [_ [_ Htruthy]]]]]].
    rewrite Hid in Htruthy. discriminate.
Qed.

Lemma normalizer_defaults_witness :
  (Normalizer.processAttackData Sample.host constructed = (constructed, Normal)
   /\ tactics constructed = [] /\ techniques constructed = []
   /\ mitreVersion constructed = "Loading...")
  /\ snd (Normalizer.processAttackData Sample.host
            (set_attackData (VObj [("objects", VArr [VObj [("type", VStr "attack-pattern")]])])
                            constructed)) = Normal
  /\ snd (Normalizer.processAttackData Sample.host (set_attackData Sample.corpus constructed))
     = Normal.
Proof.
  split; [|split].
  - destruct (normalizer_defaults Sample.host constructed) as [H _].
    destruct H as [H _]; [left; reflexivity|]. rewrite H. repeat split.
  - destruct (normalizer_defaults Sample.host
                (set_attackData (VObj [("objects", VArr [VObj [("type", VStr "attack-pattern")]])])
                                constructed)) as [_ [_ [H _]]].
    apply H. reflexivity.
  - destruct (normalizer_defaults Sample.host (set_attackData Sample.corpus constructed))
      as [_ [_ [H _]]].
    apply H. reflexivity.
Defined.

(** C9 as stated fails: an object collection that is not an array has no
    [find]; with two tactics that have no name the comparator of the tactics
    reads [localeCompare] off [undefined]; with an ATT&CK reference that
    has no [external_id] the technique's id is [undefined] when [includes] is
    called on it; and a [spec_version] that is an object with a property
    [toString] cannot be put into the label.  Each is a TypeError, which
    [processAttackData] does not catch. *)
Lemma normalizer_throws :
  snd (Normalizer.processAttackData Sample.host
         (set_attackData Sample.malformedCollection constructed)) = Abrupt TypeError
  /\ snd (Normalizer.processAttackData_identityOnly Sample.host
            (set_attackData Sample.malformedCollection constructed)) = Abrupt TypeError
  /\ snd (Normalizer.processAttackData Sample.host
         (set_attackData Sample.namelessTactics constructed)) = Abrupt TypeError
  /\ snd (Normalizer.processAttackData_identityOnly Sample.host
            (set_attackData Sample.namelessTactics constructed)) = Abrupt TypeError
  /\ snd (Normalizer.processAttackData Sample.host
            (set_attackData Sample.unidentifiedReference constructed)) = Abrupt TypeError
  /\ snd (Normalizer.processAttackData_identityOnly Sample.host
            (set_attackData Sample.unidentifiedReference constructed)) = Abrupt TypeError
  /\ snd (Normalizer.processAttackData Sample.host
            (set_attackData Sample.unprintableVersion constructed)) = Abrupt TypeError
  /\ snd (Normalizer.processAttackData_identityOnly Sample.host
            (set_attackData Sample.unprintableVersion constructed)) = Abrupt TypeError.
Proof. vm_compute. repeat split. Qed.

(* ===================================================================== *)
(** * Properties of the detection store and of the import *)
(* ===================================================================== *)

(** C7, as the code has it: while nothing is being edited, a submission
    whose name is empty once the white space around it is trimmed raises the
    alert and leaves the state as it was; with any other name, one record is
    appended, with a generated id, the trimmed name and [createdAt] equal to
    [updatedAt]. *)
Theorem create_requires_name :
  forall (form : Store.Form) (clock : Store.Clock) (this : Tracker),
    Store.editing this = None ->
    (Store.detectionName form = "" \/ trim (Store.detectionName form) = "" ->
     Store.saveDetection form clock this = (this, Some "Please enter a detection name"))
    /\ (trim (Store.detectionName form) <> "" ->
        exists record,
          Store.saveDetection form clock this
          = (set_editingDetectionId None
               (set_detections (detections this ++ [record])%list this), None)
          /\ Detection.id record = Store.generateId clock
          /\ Detection.name record = trim (Store.detectionName form)
          /\ Detection.updatedAt record = Store.isoString clock
          /\ Detection.createdAt record = Some (Detection.updatedAt record)).
Proof.
  intros form clock this Hcreate. unfold Store.saveDetection. rewrite Hcreate. split.
  - intros [Hname | Hname]; [rewrite Hname; reflexivity|]. now rewrite Hname.
  - intros Hname. apply String.eqb_neq in Hname. rewrite Hname.
    eexists. split; [reflexivity|]. repeat split.
Qed.

Lemma create_requires_name_witness :
  Store.saveDetection
    (Store.mkForm "" "Detects script hosts" "Windows" "High" true "T1059" "" "")
    Sample.clock Sample.stored
  = (Sample.stored, Some "Please enter a detection name")
  /\ exists record,
       detections (fst (Store.saveDetection Sample.form Sample.clock Sample.stored))
       = (detections Sample.stored ++ [record])%list
       /\ Detection.id record = "det_1718000000000_k3j9x0q2a"
       /\ Detection.name record = "PowerShell launch"
       /\ Detection.createdAt record = Some (Detection.updatedAt record).
Proof.
  split.
  - apply (create_requires_name
             (Store.mkForm "" "Detects script hosts" "Windows" "High" true "T1059" "" "")
             Sample.clock Sample.stored eq_refl).
    left. reflexivity.
  - destruct (create_requires_name Sample.form Sample.clock Sample.stored eq_refl)
      as [_ H].
    destruct H as [record [Hsave [Hid [Hname [_ Hcreated]]]]]; [discriminate|].
    exists record. rewrite Hsave. repeat split; auto.
Defined.

(** C7 as stated fails: a name of three spaces, or of one no-break space,
    is not empty, and yet the submission raises the alert and appends
    nothing. *)
Lemma blank_name_is_rejected :
  Store.detectionName Sample.blankForm <> ""
  /\ Store.saveDetection Sample.blankForm Sample.clock Sample.stored
     = (Sample.stored, Some "Please enter a detection name")
  /\ Store.saveDetection
       (Store.mkForm (String (ascii_of_nat 160) "") "" "" "" true "T1059" "" "")
       Sample.clock Sample.stored
     = (Sample.stored, Some "Please enter a detection name").
Proof. split; [discriminate|]. split; reflexivity. Qed.

Section StoreFacts.
Import Store.

Lemma findIndex_found (id : string) (records : list Detection.t) (index : nat) :
  findIndex id records = Some index ->
  exists found, nth_error records index = Some found /\ Detection.id found = id.
Proof.
  revert index. induction records as [|d rest IH]; simpl; intros index H; [discriminate|].
  destruct (String.eqb_spec (Detection.id d) id) as [E | _].
  - injection H as <-. simpl. eauto.
  - destruct (findIndex id rest) as [i|]; [|discriminate]. injection H as <-.
    simpl. now apply IH.
Qed.

Lemma assignAt_length (index : nat) (d : Detection.t) (records : list Detection.t) :
  List.length (assignAt index d records) = List.length records.
Proof.
  revert index. induction records as [|x rest IH]; intros [|i]; simpl; auto.
Qed.

Lemma assignAt_same (index : nat) (d found : Detection.t) (records : list Detection.t) :
  nth_error records index = Some found ->
  nth_error (assignAt index d records) index = Some d.
Proof.
  revert index. induction records as [|x rest IH]; intros [|i]; simpl; try discriminate; auto.
Qed.

Lemma assignAt_other (index j : nat) (d : Detection.t) (records : list Detection.t) :
  j <> index -> nth_error (assignAt index d records) j = nth_error records j.
Proof.
  revert index j. induction records as [|x rest IH]; intros [|i] [|j] H; simpl; auto;
    try contradiction.
Qed.

(** What an edit of a stored detection does: the record at the first index
    with the id under edit is replaced by one built from the form, with that
    id and a fresh [updatedAt]; the length and the other records stay; the
    new record has no [createdAt]. *)
Lemma edit_replaces_in_place (form : Form) (clock : Clock) (this : Tracker)
      (id : string) (index : nat) :
  editing this = Some id ->
  trim (detectionName form) <> "" ->
  findIndex id (detections this) = Some index ->
  exists record,
    saveDetection form clock this
    = (set_editingDetectionId None
         (set_detections (assignAt index record (detections this)) this), None)
    /\ Detection.id record = id
    /\ Detection.updatedAt record = isoString clock
    /\ Detection.createdAt record = None
    /\ List.length (assignAt index record (detections this)) = List.length (detections this)
    /\ nth_error (assignAt index record (detections this)) index = Some record
    /\ (forall j, j <> index ->
          nth_error (assignAt index record (detections this)) j
          = nth_error (detections this) j)
    /\ (exists found, nth_error (detections this) index = Some found
                      /\ Detection.id found = id).
Proof.
  intros Hedit Hname Hindex. unfold saveDetection. rewrite Hedit, Hindex.
  apply String.eqb_neq in Hname. rewrite Hname.
  destruct (findIndex_found _ _ _ Hindex) as [found [Hfound Hid]].
  eexists. split; [reflexivity|].
  split; [reflexivity|]. split; [reflexivity|]. split; [reflexivity|].
  split; [apply assignAt_length|].
  split; [eapply assignAt_same; eauto|].
  split; [intros j Hj; now apply assignAt_other | eauto].
Qed.

End StoreFacts.

(** C8: an edit keeps the id, the length and the other records and
    refreshes [updatedAt], but the record it stores is the new object
    literal, in which [createdAt] is never set: the stored [createdAt] is
    lost. *)
Theorem edit_drops_createdAt :
  List.map Detection.createdAt (detections Sample.editing)
  = [Some "2024-01-01T00:00:00.000Z"; Some "2024-01-01T00:00:00.000Z"]
  /\ List.map Detection.id
       (detections (fst (Store.saveDetection Sample.form Sample.clock Sample.editing)))
     = ["det_1"; "det_2"]
  /\ List.map Detection.updatedAt
       (detections (fst (Store.saveDetection Sample.form Sample.clock Sample.editing)))
     = ["2024-06-10T06:13:20.000Z"; "2024-01-01T00:00:00.000Z"]
  /\ List.map Detection.createdAt
       (detections (fst (Store.saveDetection Sample.form Sample.clock Sample.editing)))
     = [None; Some "2024-01-01T00:00:00.000Z"].
Proof. vm_compute. repeat split. Qed.

(** What the import handler does, case by case: a text that does not
    parse, or that parses to [null], leaves the collection as it was and
    raises the error alert; otherwise the collection becomes the document's
    [detections] value whenever that value is truthy, and stays as it was
    when it is absent or falsy; the alert then is the success one if rendering
    completes and the error one if it throws. *)
Lemma onload_outcome :
  forall (renderCurrentView : value -> result unit) (stored : value),
    (forall e, Importer.onload renderCurrentView (Throw e) stored
               = (stored, Importer.importError))
    /\ (forall data e, get data "detections" = Throw e ->
          Importer.onload renderCurrentView (Ok data) stored
          = (stored, Importer.importError))
    /\ (forall data found, get data "detections" = Ok found ->
          let kept := if truthy found then found else stored in
          Importer.onload renderCurrentView (Ok data) stored
          = (kept, if completes (renderCurrentView kept)
                   then Importer.imported else Importer.importError)).
Proof.
  intros render stored. repeat split.
  - intros data e H. unfold Importer.onload. now rewrite H.
  - intros data found H kept. unfold Importer.onload. rewrite H. fold kept.
    now destruct (render kept).
Qed.

(** C6: the import does not check that [detections] is an array.  A
    document in which it is a non-empty string, or an object, replaces the
    stored collection by that value, since the assignment comes before the
    rendering that throws, and the error alert is raised over a store that
    has changed; a document in which it is [null], or absent, is reported as
    imported. *)
Theorem import_stores_non_array :
  forall (stored : value) (records : list Detection.t) (c : ascii) (s : string)
         (props : list (string * value)),
    Importer.onload Importer.renderDashboard
      (Ok (VObj [("detections", VStr (String c s))])) stored
    = (VStr (String c s), Importer.importError)
    /\ Importer.onload Importer.renderDashboard
         (Ok (VObj [("detections", VObj props)])) stored
       = (VObj props, Importer.importError)
    /\ VStr (String c s) <> Importer.collection records
    /\ VObj props <> Importer.collection records
    /\ Importer.onload Importer.renderDashboard
         (Ok (VObj [("detections", VNull)])) (Importer.collection records)
       = (Importer.collection records, Importer.imported)
    /\ Importer.onload Importer.renderDashboard
         (Ok (VObj [])) (Importer.collection records)
       = (Importer.collection records, Importer.imported).
Proof.
  intros stored records c s props.
  assert (Hrender : Importer.renderDashboard (Importer.collection records) = Ok tt).
  { unfold Importer.renderDashboard, Importer.collection. cbn [as_array Js.bind].
    rewrite (filter_pure _ (fun d => truthy (field d "isActive"))); [reflexivity|].
    intros x Hx. apply in_map_iff in Hx as [d [<- _]]. reflexivity. }
  split; [reflexivity|]. split; [reflexivity|].
  split; [discriminate|]. split; [discriminate|].
  unfold Importer.onload. cbn [get lookup String.eqb Ascii.eqb Bool.eqb truthy].
  rewrite Hrender. split; reflexivity.
Qed.

(* ===================================================================== *)
(** * Toggling, deleting and saving detections *)
(* ===================================================================== *)

Section ActionFacts.
Import Store Actions.


(** [findIndex] only looks at the ids. *)
Lemma findIndex_ids (id : string) (records records' : list Detection.t) :
  List.map Detection.id records = List.map Detection.id records' ->
  findIndex id records = findIndex id records'.
Proof.
  revert records'. induction records as [|d rest IH]; intros [|d' rest'] H;
    try discriminate; auto.
  simpl in *. injection H as Hd Hrest. rewrite Hd, (IH rest' Hrest). reflexivity.
Qed.

Lemma assignAt_ids (index : nat) (d found : Detection.t) (records : list Detection.t) :
  nth_error records index = Some found -> Detection.id d = Detection.id found ->
  List.map Detection.id (assignAt index d records) = List.map Detection.id records.
Proof.
  revert index. induction records as [|x rest IH]; intros [|i] Hnth Hid; simpl in *;
    try discriminate.
  - injection Hnth as ->. now rewrite Hid.
  - f_equal. now apply IH.
Qed.

Lemma assignAt_assignAt (index : nat) (d d' : Detection.t) (records : list Detection.t) :
  assignAt index d (assignAt index d' records) = assignAt index d records.
Proof.
  revert index. induction records as [|x rest IH]; intros [|i]; simpl; auto.
  now rewrite IH.
Qed.

Lemma assignAt_self (index : nat) (d : Detection.t) (records : list Detection.t) :
  nth_error records index = Some d -> assignAt index d records = records.
Proof.
  revert index. induction records as [|x rest IH]; intros [|i] H; simpl in *;
    try discriminate; auto.
  - now injection H as ->.
  - now rewrite IH.
Qed.

(** Replacing one record changes the number of records that pass a test by
    what the two records contribute. *)
Lemma assignAt_filter_length (p : Detection.t -> bool) (index : nat)
      (d found : Detection.t) (records : list Detection.t) :
  nth_error records index = Some found ->
  (List.length (List.filter p (assignAt index d records)) + (if p found then 1 else 0)
   = List.length (List.filter p records) + (if p d then 1 else 0))%nat.
Proof.
  revert index. induction records as [|x rest IH]; intros [|i] H; simpl in *;
    try discriminate.
  - injection H as ->. destruct (p found), (p d); simpl; lia.
  - specialize (IH i H). destruct (p x); simpl; lia.
Qed.

Lemma withIsActive_twice (d : Detection.t) :
  withIsActive (withIsActive d (negb (Detection.isActive d))) (Detection.isActive d) = d.
Proof. now destruct d. Qed.

Lemma set_detections_same (this : Tracker) : set_detections (detections this) this = this.
Proof. now destruct this. Qed.

(** What [toggleDetectionActive] does to the collection, by cases on the
    first index of the id. *)
Lemma toggle_cases (id : string) (this : Tracker) :
  (findIndex id (detections this) = None /\ toggleDetectionActive id this = this)
  \/ exists index found,
       findIndex id (detections this) = Some index
       /\ nth_error (detections this) index = Some found
       /\ Detection.id found = id
       /\ toggleDetectionActive id this
          = set_detections
              (assignAt index (withIsActive found (negb (Detection.isActive found)))
                        (detections this)) this.
Proof.
  unfold toggleDetectionActive.
  destruct (findIndex id (detections this)) as [index|] eqn:E; [|now left].
  destruct (findIndex_found _ _ _ E) as [found [Hnth Hid]].
  right. exists index, found. now rewrite Hnth.
Qed.

End ActionFacts.

(** Toggling the same id twice gives the state back. *)
Theorem toggle_twice :
  forall (detectionId : string) (this : Tracker),
    Actions.toggleDetectionActive detectionId
      (Actions.toggleDetectionActive detectionId this) = this.
Proof.
  intros id this.
  destruct (toggle_cases id this) as [[Hnone Hsame] | [index [found [Hidx [Hnth [Hid Htog]]]]]].
  - now rewrite Hsame, Hsame.
  - rewrite Htog. unfold Actions.toggleDetectionActive at 1.
    cbn [detections set_detections].
    set (flipped := Actions.withIsActive found (negb (Detection.isActive found))).
    assert (Hids : List.map Detection.id (Store.assignAt index flipped (detections this))
                   = List.map Detection.id (detections this))
      by (apply (assignAt_ids _ _ found); auto).
    rewrite (findIndex_ids id _ _ Hids), Hidx.
    rewrite (assignAt_same _ _ _ _ Hnth).
    rewrite assignAt_assignAt.
    replace (Actions.withIsActive flipped (negb (Detection.isActive flipped))) with found.
    + rewrite (assignAt_self _ _ _ Hnth). destruct this. reflexivity.
    + subst flipped. destruct found. simpl. now rewrite negb_involutive.
Qed.

(** Toggling changes nothing but the [isActive] of the first record with the
    id: every other field of every record stays, every other record stays,
    and with an id that no record has the state is the same. *)
Theorem toggle_changes_one_flag :
  forall (detectionId : string) (this : Tracker),
    let after := detections (Actions.toggleDetectionActive detectionId this) in
    List.map (fun d => Actions.withIsActive d true) after
    = List.map (fun d => Actions.withIsActive d true) (detections this)
    /\ match Store.findIndex detectionId (detections this) with
       | None => Actions.toggleDetectionActive detectionId this = this
       | Some index =>
           (forall j, j <> index -> nth_error after j = nth_error (detections this) j)
           /\ option_map Detection.isActive (nth_error after index)
              = option_map (fun d => negb (Detection.isActive d))
                           (nth_error (detections this) index)
       end.
Proof.
  intros id this after. subst after.
  destruct (toggle_cases id this) as [[Hnone Hsame] | [index [found [Hidx [Hnth [Hid Htog]]]]]].
  - rewrite Hnone, Hsame. auto.
  - rewrite Hidx, Htog. cbn [detections set_detections]. repeat split.
    + clear Hidx Htog. revert index Hnth.
      induction (detections this) as [|x rest IH]; intros [|i] Hnth; simpl in *;
        try discriminate.
      * injection Hnth as ->. reflexivity.
      * f_equal. now apply IH.
    + intros j Hj. now apply assignAt_other.
    + rewrite (assignAt_same _ _ _ _ Hnth), Hnth. reflexivity.
Qed.

(** The effect of a toggle on the number of detection rules of a technique:
    the toggled record leaves the count when it was active and refers to the
    technique, and joins it when it was inactive and refers to it.  In
    particular, switching off the only rule of a technique makes the
    technique not detected. *)
Theorem toggle_moves_the_count :
  forall (detectionId : string) (this : Tracker) (index : nat) (found : Detection.t)
         (techniqueId : value),
    Store.findIndex detectionId (detections this) = Some index ->
    nth_error (detections this) index = Some found ->
    (Coverage.getDetectionRulesForTechnique
       (Actions.toggleDetectionActive detectionId this) techniqueId
     + (if Detection.isActive found && Coverage.references techniqueId found then 1 else 0)
     = Coverage.getDetectionRulesForTechnique this techniqueId
       + (if negb (Detection.isActive found) && Coverage.references techniqueId found
          then 1 else 0))%nat
    /\ (forall t, Technique.id t = techniqueId ->
          Detection.isActive found = true ->
          Coverage.references techniqueId found = true ->
          Coverage.getDetectionRulesForTechnique this techniqueId = 1%nat ->
          Coverage.getTechniqueStatus this t = Coverage.detected
          /\ Coverage.getTechniqueStatus
               (Actions.toggleDetectionActive detectionId this) t
             = Coverage.not_detected).
Proof.
  intros id this index found tid Hidx Hnth.
  assert (Hcount :
    (Coverage.getDetectionRulesForTechnique
       (Actions.toggleDetectionActive id this) tid
     + (if Detection.isActive found && Coverage.references tid found then 1 else 0)
     = Coverage.getDetectionRulesForTechnique this tid
       + (if negb (Detection.isActive found) && Coverage.references tid found
          then 1 else 0))%nat).
  { unfold Actions.toggleDetectionActive, Coverage.getDetectionRulesForTechnique.
    rewrite Hidx, Hnth. cbn [detections set_detections].
    pose proof (assignAt_filter_length (Coverage.matches tid) index
                  (Actions.withIsActive found (negb (Detection.isActive found)))
                  found (detections this) Hnth) as H.
    rewrite !matches_references in H.
    replace (Coverage.references tid
               (Actions.withIsActive found (negb (Detection.isActive found))))
      with (Coverage.references tid found) in H by now destruct found.
    replace (Detection.isActive
               (Actions.withIsActive found (negb (Detection.isActive found))))
      with (negb (Detection.isActive found)) in H by now destruct found.
    exact H. }
  split; [exact Hcount|].
  intros t Ht Hactive Href Hone. unfold Coverage.getTechniqueStatus.
  rewrite Ht, Hone. rewrite Hactive, Href, Hone in Hcount. simpl in Hcount.
  replace (Coverage.getDetectionRulesForTechnique
             (Actions.toggleDetectionActive id this) tid) with 0%nat by lia.
  split; reflexivity.
Qed.

Lemma toggle_moves_the_count_witness :
  Coverage.getTechniqueStatus Sample.stored (Sample.technique "T1059" "execution" false VNull)
  = Coverage.detected
  /\ Coverage.getTechniqueStatus (Actions.toggleDetectionActive "det_1" Sample.stored)
       (Sample.technique "T1059" "execution" false VNull)
     = Coverage.not_detected.
Proof.
  destruct (toggle_moves_the_count "det_1" Sample.stored 0
              (Sample.detection "det_1" true "T1059" "" "") (VStr "T1059")
              eq_refl eq_refl) as [_ H].
  apply (H (Sample.technique "T1059" "execution" false VNull)); reflexivity.
Defined.


(** Trimming and upper-casing are idempotent and commute. *)
Section StringFacts.

Lemma skip_white_space_head (s : string) :
  skip_white_space s = ""
  \/ exists c rest, skip_white_space s = String c rest /\ is_white_space c = false.
Proof.
  induction s as [|c rest IH]; [now left|].
  cbn [skip_white_space]. destruct (is_white_space c) eqn:E; [exact IH|].
  right. eauto.
Qed.

Lemma skip_white_space_fixed (c : ascii) (rest : string) :
  is_white_space c = false -> skip_white_space (String c rest) = String c rest.
Proof. intros H. cbn [skip_white_space]. now rewrite H. Qed.

Lemma trim_end_head (c : ascii) (rest : string) :
  is_white_space c = false -> exists kept, trim_end (String c rest) = String c kept.
Proof.
  intros H. cbn [trim_end]. destruct (trim_end rest); [rewrite H|]; eauto.
Qed.

Lemma trim_end_idempotent (s : string) : trim_end (trim_end s) = trim_end s.
Proof.
  induction s as [|c rest IH]; [reflexivity|].
  cbn [trim_end]. destruct (trim_end rest) as [|k kept] eqn:E.
  - destruct (is_white_space c) eqn:Ec; [reflexivity|].
    cbn [trim_end]. now rewrite Ec.
  - change (trim_end (String c (String k kept)))
      with (match trim_end (String k kept) with
            | EmptyString => if is_white_space c then EmptyString else String c EmptyString
            | String k' kept' => String c (String k' kept')
            end).
    now rewrite IH.
Qed.

Lemma trim_idempotent (s : string) : trim (trim s) = trim s.
Proof.
  unfold trim. destruct (skip_white_space_head s) as [-> | [c [rest [-> Hc]]]];
    [reflexivity|].
  destruct (trim_end_head c rest Hc) as [kept Hkept].
  rewrite Hkept, (skip_white_space_fixed c kept Hc), <- Hkept.
  apply trim_end_idempotent.
Qed.

Lemma upper_char_idempotent (c : ascii) : upper_char (upper_char c) = upper_char c.
Proof. destruct c as [[] [] [] [] [] [] [] []]; reflexivity. Qed.

Lemma upper_char_white_space (c : ascii) :
  is_white_space (upper_char c) = is_white_space c.
Proof. destruct c as [[] [] [] [] [] [] [] []]; reflexivity. Qed.

Lemma toUpperCase_idempotent (s : string) : toUpperCase (toUpperCase s) = toUpperCase s.
Proof.
  induction s as [|c rest IH]; [reflexivity|].
  cbn [toUpperCase]. now rewrite upper_char_idempotent, IH.
Qed.

Lemma toUpperCase_skip (s : string) :
  skip_white_space (toUpperCase s) = toUpperCase (skip_white_space s).
Proof.
  induction s as [|c rest IH]; [reflexivity|].
  cbn [toUpperCase skip_white_space]. rewrite upper_char_white_space.
  now destruct (is_white_space c).
Qed.

Lemma toUpperCase_trim_end (s : string) :
  trim_end (toUpperCase s) = toUpperCase (trim_end s).
Proof.
  induction s as [|c rest IH]; [reflexivity|].
  cbn [toUpperCase trim_end]. rewrite IH, upper_char_white_space.
  destruct (trim_end rest); cbn [toUpperCase]; [now destruct (is_white_space c) | reflexivity].
Qed.

Lemma toUpperCase_trim (s : string) : trim (toUpperCase s) = toUpperCase (trim s).
Proof. unfold trim. now rewrite toUpperCase_skip, toUpperCase_trim_end. Qed.

(** A reference as [saveDetection] stores it stays as it is when it is
    trimmed and upper-cased again. *)
Lemma reference_normalised (s : string) :
  toUpperCase (trim (toUpperCase (trim s))) = toUpperCase (trim s).
Proof. now rewrite toUpperCase_trim, trim_idempotent, toUpperCase_idempotent. Qed.

End StringFacts.

Section SaveFacts.
Import Store Actions.

Lemma built_normalised (id : string) (form : Form) (updatedAt : string)
      (createdAt : option string) :
  normalised
    (Detection.mk id (trim (detectionName form)) (trim (detectionDescription form))
       (detectionPlatform form) (detectionSeverity form) (detectionActive form)
       (toUpperCase (trim (technique1 form))) (toUpperCase (trim (technique2 form)))
       (toUpperCase (trim (technique3 form))) updatedAt createdAt).
Proof.
  unfold normalised. cbn. repeat split; try apply trim_idempotent.
  repeat constructor; apply reference_normalised.
Qed.

(** The four ways [saveDetection] ends. *)
Lemma saveDetection_cases (form : Form) (clock : Clock) (this : Tracker) :
  (trim (detectionName form) = ""
   /\ saveDetection form clock this = (this, Some "Please enter a detection name"))
  \/ (trim (detectionName form) <> "" /\
      ((exists id, editing this = Some id /\ findIndex id (detections this) = None
                   /\ saveDetection form clock this = (set_editingDetectionId None this, None))
       \/ (exists id index record found,
             editing this = Some id /\ findIndex id (detections this) = Some index
             /\ nth_error (detections this) index = Some found
             /\ Detection.id found = id /\ Detection.id record = id
             /\ normalised record
             /\ Detection.isActive record = detectionActive form
             /\ Coverage.techniqueRefs record
                = [toUpperCase (trim (technique1 form)); toUpperCase (trim (technique2 form));
                   toUpperCase (trim (technique3 form))]
             /\ saveDetection form clock this
                = (set_editingDetectionId None
                     (set_detections (assignAt index record (detections this)) this), None))
       \/ (exists record,
             editing this = None /\ Detection.id record = generateId clock
             /\ normalised record
             /\ Detection.isActive record = detectionActive form
             /\ Coverage.techniqueRefs record
                = [toUpperCase (trim (technique1 form)); toUpperCase (trim (technique2 form));
                   toUpperCase (trim (technique3 form))]
             /\ saveDetection form clock this
                = (set_editingDetectionId None
                     (set_detections (detections this ++ [record])%list this), None)))).
Proof.
  unfold saveDetection.
  destruct (String.eqb_spec (trim (detectionName form)) "") as [Hname | Hname];
    [left; auto | right; split; auto].
  destruct (editing this) as [id|] eqn:Hedit.
  - destruct (findIndex id (detections this)) as [index|] eqn:Hidx.
    + right. left. destruct (findIndex_found _ _ _ Hidx) as [found [Hnth Hid]].
      exists id, index,
        (Detection.mk id (trim (detectionName form)) (trim (detectionDescription form))
           (detectionPlatform form) (detectionSeverity form) (detectionActive form)
           (toUpperCase (trim (technique1 form))) (toUpperCase (trim (technique2 form)))
           (toUpperCase (trim (technique3 form))) (isoString clock) None), found.
      repeat (split; [first [reflexivity | assumption | apply built_normalised]|]).
      reflexivity.
    + left. exists id. auto.
  - right. right.
    exists (Detection.mk (generateId clock) (trim (detectionName form))
              (trim (detectionDescription form))
              (detectionPlatform form) (detectionSeverity form) (detectionActive form)
              (toUpperCase (trim (technique1 form))) (toUpperCase (trim (technique2 form)))
              (toUpperCase (trim (technique3 form))) (isoString clock)
              (Some (isoString clock))).
    repeat (split; [first [reflexivity | apply built_normalised]|]).
    reflexivity.
Qed.

End SaveFacts.

Section InvariantFacts.
Import Store Actions.

Lemma NoDup_ids_filter (p : Detection.t -> bool) (records : list Detection.t) :
  NoDup (List.map Detection.id records) ->
  NoDup (List.map Detection.id (List.filter p records)).
Proof.
  induction records as [|x rest IH]; simpl; auto.
  intros H. inversion H as [|? ? Hx Hrest]; subst.
  destruct (p x); simpl; auto. constructor; auto.
  intros Hin. apply Hx. apply in_map_iff in Hin as [d [Hd Hin]].
  apply filter_In in Hin as [Hin _]. apply in_map_iff. eauto.
Qed.

Lemma status_by_count (this : Tracker) (t : Technique.t) :
  Coverage.getTechniqueStatus this t = Coverage.detected
  <-> (0 < Coverage.getDetectionRulesForTechnique this (Technique.id t))%nat.
Proof.
  unfold Coverage.getTechniqueStatus.
  destruct (Nat.ltb_spec 0 (Coverage.getDetectionRulesForTechnique this (Technique.id t)));
    split; intros; auto; try discriminate; lia.
Qed.

Lemma count_appended (this : Tracker) (record : Detection.t) (techniqueId : value) :
  Coverage.getDetectionRulesForTechnique
    (set_detections (detections this ++ [record])%list this) techniqueId
  = (Coverage.getDetectionRulesForTechnique this techniqueId
     + (if Coverage.matches techniqueId record then 1 else 0))%nat.
Proof.
  unfold Coverage.getDetectionRulesForTechnique. cbn [detections set_detections].
  rewrite filter_app, length_app. simpl. now destruct (Coverage.matches techniqueId record).
Qed.

Lemma findIndex_appended (id : string) (records : list Detection.t) (record : Detection.t) :
  ~ In id (List.map Detection.id records) -> Detection.id record = id ->
  findIndex id (records ++ [record])%list = Some (List.length records).
Proof.
  intros Hfresh Hid. induction records as [|x rest IH]; simpl in *.
  - rewrite Hid, String.eqb_refl. reflexivity.
  - destruct (String.eqb_spec (Detection.id x) id) as [E | E]; [exfalso; auto|].
    rewrite IH by tauto. reflexivity.
Qed.

Lemma assignAt_appended (records : list Detection.t) (old new : Detection.t) :
  assignAt (List.length records) new (records ++ [old])%list = (records ++ [new])%list.
Proof. induction records as [|x rest IH]; simpl; auto. now rewrite IH. Qed.

Lemma save_create (form : Form) (clock : Clock) (this : Tracker) :
  editing this = None -> trim (detectionName form) <> "" ->
  saveDetection form clock this
  = (set_editingDetectionId None
       (set_detections
          (detections this
           ++ [built (generateId clock) form (isoString clock) (Some (isoString clock))])%list
          this), None).
Proof.
  intros Hcreate Hname. unfold saveDetection. rewrite Hcreate.
  apply String.eqb_neq in Hname. now rewrite Hname.
Qed.

Lemma save_edit (form : Form) (clock : Clock) (this : Tracker) (id : string) (index : nat) :
  editing this = Some id -> trim (detectionName form) <> "" ->
  findIndex id (detections this) = Some index ->
  saveDetection form clock this
  = (set_editingDetectionId None
       (set_detections
          (assignAt index (built id form (isoString clock) None) (detections this)) this),
     None).
Proof.
  intros Hedit Hname Hidx. unfold saveDetection. rewrite Hedit, Hidx.
  apply String.eqb_neq in Hname. now rewrite Hname.
Qed.

End InvariantFacts.

(** The ids of the collection stay distinct under every operation, as long
    as a create does not generate an id that is already taken. *)
Theorem ids_stay_distinct :
  forall (form : Store.Form) (clock : Store.Clock) (detectionId : string)
         (confirmed : bool) (this : Tracker),
    NoDup (List.map Detection.id (detections this)) ->
    (Store.editing this = None ->
     ~ In (Store.generateId clock) (List.map Detection.id (detections this))) ->
    NoDup (List.map Detection.id
             (detections (fst (Store.saveDetection form clock this))))
    /\ NoDup (List.map Detection.id
                (detections (Actions.toggleDetectionActive detectionId this)))
    /\ NoDup (List.map Detection.id
                (detections (Actions.deleteDetection detectionId confirmed this))).
Proof.
  intros form clock id confirmed this Hnodup Hfresh. split; [|split].
  - destruct (saveDetection_cases form clock this)
      as [[_ ->] | [_ [[eid [_ [_ ->]]]
                      | [[eid [index [record [found [_ [_ [Hnth [Hf [Hr [_ [_ [_ ->]]]]]]]]]]]]
                        | [record [Hcreate [Hid [_ [_ [_ ->]]]]]]]]]];
      cbn [fst detections set_detections set_editingDetectionId].
    + exact Hnodup.
    + exact Hnodup.
    + rewrite (assignAt_ids _ _ found); auto. congruence.
    + rewrite map_app. cbn [List.map]. rewrite Hid.
      apply NoDup_app;
        [exact Hnodup | repeat constructor; auto
         | intros x Hx [<- | []]; now apply Hfresh].
  - destruct (toggle_cases id this) as [[_ Hsame] | [index [found [_ [Hnth [_ Htog]]]]]].
    + now rewrite Hsame.
    + rewrite Htog. cbn [detections set_detections].
      rewrite (assignAt_ids _ _ found); auto.
  - unfold Actions.deleteDetection. destruct confirmed; auto.
    cbn [detections set_detections]. now apply NoDup_ids_filter.
Qed.

Lemma ids_stay_distinct_witness :
  NoDup (List.map Detection.id
           (detections (fst (Store.saveDetection Sample.form Sample.clock Sample.stored))))
  /\ NoDup (List.map Detection.id
              (detections (fst (Store.saveDetection Sample.form Sample.clock Sample.editing)))).
Proof.
  assert (Hnodup : NoDup (List.map Detection.id (detections Sample.stored))).
  { repeat constructor; simpl; intuition discriminate. }
  split.
  - apply (ids_stay_distinct Sample.form Sample.clock "det_1" true Sample.stored Hnodup).
    intros _. simpl. intuition discriminate.
  - apply (ids_stay_distinct Sample.form Sample.clock "det_1" true Sample.editing Hnodup).
    intros H. discriminate H.
Defined.

(** Whatever is stored after [saveDetection] was stored before or has been
    built from the form: then its name is not empty, its name and
    description are trimmed and its references trimmed and in upper case.
    The collection keeps its length or grows by one record.  The references
    typed into the form are ASCII text. *)
Theorem saved_records_are_normalised :
  forall (form : Store.Form) (clock : Store.Clock) (this : Tracker) (d : Detection.t),
    is_ascii (Store.technique1 form) = true ->
    is_ascii (Store.technique2 form) = true ->
    is_ascii (Store.technique3 form) = true ->
    In d (detections (fst (Store.saveDetection form clock this))) ->
    (In d (detections this)
     \/ (Actions.normalised d /\ Detection.name d <> ""
         /\ Detection.name d = trim (Store.detectionName form)))
    /\ (List.length (detections this)
        <= List.length (detections (fst (Store.saveDetection form clock this)))
        <= List.length (detections this) + 1)%nat.
Proof.
  intros form clock this d _ _ _. unfold Store.saveDetection.
  destruct (String.eqb_spec (trim (Store.detectionName form)) "") as [Hname | Hname];
    [cbn; auto with arith|].
  destruct (Store.editing this) as [id|].
  - destruct (Store.findIndex id (detections this)) as [index|] eqn:Hidx;
      cbn [fst detections set_detections set_editingDetectionId]; [|auto with arith].
    rewrite assignAt_length. intros Hin. split; [|lia].
    apply In_nth_error in Hin as [j Hj].
    destruct (Nat.eq_dec j index) as [-> | Hne].
    + destruct (findIndex_found _ _ _ Hidx) as [found [Hnth _]].
      rewrite (assignAt_same _ _ _ _ Hnth) in Hj. injection Hj as <-.
      right. split; [apply built_normalised | auto].
    + rewrite assignAt_other in Hj by assumption. left. eapply nth_error_In; eauto.
  - cbn [fst detections set_detections set_editingDetectionId].
    rewrite length_app. cbn [List.length]. intros Hin. split; [|lia].
    apply in_app_or in Hin as [Hin | [<- | []]]; [now left|].
    right. split; [apply built_normalised | auto].
Qed.

Lemma saved_records_are_normalised_witness :
  In (Actions.built (Store.generateId Sample.clock) Sample.form
        (Store.isoString Sample.clock) (Some (Store.isoString Sample.clock)))
     (detections (fst (Store.saveDetection Sample.form Sample.clock Sample.stored)))
  /\ Detection.name
       (Actions.built (Store.generateId Sample.clock) Sample.form
          (Store.isoString Sample.clock) (Some (Store.isoString Sample.clock)))
     = "PowerShell launch".
Proof.
  assert (Hin : In (Actions.built (Store.generateId Sample.clock) Sample.form
                      (Store.isoString Sample.clock) (Some (Store.isoString Sample.clock)))
                   (detections (fst (Store.saveDetection Sample.form Sample.clock
                                       Sample.stored))))
    by (vm_compute; auto).
  split; [exact Hin|].
  destruct (saved_records_are_normalised Sample.form Sample.clock Sample.stored _
              eq_refl eq_refl eq_refl Hin)
    as [[H | [_ [_ H]]] _].
  - vm_compute in H. destruct H as [H | [H | []]]; discriminate H.
  - exact H.
Defined.

(** A submitted rule counts for what it names: with nothing under edit, a
    name and the active box ticked, a technique whose id is one of the typed
    references, an ASCII text, trimmed and in upper case, is detected
    afterwards, and every technique that was detected still is. *)
Theorem create_covers_reference :
  forall (form : Store.Form) (clock : Store.Clock) (this : Tracker)
         (ref : string) (t : Technique.t),
    Store.editing this = None ->
    trim (Store.detectionName form) <> "" ->
    Store.detectionActive form = true ->
    In ref [Store.technique1 form; Store.technique2 form; Store.technique3 form] ->
    is_ascii ref = true ->
    Technique.id t = VStr (toUpperCase (trim ref)) ->
    Coverage.getTechniqueStatus (fst (Store.saveDetection form clock this)) t
    = Coverage.detected
    /\ forall t', Coverage.getTechniqueStatus this t' = Coverage.detected ->
                  Coverage.getTechniqueStatus (fst (Store.saveDetection form clock this)) t'
                  = Coverage.detected.
Proof.
  intros form clock this ref t Hcreate Hname Hactive Href _ Hid.
  destruct (saveDetection_cases form clock this)
    as [[Hempty _] | [_ [[eid [He _]] | [[eid [? [? [? [He _]]]]]
                                        | [record [_ [_ [_ [Hact [Hrefs Hsave]]]]]]]]]];
    try congruence.
  assert (Hcount : forall tid,
             Coverage.getDetectionRulesForTechnique
               (fst (Store.saveDetection form clock this)) tid
             = (Coverage.getDetectionRulesForTechnique this tid
                + (if Coverage.matches tid record then 1 else 0))%nat).
  { intros tid. rewrite Hsave. cbn [fst]. rewrite <- count_appended. reflexivity. }
  split.
  - apply status_by_count. rewrite Hcount.
    assert (Hm : Coverage.matches (Technique.id t) record = true).
    { rewrite matches_references, Hact, Hactive. apply references_refersTo.
      exists (toUpperCase (trim ref)). split; auto. rewrite Hrefs.
      simpl in Href. simpl. intuition (subst; auto). }
    rewrite Hm. lia.
  - intros t' Ht'. apply status_by_count. apply status_by_count in Ht'.
    rewrite Hcount. lia.
Qed.

Lemma create_covers_reference_witness :
  Coverage.getTechniqueStatus
    (fst (Store.saveDetection Sample.form Sample.clock Sample.stored))
    (Sample.technique "T1059.001" "execution" true (VStr "T1059"))
  = Coverage.detected.
Proof.
  refine (proj1 (create_covers_reference Sample.form Sample.clock Sample.stored " t1059.001"
                   (Sample.technique "T1059.001" "execution" true (VStr "T1059"))
                   eq_refl _ eq_refl (or_introl eq_refl) eq_refl eq_refl)).
  discriminate.
Defined.

(** A record that has just been created under an id that no stored record
    had can be edited: [editDetection] finds it, and the next
    [saveDetection] replaces it where it stands, under the same id, with a
    fresh [updatedAt] and without a [createdAt]. *)
Theorem create_then_edit :
  forall (form form2 : Store.Form) (clock clock2 : Store.Clock) (this : Tracker),
    Store.editing this = None ->
    trim (Store.detectionName form) <> "" ->
    trim (Store.detectionName form2) <> "" ->
    ~ In (Store.generateId clock) (List.map Detection.id (detections this)) ->
    let created := fst (Store.saveDetection form clock this) in
    let entered := Actions.editDetection (Store.generateId clock) created in
    snd entered = true
    /\ exists record,
         detections (fst (Store.saveDetection form2 clock2 (fst entered)))
         = (detections this ++ [record])%list
         /\ Detection.id record = Store.generateId clock
         /\ Detection.name record = trim (Store.detectionName form2)
         /\ Detection.updatedAt record = Store.isoString clock2
         /\ Detection.createdAt record = None.
Proof.
  intros form form2 clock clock2 this Hcreate Hname Hname2 Hfresh created entered.
  subst entered created. rewrite (save_create form clock this Hcreate Hname).
  cbn [fst snd detections set_detections set_editingDetectionId Actions.editDetection].
  rewrite (findIndex_appended (Store.generateId clock)) by auto.
  split; [reflexivity|].
  rewrite (save_edit form2 clock2 _ (Store.generateId clock) (List.length (detections this)));
    [|reflexivity | assumption
     | cbn [detections set_detections set_editingDetectionId];
       now apply findIndex_appended].
  cbn [fst detections set_detections set_editingDetectionId].
  rewrite assignAt_appended. eexists. split; [reflexivity|]. repeat split.
Qed.

Lemma create_then_edit_witness :
  exists record,
    detections
      (fst (Store.saveDetection Sample.form Sample.clock
              (fst (Actions.editDetection (Store.generateId Sample.clock)
                      (fst (Store.saveDetection Sample.form Sample.clock Sample.stored))))))
    = (detections Sample.stored ++ [record])%list
    /\ Detection.createdAt record = None.
Proof.
  destruct (create_then_edit Sample.form Sample.form Sample.clock Sample.clock Sample.stored
              eq_refl) as [_ [record [H [_ [_ [_ Hc]]]]]].
  - discriminate.
  - discriminate.
  - simpl. intuition discriminate.
  - exists record. split; [exact H | exact Hc].
Defined.

(* ===================================================================== *)
(** * The dashboard's counters and the coverage numbers *)
(* ===================================================================== *)

Section DashboardFacts.
Import Coverage Views.

(** Whether a technique is detected, decided. *)
Lemma statusCounts_from (this : Tracker) (counted : list Technique.t) (a b : nat) :
  fold_left
    (fun counts tech =>
       match getTechniqueStatus this tech with
       | Coverage.detected => mkStatusCounts (S (Views.detected counts)) (notDetected counts)
       | not_detected => mkStatusCounts (Views.detected counts) (S (notDetected counts))
       end)
    counted (mkStatusCounts a b)
  = mkStatusCounts
      (a + List.length (List.filter (fun t => (0 <? getDetectionRulesForTechnique this (Technique.id t))%nat) counted))
      (b + List.length (List.filter (fun t => negb (0 <? getDetectionRulesForTechnique this (Technique.id t))%nat) counted)).
Proof.
  revert a b. induction counted as [|t rest IH]; intros a b; simpl.
  - f_equal; lia.
  - cbn [fold_left List.filter].
    assert (E : getTechniqueStatus this t
                = if (0 <? getDetectionRulesForTechnique this (Technique.id t))%nat
                  then Coverage.detected else not_detected) by reflexivity.
    destruct (0 <? getDetectionRulesForTechnique this (Technique.id t))%nat;
      rewrite E; cbn [Views.detected notDetected negb]; rewrite IH;
      f_equal; cbn [List.length]; lia.
Qed.

Lemma coverage_sum_detected (this : Tracker) (counted : list Technique.t) :
  (fold_right Qplus 0 (List.map (coverageValue this) counted)
   == inject_Z (Z.of_nat (List.length
        (List.filter (fun t => (0 <? getDetectionRulesForTechnique this (Technique.id t))%nat)
                     counted))))%Q.
Proof.
  induction counted as [|t rest IH]; [reflexivity|].
  cbn [List.map fold_right List.filter]. rewrite IH.
  unfold coverageValue, getTechniqueStatus.
  destruct (0 <? getDetectionRulesForTechnique this (Technique.id t))%nat.
  - cbn [List.length]. rewrite Nat2Z.inj_succ. unfold Z.succ.
    rewrite inject_Z_plus. ring.
  - ring.
Qed.

Lemma filter_partition_length {A : Type} (p : A -> bool) (l : list A) :
  (List.length (List.filter p l) + List.length (List.filter (fun x => negb (p x)) l)
   = List.length l)%nat.
Proof. induction l as [|x rest IH]; simpl; auto. destruct (p x); simpl; lia. Qed.

(** The coverage numbers only depend on the status of the techniques they
    are taken over. *)
Lemma totalCoverage_ext (this this' : Tracker) (counted : list Technique.t) :
  (forall t, In t counted -> getTechniqueStatus this' t = getTechniqueStatus this t) ->
  totalCoverage this' counted = totalCoverage this counted.
Proof.
  unfold totalCoverage. generalize (Fin 0). induction counted as [|t rest IH]; intros start H;
    [reflexivity|].
  cbn [fold_left].
  replace (calculateCoverage this' t) with (calculateCoverage this t)
    by (unfold calculateCoverage; now rewrite (H t (or_introl eq_refl))).
  apply IH. intros. apply H. now right.
Qed.

Lemma coverage_ext (this this' : Tracker) :
  techniques this' = techniques this ->
  (forall t, In t (techniques this) ->
             getTechniqueStatus this' t = getTechniqueStatus this t) ->
  overallCoveragePercent this' = overallCoveragePercent this
  /\ (forall tactic, tacticCoverage this' tactic = tacticCoverage this tactic)
  /\ statusCounts this' = statusCounts this.
Proof.
  intros Htech Hstatus. split; [|split].
  - unfold overallCoveragePercent. rewrite Htech. now rewrite (totalCoverage_ext this this').
  - intros tactic. unfold tacticCoverage. rewrite Htech.
    rewrite (totalCoverage_ext this this'); auto.
    intros t Ht. apply filter_In in Ht as [Ht _]. auto.
  - unfold statusCounts. rewrite Htech. generalize (mkStatusCounts 0 0).
    clear Htech. revert Hstatus.
    induction (techniques this) as [|t rest IH]; intros Hstatus start;
      [reflexivity|].
    cbn [fold_left]. rewrite (Hstatus t (or_introl eq_refl)).
    apply IH. intros. apply Hstatus. now right.
Qed.

Lemma status_of_count (this this' : Tracker) (t : Technique.t) :
  getDetectionRulesForTechnique this' (Technique.id t)
  = getDetectionRulesForTechnique this (Technique.id t) ->
  getTechniqueStatus this' t = getTechniqueStatus this t.
Proof. unfold getTechniqueStatus. now intros ->. Qed.

Lemma filter_permutation {A : Type} (p : A -> bool) (l l' : list A) :
  Permutation l l' -> Permutation (List.filter p l) (List.filter p l').
Proof.
  induction 1 as [| x l l' _ IH | x y l | l l' l'' _ IH1 _ IH2]; simpl; auto.
  - destruct (p x); auto.
  - destruct (p x), (p y); auto. apply perm_swap.
  - eapply perm_trans; eauto.
Qed.

End DashboardFacts.

(** The dashboard's counters fit together: every technique is counted as
    detected or as not detected; the sum of the coverage units is the number
    of detected techniques; and no technique has more detection rules than
    there are active detections, which are at most all detections. *)
Theorem dashboard_counters :
  forall this : Tracker,
    (Views.detected (Views.statusCounts this) + Views.notDetected (Views.statusCounts this)
     = List.length (techniques this))%nat
    /\ num_same (Coverage.totalCoverage this (techniques this))
                (num_of_nat (Views.detected (Views.statusCounts this)))
    /\ (forall techniqueId,
          Coverage.getDetectionRulesForTechnique this techniqueId
          <= Views.totalDetections this)%nat
    /\ (Views.totalDetections this <= List.length (detections this))%nat.
Proof.
  intros this. unfold Views.statusCounts. rewrite statusCounts_from. cbn.
  split; [|split; [|split]].
  - apply filter_partition_length.
  - destruct (totalCoverage_sum this (techniques this)) as [total [-> Hsum]].
    constructor. rewrite Hsum. apply coverage_sum_detected.
  - intros tid. unfold Coverage.getDetectionRulesForTechnique, Views.totalDetections.
    induction (detections this) as [|d rest IH]; simpl; auto.
    rewrite matches_references.
    destruct (Detection.isActive d); simpl; [destruct (Coverage.references tid d); simpl|];
      lia.
  - apply filter_length_le.
Qed.

Section BoundFacts.
Import Coverage Views.

(** The mean of the coverage units of a non-empty list, through the number
    of detected techniques. *)
Lemma mean_by_count (this : Tracker) (t : Technique.t) (rest : list Technique.t) :
  (mean (List.map (coverageValue this) (t :: rest))
   == inject_Z (Z.of_nat (List.length
         (List.filter (fun t => (0 <? getDetectionRulesForTechnique this (Technique.id t))%nat)
                      (t :: rest))))
      / inject_Z (Z.of_nat (List.length (t :: rest))))%Q.
Proof.
  unfold mean. cbn [List.map]. rewrite <- (coverage_sum_detected this (t :: rest)).
  cbn [List.map List.length]. rewrite length_map. reflexivity.
Qed.

(** The percentage of a non-empty list of techniques is the quotient of the
    number of detected ones by the number of all, times one hundred, in the
    arithmetic of doubles. *)
Lemma percent_by_count (this : Tracker) (t : Technique.t) (rest : list Technique.t) :
  num_mul (round (mean (List.map (coverageValue this) (t :: rest)))) (num_of_Z 100)
  = num_mul
      (num_div
         (num_of_nat (List.length
            (List.filter (fun t => (0 <? getDetectionRulesForTechnique this (Technique.id t))%nat)
                         (t :: rest))))
         (num_of_nat (List.length (t :: rest))))
      (num_of_Z 100).
Proof.
  unfold num_of_nat at 1 2. unfold num_of_Z at 2 3. unfold num_div.
  rewrite length_not_zero. f_equal. apply round_comp. apply mean_by_count.
Qed.

Lemma share_of_none (n : nat) : (inject_Z (Z.of_nat 0) / inject_Z (Z.of_nat n) == 0)%Q.
Proof. unfold Qdiv. apply Qmult_0_l. Qed.

Lemma share_of_all (n : nat) :
  (0 < n)%nat -> (inject_Z (Z.of_nat n) / inject_Z (Z.of_nat n) == 1)%Q.
Proof.
  intros Hn. apply Qmult_inv_r. intros E. unfold Qeq in E. simpl in E. lia.
Qed.

End BoundFacts.

(** A tactic's coverage is a percentage between 0 and 100 and never NaN; so
    is the overall coverage of a corpus with at least one technique, which is
    the quotient of the number of techniques that the dashboard counts as
    detected by the number of all techniques, times one hundred, in the
    arithmetic of doubles: 0 when none is detected, 100 when all are. *)
Theorem coverage_within_bounds :
  forall (this : Tracker),
    (forall tactic, exists q,
        Coverage.coverage (Coverage.tacticCoverage this tactic) = Fin q
        /\ (0 <= q <= 100)%Q)
    /\ (techniques this <> [] ->
        (exists q, Coverage.overallCoveragePercent this = Fin q /\ (0 <= q <= 100)%Q)
        /\ Coverage.overallCoveragePercent this
           = num_mul (num_div (num_of_nat (Views.detected (Views.statusCounts this)))
                              (num_of_nat (List.length (techniques this))))
                     (num_of_Z 100)
        /\ (Views.detected (Views.statusCounts this) = 0%nat ->
            Coverage.overallCoveragePercent this = Fin 0)
        /\ (Views.detected (Views.statusCounts this) = List.length (techniques this) ->
            Coverage.overallCoveragePercent this = Fin 100)).
Proof.
  intros this. split.
  - intros tactic. rewrite tacticCoverage_percent. apply percent_bounds.
    apply mean_of_coverage.
  - intros Hne. rewrite (overallCoverage_nonempty this Hne).
    unfold Views.statusCounts. rewrite statusCounts_from. cbn [Views.detected Nat.add].
    split; [apply percent_bounds, mean_of_coverage|].
    destruct (techniques this) as [|t rest]; [congruence|].
    split; [apply percent_by_count|]. split.
    + intros Hnone. apply percent_zero. rewrite mean_by_count, Hnone. apply share_of_none.
    + intros Hall. apply percent_one. rewrite mean_by_count, Hall. apply share_of_all.
      simpl. lia.
Qed.

Lemma coverage_within_bounds_witness :
  (exists q, Coverage.overallCoveragePercent (Sample.scenario true) = Fin q
             /\ (0 <= q <= 100)%Q)
  /\ Coverage.overallCoveragePercent (Sample.scenario true)
     = num_mul (num_div (num_of_nat 1) (num_of_nat 2)) (num_of_Z 100).
Proof.
  destruct (coverage_within_bounds (Sample.scenario true)) as [_ H].
  destruct H as [Hb [He _]]; [discriminate|]. split; [exact Hb | exact He].
Defined.

(** The coverage engine does not depend on the order of the detections:
    rearranging them changes no count, no status and no percentage. *)
Theorem coverage_ignores_order :
  forall (this : Tracker) (rearranged : list Detection.t),
    Permutation (detections this) rearranged ->
    (forall techniqueId,
        Coverage.getDetectionRulesForTechnique (set_detections rearranged this) techniqueId
        = Coverage.getDetectionRulesForTechnique this techniqueId)
    /\ (forall t, Coverage.getTechniqueStatus (set_detections rearranged this) t
                  = Coverage.getTechniqueStatus this t)
    /\ Coverage.overallCoveragePercent (set_detections rearranged this)
       = Coverage.overallCoveragePercent this
    /\ (forall tactic, Coverage.tacticCoverage (set_detections rearranged this) tactic
                       = Coverage.tacticCoverage this tactic).
Proof.
  intros this rearranged Hperm.
  assert (Hcount : forall tid,
             Coverage.getDetectionRulesForTechnique (set_detections rearranged this) tid
             = Coverage.getDetectionRulesForTechnique this tid).
  { intros tid. unfold Coverage.getDetectionRulesForTechnique. cbn [detections set_detections].
    symmetry. apply Permutation_length, filter_permutation, Hperm. }
  assert (Hstatus : forall t, Coverage.getTechniqueStatus (set_detections rearranged this) t
                              = Coverage.getTechniqueStatus this t).
  { intros t. apply status_of_count, Hcount. }
  destruct (coverage_ext this (set_detections rearranged this) eq_refl) as [Ho [Ht _]]; auto.
Qed.

Lemma coverage_ignores_order_witness :
  Coverage.overallCoveragePercent
    (set_detections (List.rev (detections Sample.stored)) Sample.stored)
  = Coverage.overallCoveragePercent Sample.stored.
Proof.
  apply (coverage_ignores_order Sample.stored (List.rev (detections Sample.stored))).
  apply Permutation_rev.
Defined.

Lemma totalDetections_appended (this : Tracker) (added : Detection.t) :
  Views.totalDetections (set_detections (detections this ++ [added])%list this)
  = (Views.totalDetections this + (if Detection.isActive added then 1 else 0))%nat.
Proof.
  unfold Views.totalDetections. cbn [detections set_detections].
  rewrite filter_app, length_app. cbn [List.filter].
  now destruct (Detection.isActive added).
Qed.

(** A reference that names no loaded technique counts for nothing: adding a
    detection none of whose references is the id of a technique of the
    corpus changes no status, no percentage and neither of the two status
    counters; the counter of the active detections rises by one when the
    added detection is active. *)
Theorem dangling_references_never_match :
  forall (this : Tracker) (added : Detection.t),
    (forall t ref, In t (techniques this) -> In ref (Coverage.techniqueRefs added) ->
                   Technique.id t <> VStr ref) ->
    let after := set_detections (detections this ++ [added])%list this in
    (forall t, In t (techniques this) ->
               Coverage.getTechniqueStatus after t = Coverage.getTechniqueStatus this t)
    /\ Coverage.overallCoveragePercent after = Coverage.overallCoveragePercent this
    /\ (forall tactic, Coverage.tacticCoverage after tactic
                       = Coverage.tacticCoverage this tactic)
    /\ Views.statusCounts after = Views.statusCounts this
    /\ Views.totalDetections after
       = (Views.totalDetections this + (if Detection.isActive added then 1 else 0))%nat.
Proof.
  intros this added Hdangling after.
  assert (Hstatus : forall t, In t (techniques this) ->
                              Coverage.getTechniqueStatus after t
                              = Coverage.getTechniqueStatus this t).
  { intros t Ht. apply status_of_count. subst after. rewrite count_appended.
    replace (Coverage.matches (Technique.id t) added) with false; [lia|].
    symmetry. rewrite matches_references.
    destruct (Coverage.references (Technique.id t) added) eqn:E;
      [|now rewrite andb_false_r].
    apply references_refersTo in E as [ref [Hin Hid]].
    exfalso. exact (Hdangling t ref Ht Hin Hid). }
  split; [exact Hstatus|].
  destruct (coverage_ext this after eq_refl Hstatus) as [H1 [H2 H3]].
  split; [exact H1|]. split; [exact H2|]. split; [exact H3|].
  apply totalDetections_appended.
Qed.

Lemma dangling_references_never_match_witness :
  Coverage.overallCoveragePercent
    (set_detections (detections (Sample.scenario true)
                     ++ [Sample.detection "det_7" true "T9999" "" ""])%list
                    (Sample.scenario true))
  = Coverage.overallCoveragePercent (Sample.scenario true)
  /\ Views.totalDetections
       (set_detections (detections (Sample.scenario true)
                        ++ [Sample.detection "det_7" true "T9999" "" ""])%list
                       (Sample.scenario true))
     = 2%nat.
Proof.
  destruct (dangling_references_never_match (Sample.scenario true)
              (Sample.detection "det_7" true "T9999" "" "")) as [_ [H [_ [_ Hn]]]].
  - intros t ref Ht Href. simpl in Ht, Href.
    destruct Ht as [<- | [<- | []]]; destruct Href as [<- | [<- | [<- | []]]]; discriminate.
  - split; [exact H | exact Hn].
Defined.

(** A matrix cell is never of the medium or the low class: the class that
    the copy with the tab bar derives from the coverage number is the one
    that the other copy derives from the status. *)
Theorem cell_class_is_binary :
  forall (this : Tracker) (tech : Technique.t),
    Views.coverageClass this tech = Views.coverageClass_byStatus this tech
    /\ (Views.coverageClass this tech = "coverage-high"
        \/ Views.coverageClass this tech = "coverage-none").
Proof.
  intros this tech.
  unfold Views.coverageClass, Views.coverageClass_byStatus, Coverage.calculateCoverage.
  destruct (Coverage.getTechniqueStatus this tech); split; auto.
Qed.

Section ChartFacts.
Import Coverage Views.

Lemma strict_eq_string_r (v : value) (s : string) :
  strict_eq v (VStr s) = true -> v = VStr s.
Proof.
  destruct v; simpl; try discriminate. intros H. apply String.eqb_eq in H. now subst.
Qed.

Lemma findTactic_found (shortName : string) (this : Tracker) (tactic : Tactic.t) :
  findTactic shortName this = Some tactic ->
  In tactic (tactics this) /\ Tactic.shortName tactic = VStr shortName.
Proof.
  unfold findTactic. intros H. apply find_some in H as [Hin Heq].
  split; auto. now apply strict_eq_string_r.
Qed.

Lemma spiderEntry_card (this : Tracker) (shortName : string) :
  spiderEntry this shortName
  = option_map (fun tactic => (Tactic.name tactic, coverage (tacticCoverage this tactic)))
               (findTactic shortName this).
Proof.
  unfold spiderEntry. destruct (findTactic shortName this) as [tactic|] eqn:E; [|reflexivity].
  apply findTactic_found in E as [_ Hshort].
  unfold tacticCoverage. cbn [option_map coverage]. now rewrite Hshort.
Qed.

Lemma notNull_map {A B : Type} (f : A -> B) (entries : list (option A)) :
  notNull (List.map (option_map f) entries) = List.map f (notNull entries).
Proof.
  induction entries as [|[x|] rest IH]; simpl; auto. now rewrite IH.
Qed.

Lemma notNull_length {A : Type} (entries : list (option A)) :
  (List.length (notNull entries) <= List.length entries)%nat.
Proof. induction entries as [|[x|] rest IH]; simpl; lia. Qed.

Lemma notNull_In {A : Type} (entries : list (option A)) (x : A) :
  In x (notNull entries) <-> In (Some x) entries.
Proof.
  induction entries as [|[y|] rest IH]; simpl; [tauto | |].
  - rewrite IH. split; intros [H | H]; auto; [left; congruence | left; congruence].
  - rewrite IH. split; [auto | intros [H | H]; [discriminate | auto]].
Qed.

End ChartFacts.

(** The radar chart plots the numbers of the tactic cards: one point per
    name of the kill chain that some tactic has as its short name, in the
    order of the kill chain, with the name and the coverage of the first such
    tactic; a tactic with another short name is not plotted. *)
Theorem chart_plots_card_values :
  forall this : Tracker,
    let plotted :=
      Views.notNull (List.map (fun shortName => Views.findTactic shortName this)
                              Views.killChainOrder) in
    Views.tacticData this
    = List.map (fun tactic => (Tactic.name tactic,
                               Coverage.coverage (Coverage.tacticCoverage this tactic)))
               plotted
    /\ (List.length (Views.tacticData this) <= 14)%nat
    /\ (forall tactic, In tactic plotted ->
          In tactic (tactics this)
          /\ exists shortName, In shortName Views.killChainOrder
                               /\ Tactic.shortName tactic = VStr shortName).
Proof.
  intros this plotted. subst plotted. unfold Views.tacticData. split; [|split].
  - rewrite <- notNull_map. f_equal. rewrite map_map. apply map_ext.
    intros shortName. apply spiderEntry_card.
  - eapply Nat.le_trans; [apply notNull_length|]. rewrite length_map. reflexivity.
  - intros tactic Hin. apply notNull_In, in_map_iff in Hin as [shortName [Hfind Hin]].
    apply findTactic_found in Hfind as [Ht Hs]. eauto.
Qed.

(** The matrix of the copy with the sidebar leaves out no technique of a
    group: the technique at position [i] of the group in column [k] stands
    in row [i], column [k]; there are as many rows as the longest group has
    techniques, and at least one; every row has a cell per group. *)
Theorem matrix_shows_whole_groups :
  forall (this : Tracker) (k i : nat) (group : Tactic.t * list Technique.t)
         (tech : Technique.t),
    nth_error (Views.tacticGroups this) k = Some group ->
    nth_error (snd group) i = Some tech ->
    (exists row, nth_error (Views.matrixRows this) i = Some row
                 /\ nth_error row k = Some (Some tech))
    /\ List.length (Views.matrixRows this) = Views.maxTechniques this
    /\ (1 <= Views.maxTechniques this)%nat
    /\ Forall (fun row => List.length row = List.length (Views.tacticGroups this))
              (Views.matrixRows this).
Proof.
  intros this k i group tech Hgroup Htech.
  assert (Hmax : forall groups : list (Tactic.t * list Technique.t),
             (1 <= fold_right Nat.max 1%nat (List.map (fun g => List.length (snd g)) groups))%nat
             /\ forall g, In g groups ->
                  (List.length (snd g)
                   <= fold_right Nat.max 1%nat (List.map (fun g => List.length (snd g)) groups))%nat).
  { induction groups as [|g rest [IH1 IH2]]; simpl; [split; [lia | tauto]|].
    split; [lia|]. intros g' [<- | Hin]; [lia|]. specialize (IH2 g' Hin). lia. }
  destruct (Hmax (Views.tacticGroups this)) as [Hone Hle].
  fold (Views.maxTechniques this) in Hone, Hle.
  unfold Views.matrixRows. split; [|split; [|split]].
  - assert (Hi : (i < Views.maxTechniques this)%nat).
    { apply nth_error_In in Hgroup. specialize (Hle group Hgroup).
      assert (i < List.length (snd group))%nat by (apply nth_error_Some; congruence). lia. }
    eexists. split.
    + apply map_nth_error. rewrite nth_error_seq.
      apply Nat.ltb_lt in Hi. rewrite Hi. reflexivity.
    + simpl. rewrite (map_nth_error _ _ _ Hgroup). now rewrite Htech.
  - now rewrite length_map, length_seq.
  - exact Hone.
  - apply Forall_forall. intros row Hrow. apply in_map_iff in Hrow as [j [<- _]].
    apply length_map.
Qed.

Lemma matrix_shows_whole_groups_witness :
  exists row, nth_error (Views.matrixRows Examples.crowded) 11 = Some row
              /\ nth_error row 0 = Some (Some (Sample.technique "T1012" "execution" false VNull)).
Proof.
  destruct (matrix_shows_whole_groups Examples.crowded 0 11
              (Tactic.mk (VStr "x-mitre-tactic--execution") (VStr "Execution")
                         (VStr "execution") VUndef,
               techniques Examples.crowded)
              (Sample.technique "T1012" "execution" false VNull) eq_refl eq_refl)
    as [H _].
  exact H.
Defined.

Section MatrixFacts.
Import Matrix.
Variable host : Host.t.

Lemma read_assign_same {A : Type} (key : string) (v : A) (obj : list (string * A)) :
  read key (assign key v obj) = Some v.
Proof.
  induction obj as [|[k x] rest IH]; simpl.
  - now rewrite String.eqb_refl.
  - destruct (String.eqb_spec k key) as [-> | Hne]; simpl.
    + now rewrite String.eqb_refl.
    + destruct (String.eqb_spec k key); [contradiction | exact IH].
Qed.

Lemma read_assign_other {A : Type} (key other : string) (v : A) (obj : list (string * A)) :
  other <> key -> read other (assign key v obj) = read other obj.
Proof.
  intros Hne. induction obj as [|[k x] rest IH]; simpl.
  - destruct (String.eqb_spec key other); [congruence | reflexivity].
  - destruct (String.eqb_spec k key) as [-> | Hk]; simpl.
    + destruct (String.eqb_spec key other); [congruence | reflexivity].
    + now rewrite IH.
Qed.

(** After the first loop the object holds, under a name that only one
    tactic has, the top-level techniques of that tactic. *)
Lemma tacticTechniques_read (this : Tracker) (listed : list Tactic.t)
      (obj : list (string * list Technique.t)) (tactic : Tactic.t) :
  NoDup (List.map (fun t => Normalizer.toString host (Tactic.name t)) listed) ->
  In tactic listed ->
  read (Normalizer.toString host (Tactic.name tactic))
       (fold_left
          (fun obj tactic =>
             assign (Normalizer.toString host (Tactic.name tactic)) (topLevel this tactic) obj)
          listed obj)
  = Some (topLevel this tactic).
Proof.
  revert obj. induction listed as [|x rest IH]; intros obj Hnodup Hin; [contradiction|].
  cbn [fold_left]. cbn [List.map] in Hnodup. inversion Hnodup as [|? ? Hx Hrest]; subst.
  destruct Hin as [-> | Hin]; [|now apply IH].
  clear IH Hnodup Hrest.
  assert (Hkeep : forall obj',
             read (Normalizer.toString host (Tactic.name tactic))
                  (fold_left
                     (fun obj tactic =>
                        assign (Normalizer.toString host (Tactic.name tactic))
                               (topLevel this tactic) obj)
                     rest obj')
             = read (Normalizer.toString host (Tactic.name tactic)) obj').
  { induction rest as [|y rest' IH']; intros obj'; [reflexivity|].
    cbn [fold_left]. cbn [List.map] in Hx. rewrite IH' by (intros H; apply Hx; now right).
    apply read_assign_other. intros E. apply Hx. left. now symmetry. }
  rewrite Hkeep. apply read_assign_same.
Qed.

Lemma max_at_least_ten (lengths : list nat) : (10 <= fold_right Nat.max 10 lengths)%nat.
Proof. induction lengths as [|n rest IH]; simpl; lia. Qed.

End MatrixFacts.

(** The matrix of the copy with the tab bar always has ten technique
    columns: a tactic's row shows the techniques at the first ten positions of
    its group, dashes after the last of them, and nothing beyond the tenth.
    When no other tactic has the same name, the group is the tactic's own
    top-level techniques. *)
Theorem matrix_keeps_ten_columns :
  forall (host : Host.t) (this : Tracker) (tactic : Tactic.t),
    Matrix.columns host this = 10%nat
    /\ List.length (Matrix.row host this tactic) = 10%nat
    /\ (NoDup (List.map (fun t => Normalizer.toString host (Tactic.name t)) (tactics this)) ->
        In tactic (tactics this) ->
        Matrix.row host this tactic
        = List.map (fun i => nth_error (Matrix.topLevel this tactic) i) (seq 0 10)).
Proof.
  intros host this tactic.
  assert (Hcolumns : Matrix.columns host this = 10%nat).
  { unfold Matrix.columns, Matrix.maxTechniques.
    pose proof (max_at_least_ten
                  (List.map (fun t => List.length t)
                            (Matrix.values (Matrix.tacticTechniques host this)))).
    lia. }
  split; [exact Hcolumns|]. unfold Matrix.row. rewrite Hcolumns. split.
  - now rewrite length_map, length_seq.
  - intros Hnodup Hin. unfold Matrix.tacticTechniques.
    now rewrite (tacticTechniques_read host this (tactics this) [] tactic Hnodup Hin).
Qed.

Lemma matrix_keeps_ten_columns_witness :
  List.map (option_map Technique.id)
           (Matrix.row Sample.host Examples.crowded
              (Tactic.mk (VStr "x-mitre-tactic--execution") (VStr "Execution")
                         (VStr "execution") VUndef))
  = List.map (fun id => Some (VStr id))
             ["T1001"; "T1002"; "T1003"; "T1004"; "T1005"; "T1006";
              "T1007"; "T1008"; "T1009"; "T1010"].
Proof.
  destruct (matrix_keeps_ten_columns Sample.host Examples.crowded
              (Tactic.mk (VStr "x-mitre-tactic--execution") (VStr "Execution")
                         (VStr "execution") VUndef)) as [_ [_ H]].
  rewrite H.
  - reflexivity.
  - repeat constructor. simpl. tauto.
  - left. reflexivity.
Defined.

(* ===================================================================== *)
(** * The techniques view, the links and the export *)
(* ===================================================================== *)

Section ViewFacts.
Import Coverage Views.

Lemma filter_throws {A : Type} (cb : A -> result bool) (items : list A) (x : A) (e : exn) :
  In x items -> cb x = Throw e -> completes (Js.filter cb items) = false.
Proof.
  induction items as [|y rest IH]; intros Hin Hx; [contradiction|].
  cbn [Js.filter]. destruct (cb y) as [keep|] eqn:Ey; [|reflexivity].
  destruct Hin as [-> | Hin]; [congruence|].
  cbn [Js.bind]. specialize (IH Hin Hx).
  destruct (Js.filter cb rest); [discriminate | reflexivity].
Qed.

Lemma shown_without_search (tacticFilterValue statusFilterValue : string)
      (this : Tracker) (tech : Technique.t) :
  shown "" tacticFilterValue statusFilterValue this tech
  = Ok (((tacticFilterValue =? "")%string || inTactic (VStr tacticFilterValue) tech)
        && ((statusFilterValue =? "")%string
            || (statusText (getTechniqueStatus this tech) =? statusFilterValue)%string)).
Proof. reflexivity. Qed.

Lemma status_filter_detected (this : Tracker) (listed : list Technique.t) :
  List.filter (fun tech => (statusText (getTechniqueStatus this tech) =? "detected")%string)
              listed
  = List.filter (fun t => (0 <? getDetectionRulesForTechnique this (Technique.id t))%nat)
                listed.
Proof.
  apply filter_ext. intros t. unfold getTechniqueStatus.
  now destruct (0 <? _)%nat.
Qed.

Lemma status_filter_not_detected (this : Tracker) (listed : list Technique.t) :
  List.filter (fun tech => (statusText (getTechniqueStatus this tech) =? "not detected")%string)
              listed
  = List.filter (fun t => negb (0 <? getDetectionRulesForTechnique this (Technique.id t))%nat)
                listed.
Proof.
  apply filter_ext. intros t. unfold getTechniqueStatus.
  now destruct (0 <? _)%nat.
Qed.

End ViewFacts.

(** The techniques view and the dashboard agree: without a search term and
    a tactic filter, the status filter 'detected' lists as many techniques as
    the dashboard counts as detected, 'not detected' as many as it counts as
    not detected, no filter at all lists every technique, and any other
    status value lists none. *)
Theorem status_filter_matches_dashboard :
  forall this : Tracker,
    Views.filteredTechniques "" "" "" this = Ok (techniques this)
    /\ (exists listed, Views.filteredTechniques "" "" "detected" this = Ok listed
                       /\ List.length listed = Views.detected (Views.statusCounts this))
    /\ (exists listed, Views.filteredTechniques "" "" "not detected" this = Ok listed
                       /\ List.length listed = Views.notDetected (Views.statusCounts this))
    /\ (forall other, other <> "" -> other <> "detected" -> other <> "not detected" ->
          Views.filteredTechniques "" "" other this = Ok []).
Proof.
  intros this. unfold Views.filteredTechniques, Views.statusCounts.
  rewrite statusCounts_from. cbn [Views.detected Views.notDetected Nat.add].
  split; [|split; [|split]].
  - rewrite (filter_pure _ (fun _ => true)) by reflexivity.
    f_equal. induction (techniques this) as [|t rest IH]; simpl; congruence.
  - eexists. split.
    + apply filter_pure. intros t _. apply shown_without_search.
    + cbn [String.eqb orb andb]. now rewrite status_filter_detected.
  - eexists. split.
    + apply filter_pure. intros t _. apply shown_without_search.
    + cbn [String.eqb orb andb]. now rewrite status_filter_not_detected.
  - intros other H0 H1 H2.
    rewrite (filter_pure _ (fun _ => false)).
    + f_equal. induction (techniques this) as [|t rest IH]; simpl; congruence.
    + intros t _. rewrite shown_without_search. cbn [String.eqb orb andb].
      apply String.eqb_neq in H0. rewrite H0. cbn [orb].
      destruct (Coverage.getTechniqueStatus this t); cbn [Views.statusText];
        f_equal; apply String.eqb_neq; congruence.
Qed.

(** A search reads the name of every technique whose id does not contain
    the term: when such a technique has no name (or one that is not a string),
    the filter ends in a TypeError instead of a list.  The term and the id
    are ASCII text. *)
Theorem search_reads_the_names :
  forall (searchValue tacticFilterValue statusFilterValue : string) (this : Tracker)
         (tech : Technique.t) (sid : string),
    is_ascii searchValue = true ->
    is_ascii sid = true ->
    Views.toLowerCase searchValue <> "" ->
    In tech (techniques this) ->
    Technique.id tech = VStr sid ->
    includes (Views.toLowerCase searchValue) (Views.toLowerCase sid) = false ->
    WellTyped.is_string (Technique.name tech) = false ->
    completes (Views.filteredTechniques searchValue tacticFilterValue statusFilterValue this)
    = false.
Proof.
  intros searchValue tf sf this tech sid _ _ Hterm Hin Hid Hmiss Hname.
  unfold Views.filteredTechniques. apply (filter_throws _ _ tech TypeError Hin).
  unfold Views.shown. apply String.eqb_neq in Hterm. rewrite Hterm, Hid.
  cbn [Views.lower_includes Js.bind]. rewrite Hmiss.
  destruct (Technique.name tech); try reflexivity. discriminate.
Qed.

Lemma search_reads_the_names_witness :
  completes (Views.filteredTechniques "Power" "" "" Examples.unnamed) = false.
Proof.
  apply (search_reads_the_names "Power" "" "" Examples.unnamed
           (Technique.mk (VStr "T1059") (VStr "attack-pattern--T1059") VUndef VUndef false
                         VNull [VStr "execution"] (VArr []) (VStr ""))
           "T1059").
  - reflexivity.
  - reflexivity.
  - discriminate.
  - left. reflexivity.
  - reflexivity.
  - reflexivity.
  - reflexivity.
Defined.

Section LinkFacts.
Import Actions.

Lemma replace_first_piece (piece rest : string) :
  includes "." piece = false ->
  replace_first "." "/" (piece ++ String "." rest) = piece ++ String "/" rest.
Proof.
  induction piece as [|c piece IH]; intros H.
  - reflexivity.
  - rewrite includes_dot_cons in H. apply orb_false_elim in H as [Hc Hrest].
    cbn [String.append replace_first]. rewrite Hc. now rewrite IH.
Qed.

Lemma replace_first_none (s : string) :
  includes "." s = false -> replace_first "." "/" s = s.
Proof.
  induction s as [|c rest IH]; intros H; [reflexivity|].
  rewrite includes_dot_cons in H. apply orb_false_elim in H as [Hc Hrest].
  cbn [replace_first]. rewrite Hc. now rewrite IH.
Qed.


End LinkFacts.

(** The link of a reference that no loaded technique has: the ATT&CK address
    with the id, in which only the first point becomes a slash, so that the id
    of a sub-technique gives the address of the sub-technique's page and a
    second point stays a point.  For an id that a technique has, the link is
    the url of the first such technique. *)
Theorem link_of_unknown_reference :
  forall (this : Tracker) (parent suffix : string),
    includes "." parent = false ->
    (forall t, In t (techniques this) ->
               Technique.id t <> VStr (parent ++ String "." suffix)) ->
    Actions.getTechniqueUrl (parent ++ String "." suffix) this
    = VStr ("https://attack.mitre.org/techniques/" ++ parent ++ String "/" suffix).
Proof.
  intros this parent suffix Hparent Hunknown. unfold Actions.getTechniqueUrl.
  destruct (List.find _ (techniques this)) as [tech|] eqn:E.
  - apply find_some in E as [Hin Heq]. apply strict_eq_string_r in Heq.
    exfalso. exact (Hunknown tech Hin Heq).
  - now rewrite replace_first_piece.
Qed.

Lemma link_of_unknown_reference_witness :
  Actions.getTechniqueUrl "T1059.001" Examples.crowded
  = VStr "https://attack.mitre.org/techniques/T1059/001".
Proof.
  apply (link_of_unknown_reference Examples.crowded "T1059" "001" eq_refl).
  intros t Hin. simpl in Hin.
  repeat (destruct Hin as [<- | Hin]; [discriminate|]). contradiction.
Defined.


(* ===================================================================== *)
(** * What the normalizer guarantees to the views *)
(* ===================================================================== *)

Section NormalizerFacts.
Import Normalizer WellTyped Coverage Views.

Lemma get_field (v : value) (k : string) (x : value) : get v k = Ok x -> x = field v k.
Proof. unfold field. now intros ->. Qed.

Lemma has_type_value (kind : string) (obj : value) (b : bool) :
  has_type kind obj = Ok b -> b = is_kind kind obj.
Proof.
  unfold has_type, is_kind. intros H. apply bind_Ok in H as [ty [Hty H]].
  apply get_field in Hty. subst ty. now injection H as <-.
Qed.

Lemma is_live_technique_value (obj : value) (b : bool) :
  is_live_technique obj = Ok b -> b = is_live obj.
Proof.
  unfold is_live_technique, is_live, is_kind. intros H.
  apply bind_Ok in H as [ty [Hty H]]. apply get_field in Hty. subst ty.
  destruct (strict_eq _ _); [|now injection H as <-].
  apply bind_Ok in H as [revoked [Hrevoked H]]. apply get_field in Hrevoked. subst revoked.
  destruct (truthy (field obj "revoked")); [now injection H as <-|].
  apply bind_Ok in H as [deprecated [Hdeprecated H]]. apply get_field in Hdeprecated.
  subst deprecated. now injection H as <-.
Qed.

Lemma filter_Ok_pure {A : Type} (cb : A -> result bool) (p : A -> bool)
      (items kept : list A) :
  (forall x b, In x items -> cb x = Ok b -> b = p x) ->
  Js.filter cb items = Ok kept -> kept = List.filter p items.
Proof.
  revert kept. induction items as [|x rest IH]; simpl; intros kept Hp H.
  - now injection H as <-.
  - apply bind_Ok in H as [keep [Hkeep H]]. apply bind_Ok in H as [kept0 [Hkept0 H]].
    injection H as <-. rewrite <- (Hp x keep (or_introl eq_refl) Hkeep).
    rewrite (IH kept0) by (auto; intros; eapply Hp; eauto). reflexivity.
Qed.

Lemma map_Ok_Forall2 {A B : Type} (cb : A -> result B) (items : list A) (ys : list B) :
  Js.map cb items = Ok ys -> Forall2 (fun x y => cb x = Ok y) items ys.
Proof.
  revert ys. induction items as [|x rest IH]; simpl; intros ys H.
  - injection H as <-. constructor.
  - apply bind_Ok in H as [y0 [Hy0 H]]. apply bind_Ok in H as [ys0 [Hys0 H]].
    injection H as <-. constructor; auto.
Qed.

(** The shape of what [toTechnique] returns. *)
Lemma toTechnique_shape (obj : value) (t : Technique.t) :
  toTechnique obj = Ok t ->
  id_includes_dot (Technique.id t) = Ok (Technique.isSubTechnique t)
  /\ (if Technique.isSubTechnique t then id_split_0 (Technique.id t) else Ok VNull)
     = Ok (Technique.parentId t).
Proof.
  unfold toTechnique. intros H.
  repeat match type of H with
         | Js.bind _ _ = Ok _ => apply bind_Ok in H as [? [? H]]
         end.
  injection H as <-. cbn [Technique.id Technique.isSubTechnique Technique.parentId].
  split; assumption.
Qed.

(** Appending a record that matches no technique changes no status and no
    percentage. *)
Lemma append_unmatched (this : Tracker) (added : Detection.t) :
  (forall t, In t (techniques this) -> matches (Technique.id t) added = false) ->
  let after := set_detections (detections this ++ [added])%list this in
  (forall t, In t (techniques this) ->
             getTechniqueStatus after t = getTechniqueStatus this t)
  /\ overallCoveragePercent after = overallCoveragePercent this
  /\ (forall tactic, tacticCoverage after tactic = tacticCoverage this tactic)
  /\ statusCounts after = statusCounts this.
Proof.
  intros Hnone after.
  assert (Hstatus : forall t, In t (techniques this) ->
                              getTechniqueStatus after t = getTechniqueStatus this t).
  { intros t Ht. apply status_of_count. subst after. rewrite count_appended.
    rewrite (Hnone t Ht). lia. }
  split; [exact Hstatus|]. apply (coverage_ext this after eq_refl Hstatus).
Qed.

(** The editing mark plays no part in the coverage. *)
Lemma coverage_ignores_editing (mark : option string) (this : Tracker) :
  (forall t, getTechniqueStatus (set_editingDetectionId mark this) t
             = getTechniqueStatus this t)
  /\ overallCoveragePercent (set_editingDetectionId mark this) = overallCoveragePercent this
  /\ (forall tactic, tacticCoverage (set_editingDetectionId mark this) tactic
                     = tacticCoverage this tactic)
  /\ statusCounts (set_editingDetectionId mark this) = statusCounts this.
Proof.
  assert (Hstatus : forall t, getTechniqueStatus (set_editingDetectionId mark this) t
                              = getTechniqueStatus this t) by reflexivity.
  split; [exact Hstatus|].
  apply (coverage_ext this (set_editingDetectionId mark this) eq_refl).
  intros t _. apply Hstatus.
Qed.

Lemma blank_reference (ref : string) : trim ref = "" -> toUpperCase (trim ref) = "".
Proof. now intros ->. Qed.

(** Either copy of [processAttackData] that ends abruptly has not reached
    the assignment to [this.techniques]. *)
Lemma abrupt_before_techniques (host : Host.t) (this : Tracker) (e : exn) :
  (snd (processAttackData host this) = Abrupt e ->
   techniques (fst (processAttackData host this)) = techniques this
   /\ detections (fst (processAttackData host this)) = detections this)
  /\ (snd (processAttackData_identityOnly host this) = Abrupt e ->
      techniques (fst (processAttackData_identityOnly host this)) = techniques this
      /\ detections (fst (processAttackData_identityOnly host this)) = detections this).
Proof.
  assert (Hassign : forall objects st,
             snd (assignCollections host objects st) = Abrupt e ->
             techniques (fst (assignCollections host objects st)) = techniques st
             /\ detections (fst (assignCollections host objects st)) = detections st).
  { intros objects st. unfold assignCollections, run.
    destruct (extractTactics host objects) as [tacs|]; [|now split].
    destruct (extractTechniques objects) as [ts|]; [discriminate | now split]. }
  assert (Hstop : forall objects out,
             stops_or_assigns host this objects out -> snd out = Abrupt e ->
             techniques (fst out) = techniques this
             /\ detections (fst out) = detections this).
  { intros objects out [labelled [Hsame [-> | [e' ->]]]] Habrupt.
    - apply Hassign in Habrupt as [-> ->]. split; apply Hsame.
    - split; apply Hsame. }
  split.
  - pose proof (processAttackData_shape host this) as H.
    destruct (objects_of this) as [objects|]; [now apply (Hstop objects)|].
    rewrite H. discriminate.
  - pose proof (processAttackData_identityOnly_shape host this) as H.
    destruct (objects_of this) as [objects|]; [now apply (Hstop objects)|].
    rewrite H. discriminate.
Qed.

End NormalizerFacts.

(** Every technique that the normalizer returns has a non-empty id; one
    marked as a sub-technique has a string id with a point and, as parent, the
    part of the id before the first point, which has no point itself; one not
    marked so has the parent [null] and, when its id is a string, no point in
    it. *)
Theorem normalized_technique_shape :
  forall (objects : value) (ts : list Technique.t) (t : Technique.t),
    Normalizer.extractTechniques objects = Ok ts -> In t ts ->
    truthy (Technique.id t) = true
    /\ (Technique.isSubTechnique t = true ->
        exists sid, Technique.id t = VStr sid /\ includes "." sid = true
                    /\ Technique.parentId t = VStr (split_0 "." sid)
                    /\ includes "." (split_0 "." sid) = false)
    /\ (Technique.isSubTechnique t = false ->
        Technique.parentId t = VNull
        /\ forall sid, Technique.id t = VStr sid -> includes "." sid = false).
Proof.
  intros objects ts t H Hin.
  destruct (extractTechniques_source objects ts t H Hin)
    as [items [obj [_ [_ [_ [Hto Hid]]]]]].
  apply toTechnique_shape in Hto as [Hdot Hparent].
  split; [exact Hid|]. split.
  - intros Hsub. rewrite Hsub in Hdot, Hparent.
    destruct (Technique.id t) as [| | | |sid| |]; try discriminate.
    exists sid. simpl in Hdot, Hparent. injection Hdot as Hdot. injection Hparent as Hparent.
    repeat split; auto. apply split_0_no_dot.
  - intros Hsub. rewrite Hsub in Hdot, Hparent. injection Hparent as Hparent.
    split; [auto|]. intros sid Hsid. rewrite Hsid in Hdot. simpl in Hdot.
    now injection Hdot as Hdot.
Qed.

Lemma normalized_technique_shape_witness :
  exists sid,
    Technique.id (Sample.technique "T1059.001" "execution" true (VStr "T1059")) = VStr sid
    /\ includes "." sid = true
    /\ Technique.parentId (Sample.technique "T1059.001" "execution" true (VStr "T1059"))
       = VStr (split_0 "." sid)
    /\ includes "." (split_0 "." sid) = false.
Proof.
  refine (proj1 (proj2 (normalized_technique_shape (field Sample.corpus "objects")
                          (techniques Examples.loaded)
                          (Sample.technique "T1059.001" "execution" true (VStr "T1059"))
                          _ _)) eq_refl).
  - vm_compute. reflexivity.
  - vm_compute. auto.
Defined.

(** The normalizer neither loses nor repeats an entry: the tactics are the
    images of the objects of type x-mitre-tactic, one per object, and the
    techniques the images of the attack-patterns that are neither revoked nor
    deprecated, one per object, without those whose id is empty; sorting only
    rearranges them. *)
Theorem normalization_keeps_every_entry :
  forall (host : Host.t) (items : list value),
    (forall tacs, Normalizer.extractTactics host (VArr items) = Ok tacs ->
       exists mapped,
         Forall2 (fun obj tac => Normalizer.toTactic obj = Ok tac)
                 (List.filter (WellTyped.is_kind "x-mitre-tactic") items) mapped
         /\ Permutation mapped tacs)
    /\ (forall ts, Normalizer.extractTechniques (VArr items) = Ok ts ->
          exists mapped,
            Forall2 (fun obj t => Normalizer.toTechnique obj = Ok t)
                    (List.filter WellTyped.is_live items) mapped
            /\ Permutation (List.filter (fun t => truthy (Technique.id t)) mapped) ts).
Proof.
  intros host items. split.
  - intros tacs H. unfold Normalizer.extractTactics in H. cbn [as_array Js.bind] in H.
    apply bind_Ok in H as [selected [Hsel H]].
    apply bind_Ok in H as [mapped [Hmapped Hsort]].
    apply (filter_Ok_pure _ (WellTyped.is_kind "x-mitre-tactic")) in Hsel;
      [|intros x b _; apply has_type_value].
    subst selected. exists mapped. split.
    + now apply map_Ok_Forall2.
    + eapply sort_Ok_perm; eauto.
  - intros ts H. unfold Normalizer.extractTechniques, Normalizer.identifiedTechniques in H.
    cbn [as_array Js.bind] in H.
    apply bind_Ok in H as [identified [H Hsort]].
    apply bind_Ok in H as [live [Hlive H]].
    apply bind_Ok in H as [mapped [Hmapped Hid]].
    apply (filter_Ok_pure _ WellTyped.is_live) in Hlive;
      [|intros x b _; apply is_live_technique_value].
    apply (filter_Ok_pure _ (fun t => truthy (Technique.id t))) in Hid;
      [|intros x b _ Hb; now injection Hb as <-].
    subst live identified. exists mapped. split.
    + now apply map_Ok_Forall2.
    + eapply sort_Ok_perm; eauto.
Qed.

Lemma normalization_keeps_every_entry_witness :
  exists mapped,
    Forall2 (fun obj t => Normalizer.toTechnique obj = Ok t)
            (List.filter WellTyped.is_live (WellTyped.elements (field Sample.corpus "objects")))
            mapped
    /\ Permutation (List.filter (fun t => truthy (Technique.id t)) mapped)
                   (techniques Examples.loaded).
Proof.
  apply (proj2 (normalization_keeps_every_entry Sample.host
                  (WellTyped.elements (field Sample.corpus "objects")))).
  vm_compute. reflexivity.
Defined.

(** A load that ends in an exception leaves the techniques and the
    detections as they were, in both copies of [processAttackData]: the
    techniques are assigned last. *)
Theorem failed_load_keeps_techniques :
  forall (host : Host.t) (this : Tracker) (e : exn),
    (snd (Normalizer.processAttackData host this) = Abrupt e ->
     techniques (fst (Normalizer.processAttackData host this)) = techniques this
     /\ detections (fst (Normalizer.processAttackData host this)) = detections this)
    /\ (snd (Normalizer.processAttackData_identityOnly host this) = Abrupt e ->
        techniques (fst (Normalizer.processAttackData_identityOnly host this))
        = techniques this
        /\ detections (fst (Normalizer.processAttackData_identityOnly host this))
           = detections this).
Proof. intros host this e. apply abrupt_before_techniques. Qed.

Lemma failed_load_keeps_techniques_witness :
  snd (Normalizer.processAttackData Sample.host
         (set_attackData Examples.halfLoaded (Sample.scenario true))) = Abrupt TypeError
  /\ techniques (fst (Normalizer.processAttackData Sample.host
                        (set_attackData Examples.halfLoaded (Sample.scenario true))))
     = techniques (set_attackData Examples.halfLoaded (Sample.scenario true))
  /\ detections (fst (Normalizer.processAttackData Sample.host
                        (set_attackData Examples.halfLoaded (Sample.scenario true))))
     = detections (set_attackData Examples.halfLoaded (Sample.scenario true)).
Proof.
  split; [vm_compute; reflexivity|].
  apply (proj1 (failed_load_keeps_techniques Sample.host
                  (set_attackData Examples.halfLoaded (Sample.scenario true)) TypeError)).
  vm_compute. reflexivity.
Defined.

(** A rule saved without references counts for no technique of a normalized
    corpus, because the normalizer drops the techniques with an empty id:
    creating a rule whose three reference fields are blank changes no status,
    no percentage and neither of the two status counters; the counter of the
    active detections rises by one when the rule has a name and is active. *)
Theorem unmapped_rule_covers_nothing :
  forall (objects : value) (this : Tracker) (form : Store.Form) (clock : Store.Clock),
    Normalizer.extractTechniques objects = Ok (techniques this) ->
    Store.editing this = None ->
    trim (Store.technique1 form) = "" ->
    trim (Store.technique2 form) = "" ->
    trim (Store.technique3 form) = "" ->
    let after := fst (Store.saveDetection form clock this) in
    (forall t, In t (techniques this) ->
               Coverage.getTechniqueStatus after t = Coverage.getTechniqueStatus this t)
    /\ Coverage.overallCoveragePercent after = Coverage.overallCoveragePercent this
    /\ (forall tactic, Coverage.tacticCoverage after tactic
                       = Coverage.tacticCoverage this tactic)
    /\ Views.statusCounts after = Views.statusCounts this
    /\ Views.totalDetections after
       = (Views.totalDetections this
          + (if negb (trim (Store.detectionName form) =? "")%string
                && Store.detectionActive form
             then 1 else 0))%nat.
Proof.
  intros objects this form clock Hnormal Hcreate H1 H2 H3 after. subst after.
  destruct (string_dec (trim (Store.detectionName form)) "") as [Hblank | Hname].
  - unfold Store.saveDetection. rewrite Hblank. cbn [String.eqb fst negb andb].
    repeat split; auto.
  - rewrite (save_create form clock this Hcreate Hname). cbn [fst].
    set (added := Actions.built _ _ _ _).
    destruct (coverage_ignores_editing None
                (set_detections (detections this ++ [added])%list this))
      as [E1 [E2 [E3 E4]]].
    destruct (append_unmatched this added) as [A1 [A2 [A3 A4]]].
    { intros t Ht.
      destruct (extractTechniques_source objects _ t Hnormal Ht)
        as [items [obj [_ [_ [_ [_ Hid]]]]]].
      subst added. unfold Coverage.matches, Actions.built.
      cbn [Detection.isActive Detection.technique1 Detection.technique2 Detection.technique3].
      rewrite !blank_reference by assumption.
      destruct (Technique.id t) as [| | | |sid| |]; try now rewrite andb_false_r.
      simpl in Hid. cbn [strict_eq]. apply negb_true_iff in Hid.
      replace (("" =? sid)%string) with false; [now rewrite andb_false_r|].
      symmetry. rewrite String.eqb_sym. exact Hid. }
    split; [|split; [|split; [|split]]].
    + intros t Ht. rewrite E1. now apply A1.
    + now rewrite E2.
    + intros tactic. now rewrite E3.
    + now rewrite E4.
    + apply String.eqb_neq in Hname. rewrite Hname. cbn [negb andb].
      change (Views.totalDetections
                (set_editingDetectionId None
                   (set_detections (detections this ++ [added])%list this)))
        with (Views.totalDetections
                (set_detections (detections this ++ [added])%list this)).
      rewrite totalDetections_appended. reflexivity.
Qed.

Lemma unmapped_rule_covers_nothing_witness :
  Coverage.overallCoveragePercent
    (fst (Store.saveDetection Examples.blankReferences Sample.clock Examples.loaded))
  = Coverage.overallCoveragePercent Examples.loaded
  /\ Views.totalDetections
       (fst (Store.saveDetection Examples.blankReferences Sample.clock Examples.loaded))
     = 1%nat.
Proof.
  destruct (unmapped_rule_covers_nothing (field Sample.corpus "objects") Examples.loaded
              Examples.blankReferences Sample.clock) as [_ [H [_ [_ Hn]]]];
    try (vm_compute; reflexivity).
  split; [exact H | exact Hn].
Defined.

Section CollationFacts.
Import Normalizer WellTyped.

Lemma positive_number (z : Z) : num_gtb (num_of_Z z) (Fin 0) = (0 <? z)%Z.
Proof.
  unfold num_gtb, num_of_Z, Qle_bool, inject_Z. cbn [Qnum Qden].
  rewrite Z.mul_1_r. cbn [Z.mul]. rewrite Z.ltb_antisym. reflexivity.
Qed.

(** The collation of the sample host is a total preorder. *)
Lemma sample_collation_transitive (a b c : string) :
  (Host.localeCompare Sample.host a b <= 0 ->
   Host.localeCompare Sample.host b c <= 0 ->
   Host.localeCompare Sample.host a c <= 0)%Z.
Proof.
  cbn [Host.localeCompare Sample.host].
  destruct (String.compare a b) eqn:Eab; [| |lia].
  - apply String.compare_eq_iff in Eab. subst b. auto.
  - destruct (String.compare b c) eqn:Ebc; [| |lia].
    + apply String.compare_eq_iff in Ebc. subst c. rewrite Eab. lia.
    + intros _ _.
      apply OrderedTypeEx.String_as_OT.cmp_lt in Eab, Ebc.
      pose proof (OrderedTypeEx.String_as_OT.lt_trans _ _ _ Eab Ebc) as Hac.
      apply OrderedTypeEx.String_as_OT.cmp_lt in Hac.
      unfold OrderedTypeEx.String_as_OT.cmp in Hac. rewrite Hac. lia.
Qed.

Lemma sample_collation_total (a b : string) :
  (0 < Host.localeCompare Sample.host a b -> Host.localeCompare Sample.host b a <= 0)%Z.
Proof.
  cbn [Host.localeCompare Sample.host]. rewrite (String.compare_antisym b a).
  destruct (String.compare a b); cbn [CompOpp]; lia.
Qed.

End CollationFacts.

(** The tactics are arranged by name in the order of the host's collation:
    when the collation is a total preorder and the tactics have names, each
    tactic of the result stands before those whose name collates after
    its own. *)
Theorem tactics_sorted_by_name :
  forall (host : Host.t) (items : list value) (tacs : list Tactic.t),
    (forall a b c, (Host.localeCompare host a b <= 0 ->
                    Host.localeCompare host b c <= 0 ->
                    Host.localeCompare host a c <= 0)%Z) ->
    (forall a b, (0 < Host.localeCompare host a b -> Host.localeCompare host b a <= 0)%Z) ->
    Normalizer.extractTactics host (VArr items) = Ok tacs ->
    Forall (fun t => WellTyped.is_string (Tactic.name t) = true) tacs ->
    StronglySorted
      (fun a b => (Host.localeCompare host (Normalizer.toString host (Tactic.name a))
                                      (Normalizer.toString host (Tactic.name b)) <= 0)%Z)
      tacs.
Proof.
  intros host items tacs Htrans Htotal H Hnamed.
  unfold Normalizer.extractTactics in H. cbn [as_array Js.bind] in H.
  apply bind_Ok in H as [selected [_ H]].
  apply bind_Ok in H as [mapped [_ Hsort]].
  pose proof (sort_Ok_perm _ _ _ Hsort) as Hperm.
  set (gt := fun x y : Tactic.t =>
               (0 <? Host.localeCompare host (Normalizer.toString host (Tactic.name x))
                                        (Normalizer.toString host (Tactic.name y)))%Z).
  rewrite (sort_pure _ gt) in Hsort.
  - injection Hsort as <-. apply (stable_sort_sorted gt).
    + intros x y z. apply Htrans.
    + intros x y Hgt. subst gt. cbn beta in Hgt. apply Z.ltb_ge in Hgt. exact Hgt.
    + intros x y Hgt. subst gt. cbn beta in Hgt. apply Z.ltb_lt in Hgt. now apply Htotal.
  - intros x y Hx Hy. eexists. split.
    + rewrite Forall_forall in Hnamed.
      apply compareTactics_strings; apply Hnamed; eapply Permutation_in; eauto.
    + apply positive_number.
Qed.

Lemma tactics_sorted_by_name_witness :
  StronglySorted
    (fun a b => (Host.localeCompare Sample.host
                   (Normalizer.toString Sample.host (Tactic.name a))
                   (Normalizer.toString Sample.host (Tactic.name b)) <= 0)%Z)
    (tactics Examples.loaded).
Proof.
  apply (tactics_sorted_by_name Sample.host
           (WellTyped.elements (field Sample.corpus "objects"))).
  - exact sample_collation_transitive.
  - exact sample_collation_total.
  - vm_compute. reflexivity.
  - vm_compute. repeat constructor.
Defined.
